(** * Social-Media-App: relational store, row-level security and client handlers

    A shallow embedding of the two migrations under [supabase/migrations]
    (tables, constraints, row-level-security policies) and of the React
    handlers that talk to the store (Feed, PostDetail, Profile,
    FriendRequests, Friends), followed by the properties the specification
    states about them. *)

From Stdlib Require Import List String Bool ZArith Lia Permutation Sorted.
Import ListNotations.
Open Scope string_scope.

(** ** Column types *)

Definition uuid := string.
Definition text := string.
Definition timestamptz := Z.   (* microseconds since the epoch *)

(** ** SQL three-valued logic

    A policy expression evaluates to true, false or NULL; a row passes a
    USING or WITH CHECK clause only when the expression is true. *)

Module Sql.

Definition sqlbool := option bool.

Definition sql_and (a b : sqlbool) : sqlbool :=
  match a, b with
  | Some false, _ => Some false
  | _, Some false => Some false
  | Some true, Some true => Some true
  | _, _ => None
  end.

Definition sql_or (a b : sqlbool) : sqlbool :=
  match a, b with
  | Some true, _ => Some true
  | _, Some true => Some true
  | Some false, Some false => Some false
  | _, _ => None
  end.

(** [x = y] on nullable text/uuid columns: NULL when either side is NULL. *)
Definition sql_eq (a b : option string) : sqlbool :=
  match a, b with
  | Some x, Some y => Some (String.eqb x y)
  | _, _ => None
  end.

(** [x IN (y1, ..., yn)] is [x = y1 OR ... OR x = yn]. *)
Fixpoint sql_in (a : option string) (l : list (option string)) : sqlbool :=
  match l with
  | [] => Some false
  | y :: l' => sql_or (sql_eq a y) (sql_in a l')
  end.

(** A row is kept by a WHERE / USING / WITH CHECK clause iff the clause is true. *)
Definition holds (b : sqlbool) : bool :=
  match b with
  | Some true => true
  | _ => false
  end.

(** [EXISTS (SELECT 1 FROM rows WHERE cond)]: never NULL. *)
Definition sql_exists {A} (rows : list A) (cond : A -> sqlbool) : sqlbool :=
  Some (existsb (fun r => holds (cond r)) rows).

End Sql.
Import Sql.

(** ** Tables (one module per table, columns keep their SQL names) *)

Module profiles.
Record row := mk {
  id : uuid;
  username : text;
  full_name : option text;
  avatar_url : option text;
  bio : option text;
  created_at : option timestamptz
}.
End profiles.

Module posts.
Record row := mk {
  id : uuid;
  author_id : uuid;
  content : text;
  image_url : option text;
  created_at : option timestamptz;
  updated_at : option timestamptz;
  visibility : option text   (* text DEFAULT 'public', nullable, unchecked *)
}.
End posts.

Module likes.
Record row := mk {
  id : uuid;
  post_id : uuid;
  user_id : uuid;
  created_at : option timestamptz
}.
End likes.

Module comments.
Record row := mk {
  id : uuid;
  post_id : uuid;
  user_id : uuid;
  content : text;
  created_at : option timestamptz
}.
End comments.

Module friends.
Record row := mk {
  id : uuid;
  sender_id : uuid;
  receiver_id : uuid;
  status : text;             (* CHECK (status IN ('pending','accepted')) *)
  created_at : option timestamptz
}.
End friends.

Module shared_posts.
Record row := mk {
  id : uuid;
  post_id : uuid;
  user_id : uuid;
  created_at : option timestamptz
}.
End shared_posts.

Record database := mkdb {
  tbl_profiles : list profiles.row;
  tbl_posts : list posts.row;
  tbl_likes : list likes.row;
  tbl_comments : list comments.row;
  tbl_friends : list friends.row;
  tbl_shared_posts : list shared_posts.row
}.

(** ** Row-level-security policies

    [uid] is [auth.uid()]: the caller's identity, NULL for an anonymous
    caller. *)

Module Rls.

(** "Users can view their own friend requests" *)
Definition friends_select (uid : option uuid) (f : friends.row) : sqlbool :=
  sql_or (sql_eq uid (Some (friends.sender_id f)))
         (sql_eq uid (Some (friends.receiver_id f))).

(** "Users can send friend requests" *)
Definition friends_insert (uid : option uuid) (f : friends.row) : sqlbool :=
  sql_eq uid (Some (friends.sender_id f)).

(** "Users can accept/reject friend requests" *)
Definition friends_update (uid : option uuid) (f : friends.row) : sqlbool :=
  sql_eq uid (Some (friends.receiver_id f)).

(** "Users can remove friends" *)
Definition friends_delete (uid : option uuid) (f : friends.row) : sqlbool :=
  sql_in uid [Some (friends.sender_id f); Some (friends.receiver_id f)].

(** The friends rows the caller's own sub-select can see. *)
Definition visible_friends (uid : option uuid) (db : database) : list friends.row :=
  filter (fun f => holds (friends_select uid f)) (tbl_friends db).

(** "Posts are viewable based on visibility" (replaces "Posts are
    viewable by everyone", dropped by the second migration). *)
Definition posts_select (uid : option uuid) (db : database) (p : posts.row) : sqlbool :=
  sql_or
    (sql_or (sql_eq (posts.visibility p) (Some "public"))
            (sql_eq uid (Some (posts.author_id p))))
    (sql_and (sql_eq (posts.visibility p) (Some "friends"))
             (sql_exists (visible_friends uid db)
                (fun f =>
                   sql_and
                     (sql_or
                        (sql_and (sql_eq (Some (friends.sender_id f)) uid)
                                 (sql_eq (Some (friends.receiver_id f)) (Some (posts.author_id p))))
                        (sql_and (sql_eq (Some (friends.receiver_id f)) uid)
                                 (sql_eq (Some (friends.sender_id f)) (Some (posts.author_id p)))))
                     (sql_eq (Some (friends.status f)) (Some "accepted"))))).

(** "Users can insert own posts", "... update own posts", "... delete own posts" *)
Definition posts_insert (uid : option uuid) (p : posts.row) : sqlbool :=
  sql_eq uid (Some (posts.author_id p)).
Definition posts_update (uid : option uuid) (p : posts.row) : sqlbool :=
  sql_eq uid (Some (posts.author_id p)).
Definition posts_delete (uid : option uuid) (p : posts.row) : sqlbool :=
  sql_eq uid (Some (posts.author_id p)).

(** likes: viewable by everyone, insert/delete own *)
Definition likes_select (uid : option uuid) (l : likes.row) : sqlbool := Some true.
Definition likes_insert (uid : option uuid) (l : likes.row) : sqlbool :=
  sql_eq uid (Some (likes.user_id l)).
Definition likes_delete (uid : option uuid) (l : likes.row) : sqlbool :=
  sql_eq uid (Some (likes.user_id l)).

(** comments: viewable by everyone, insert/update/delete own *)
Definition comments_select (uid : option uuid) (c : comments.row) : sqlbool := Some true.
Definition comments_insert (uid : option uuid) (c : comments.row) : sqlbool :=
  sql_eq uid (Some (comments.user_id c)).
Definition comments_update (uid : option uuid) (c : comments.row) : sqlbool :=
  sql_eq uid (Some (comments.user_id c)).
Definition comments_delete (uid : option uuid) (c : comments.row) : sqlbool :=
  sql_eq uid (Some (comments.user_id c)).

(** shared_posts: viewable by everyone, insert/delete own *)
Definition shared_posts_select (uid : option uuid) (s : shared_posts.row) : sqlbool := Some true.
Definition shared_posts_insert (uid : option uuid) (s : shared_posts.row) : sqlbool :=
  sql_eq uid (Some (shared_posts.user_id s)).
Definition shared_posts_delete (uid : option uuid) (s : shared_posts.row) : sqlbool :=
  sql_eq uid (Some (shared_posts.user_id s)).

(** profiles: "Public profiles are viewable by everyone" *)
Definition profiles_select (uid : option uuid) (p : profiles.row) : sqlbool := Some true.

(** "Users can insert their own profile", "Users can update own profile" *)
Definition profiles_insert (uid : option uuid) (p : profiles.row) : sqlbool :=
  sql_eq uid (Some (profiles.id p)).
Definition profiles_update (uid : option uuid) (p : profiles.row) : sqlbool :=
  sql_eq uid (Some (profiles.id p)).

End Rls.

(** The viewer [uid] can read post [p]: the SELECT policy on posts holds. *)
Definition can_read (db : database) (uid : option uuid) (p : posts.row) : bool :=
  holds (Rls.posts_select uid db p).

(** A friends row connects [a] and [b], in either direction. *)
Definition connects (a b : uuid) (f : friends.row) : Prop :=
  (friends.sender_id f = a /\ friends.receiver_id f = b) \/
  (friends.receiver_id f = a /\ friends.sender_id f = b).

Definition connectsb (a b : uuid) (f : friends.row) : bool :=
  (String.eqb (friends.sender_id f) a && String.eqb (friends.receiver_id f) b) ||
  (String.eqb (friends.receiver_id f) a && String.eqb (friends.sender_id f) b).

(** An accepted edge joins viewer [uid] and user [author]. *)
Definition accepted_edge (db : database) (uid : option uuid) (author : uuid) : Prop :=
  exists v f, uid = Some v /\ In f (tbl_friends db) /\
              friends.status f = "accepted" /\ connects v author f.

(** ** The store's answers

    supabase-js resolves every call to [{ data, error }]; it does not throw. *)

Inductive pg_error :=
| rls_violation                 (* 42501: new row violates row-level security policy *)
| check_violation               (* 23514 *)
| unique_violation              (* 23505 *)
| foreign_key_violation         (* 23503 *)
| invalid_text_representation   (* 22P02: a filter value that is not a uuid *)
| untranslatable_character      (* 22P05: \u0000 cannot be converted to text *)
| PGRST116                      (* .single(): zero rows or more than one *)
| fetch_failed.                 (* the store could not be reached *)

Inductive response (A : Type) :=
| Ok (data : A)
| Err (error : pg_error).
Arguments Ok {A} data.
Arguments Err {A} error.

Definition pg_error_eqb (a b : pg_error) : bool :=
  match a, b with
  | rls_violation, rls_violation
  | check_violation, check_violation
  | unique_violation, unique_violation
  | foreign_key_violation, foreign_key_violation
  | invalid_text_representation, invalid_text_representation
  | untranslatable_character, untranslatable_character
  | PGRST116, PGRST116
  | fetch_failed, fetch_failed => true
  | _, _ => false
  end.

(** [try { ... if (error) throw error; ... }]: sequencing of store answers. *)
Definition bind {A B} (r : response A) (k : A -> response B) : response B :=
  match r with
  | Ok a => k a
  | Err e => Err e
  end.

Notation "x <- r ;; k" := (bind r (fun x => k))
  (at level 61, r at next level, right associativity).

(** ** Stable sort, for ORDER BY and Array.prototype.sort

    [before a b = true] when [a] must come strictly before [b]. *)

Section Sort.
Context {A : Type} (before : A -> A -> bool).

Fixpoint insert_sorted (x : A) (l : list A) : list A :=
  match l with
  | [] => [x]
  | y :: l' => if before y x then y :: insert_sorted x l' else x :: l
  end.

Definition sort_by (l : list A) : list A :=
  fold_right insert_sorted [] l.
End Sort.

(** Descending on a numeric key. *)
Definition sort_desc {A} (key : A -> Z) : list A -> list A :=
  sort_by (fun a b => Z.ltb (key b) (key a)).

(** [new Date(created_at).getTime()].  A [timestamptz] is the store's value
    in microseconds since the epoch; the client's [Date] keeps whole
    milliseconds and drops the rest of the fraction.
    [new Date(null).getTime()] is 0. *)
Definition js_time (t : option timestamptz) : Z :=
  match t with
  | Some x => (x / 1000)%Z
  | None => 0%Z
  end.

(** ** Table updates on the database record *)

Definition with_posts (db : database) (l : list posts.row) : database :=
  mkdb (tbl_profiles db) l (tbl_likes db) (tbl_comments db) (tbl_friends db) (tbl_shared_posts db).
Definition with_likes (db : database) (l : list likes.row) : database :=
  mkdb (tbl_profiles db) (tbl_posts db) l (tbl_comments db) (tbl_friends db) (tbl_shared_posts db).
Definition with_comments (db : database) (l : list comments.row) : database :=
  mkdb (tbl_profiles db) (tbl_posts db) (tbl_likes db) l (tbl_friends db) (tbl_shared_posts db).
Definition with_friends (db : database) (l : list friends.row) : database :=
  mkdb (tbl_profiles db) (tbl_posts db) (tbl_likes db) (tbl_comments db) l (tbl_shared_posts db).
Definition with_shared_posts (db : database) (l : list shared_posts.row) : database :=
  mkdb (tbl_profiles db) (tbl_posts db) (tbl_likes db) (tbl_comments db) (tbl_friends db) l.

(** ** Strings of the client

    The text of an input box is taken as the sequence of its code points.
    [String.prototype.trim] strips white space and line terminators from
    both ends: tab, line feed, vertical tab, form feed, carriage return,
    space, no-break space, U+1680, U+2000 to U+200A, U+2028, U+2029, U+202F,
    U+205F, U+3000 and U+FEFF.  Each of them is one code unit, so trimming
    code points and trimming code units give the same text. *)

Definition js_string := list N.

Definition is_js_whitespace (c : N) : bool :=
  N.eqb c 9 || N.eqb c 10 || N.eqb c 11 || N.eqb c 12 || N.eqb c 13 ||
  N.eqb c 32 || N.eqb c 160 || N.eqb c 5760 ||
  (N.leb 8192 c && N.leb c 8202) ||
  N.eqb c 8232 || N.eqb c 8233 || N.eqb c 8239 || N.eqb c 8287 ||
  N.eqb c 12288 || N.eqb c 65279.

Fixpoint trimStart (s : js_string) : js_string :=
  match s with
  | [] => []
  | c :: s' => if is_js_whitespace c then trimStart s' else s
  end.

Fixpoint trimEnd (s : js_string) : js_string :=
  match s with
  | [] => []
  | c :: s' =>
      match trimEnd s' with
      | [] => if is_js_whitespace c then [] else [c]
      | t => c :: t
      end
  end.

Definition trim (s : js_string) : js_string := trimEnd (trimStart s).



(** ** From the request body to a text value

    A string travels in the JSON body of the request and the store turns it
    into a value of type text, held in UTF-8.  U+0000 cannot be converted
    (22P05).  A surrogate that is not part of a pair, which is what a
    surrogate among code points is, and a number beyond U+10FFFF are no
    valid escape (22P02).  The first such code point decides. *)

Definition is_scalar_value (c : N) : bool :=
  N.ltb c 55296 || (N.ltb 57343 c && N.ltb c 1114112).

Fixpoint text_error (s : js_string) : option pg_error :=
  match s with
  | [] => None
  | c :: s' =>
      if N.eqb c 0 then Some untranslatable_character
      else if negb (is_scalar_value c) then Some invalid_text_representation
      else text_error s'
  end.

Definition utf8_bytes (c : N) : list N :=
  if N.ltb c 128 then [c]
  else if N.ltb c 2048 then [(192 + c / 64)%N; (128 + c mod 64)%N]
  else if N.ltb c 65536
       then [(224 + c / 4096)%N; (128 + (c / 64) mod 64)%N; (128 + c mod 64)%N]
  else [(240 + c / 262144)%N; (128 + (c / 4096) mod 64)%N;
        (128 + (c / 64) mod 64)%N; (128 + c mod 64)%N].

Definition utf8 (s : js_string) : text :=
  string_of_list_ascii (map Ascii.ascii_of_N (flat_map utf8_bytes s)).

Definition json_text (s : js_string) : response text :=
  match text_error s with
  | Some e => Err e
  | None => Ok (utf8 s)
  end.

(** An ASCII literal as a string of the client, for the examples. *)
Definition js (s : string) : js_string :=
  map Ascii.N_of_ascii (list_ascii_of_string s).

(** ** The store: constraints, policies and statements

    Every statement runs as the caller [uid].  An INSERT checks, in this
    order, the policy's WITH CHECK, the CHECK constraints, the unique
    indexes and the foreign keys, and fails with an error.  UPDATE and
    DELETE only touch the rows that pass the SELECT policy and their own
    USING policy: the other rows are skipped silently, without an error.
    [new_id] and [now] stand for [gen_random_uuid()] and [now()]. *)

Module Store.

Definition profile_exists (db : database) (u : uuid) : bool :=
  existsb (fun p => String.eqb (profiles.id p) u) (tbl_profiles db).

Definition post_exists (db : database) (p : uuid) : bool :=
  existsb (fun r => String.eqb (posts.id r) p) (tbl_posts db).

(** *** friends *)

(** CHECK (status IN ('pending', 'accepted')) *)
Definition friends_status_check (f : friends.row) : bool :=
  String.eqb (friends.status f) "pending" || String.eqb (friends.status f) "accepted".

(** UNIQUE(sender_id, receiver_id): the ordered pair. *)
Definition friends_unique_conflict (db : database) (sender receiver : uuid) : bool :=
  existsb (fun f => String.eqb (friends.sender_id f) sender &&
                    String.eqb (friends.receiver_id f) receiver) (tbl_friends db).

(** INSERT INTO friends (sender_id, receiver_id): status takes its default. *)
Definition insert_friends (uid : option uuid) (new_id : uuid) (now : timestamptz)
           (sender receiver : uuid) (db : database) : response database :=
  let r := friends.mk new_id sender receiver "pending" (Some now) in
  if negb (holds (Rls.friends_insert uid r)) then Err rls_violation
  else if negb (friends_status_check r) then Err check_violation
  else if existsb (fun f => String.eqb (friends.id f) new_id) (tbl_friends db)
       then Err unique_violation
  else if friends_unique_conflict db sender receiver then Err unique_violation
  else if negb (profile_exists db sender && profile_exists db receiver)
       then Err foreign_key_violation
  else Ok (with_friends db (tbl_friends db ++ [r])).

Definition set_status (s : text) (f : friends.row) : friends.row :=
  friends.mk (friends.id f) (friends.sender_id f) (friends.receiver_id f) s
             (friends.created_at f).

Definition friends_update_target (uid : option uuid) (where_id : uuid) (f : friends.row) : bool :=
  String.eqb (friends.id f) where_id &&
  holds (Rls.friends_select uid f) && holds (Rls.friends_update uid f).

(** UPDATE friends SET status = s WHERE id = where_id.  The policy has no
    WITH CHECK, so its USING expression also checks the new row. *)
Definition update_friends_status (uid : option uuid) (s : text) (where_id : uuid)
           (db : database) : response database :=
  let rows := tbl_friends db in
  let target := friends_update_target uid where_id in
  if existsb (fun f => target f && negb (holds (Rls.friends_update uid (set_status s f)))) rows
  then Err rls_violation
  else if existsb (fun f => target f && negb (friends_status_check (set_status s f))) rows
  then Err check_violation
  else Ok (with_friends db (map (fun f => if target f then set_status s f else f) rows)).

Definition friends_delete_target (uid : option uuid) (where_id : uuid) (f : friends.row) : bool :=
  String.eqb (friends.id f) where_id &&
  holds (Rls.friends_select uid f) && holds (Rls.friends_delete uid f).

(** DELETE FROM friends WHERE id = where_id *)
Definition delete_friends (uid : option uuid) (where_id : uuid) (db : database)
  : response database :=
  Ok (with_friends db
        (filter (fun f => negb (friends_delete_target uid where_id f)) (tbl_friends db))).

(** *** likes *)

(** UNIQUE(post_id, user_id) *)
Definition likes_unique_conflict (db : database) (post user : uuid) : bool :=
  existsb (fun l => String.eqb (likes.post_id l) post &&
                    String.eqb (likes.user_id l) user) (tbl_likes db).

Definition insert_likes (uid : option uuid) (new_id : uuid) (now : timestamptz)
           (post user : uuid) (db : database) : response database :=
  let r := likes.mk new_id post user (Some now) in
  if negb (holds (Rls.likes_insert uid r)) then Err rls_violation
  else if existsb (fun l => String.eqb (likes.id l) new_id) (tbl_likes db)
       then Err unique_violation
  else if likes_unique_conflict db post user then Err unique_violation
  else if negb (post_exists db post && profile_exists db user)
       then Err foreign_key_violation
  else Ok (with_likes db (tbl_likes db ++ [r])).

Definition likes_delete_target (uid : option uuid) (post user : uuid) (l : likes.row) : bool :=
  String.eqb (likes.post_id l) post && String.eqb (likes.user_id l) user &&
  holds (Rls.likes_select uid l) && holds (Rls.likes_delete uid l).

(** DELETE FROM likes WHERE post_id = post AND user_id = user *)
Definition delete_likes (uid : option uuid) (post user : uuid) (db : database)
  : response database :=
  Ok (with_likes db
        (filter (fun l => negb (likes_delete_target uid post user l)) (tbl_likes db))).

(** *** shared_posts *)

(** UNIQUE(post_id, user_id) *)
Definition shared_posts_unique_conflict (db : database) (post user : uuid) : bool :=
  existsb (fun s => String.eqb (shared_posts.post_id s) post &&
                    String.eqb (shared_posts.user_id s) user) (tbl_shared_posts db).

Definition insert_shared_posts (uid : option uuid) (new_id : uuid) (now : timestamptz)
           (post user : uuid) (db : database) : response database :=
  let r := shared_posts.mk new_id post user (Some now) in
  if negb (holds (Rls.shared_posts_insert uid r)) then Err rls_violation
  else if existsb (fun s => String.eqb (shared_posts.id s) new_id) (tbl_shared_posts db)
       then Err unique_violation
  else if shared_posts_unique_conflict db post user then Err unique_violation
  else if negb (post_exists db post && profile_exists db user)
       then Err foreign_key_violation
  else Ok (with_shared_posts db (tbl_shared_posts db ++ [r])).

Definition shared_posts_delete_target (uid : option uuid) (post user : uuid)
           (s : shared_posts.row) : bool :=
  String.eqb (shared_posts.post_id s) post && String.eqb (shared_posts.user_id s) user &&
  holds (Rls.shared_posts_select uid s) && holds (Rls.shared_posts_delete uid s).

Definition delete_shared_posts (uid : option uuid) (post user : uuid) (db : database)
  : response database :=
  Ok (with_shared_posts db
        (filter (fun s => negb (shared_posts_delete_target uid post user s))
                (tbl_shared_posts db))).

  (** *** posts *)

Definition set_content (c : text) (p : posts.row) : posts.row :=
    posts.mk (posts.id p) (posts.author_id p) c (posts.image_url p)
             (posts.created_at p) (posts.updated_at p) (posts.visibility p).

Definition posts_update_target (uid : option uuid) (db : database)
             (where_id where_author : uuid) (p : posts.row) : bool :=
    String.eqb (posts.id p) where_id && String.eqb (posts.author_id p) where_author &&
    holds (Rls.posts_select uid db p) && holds (Rls.posts_update uid p).

  (** UPDATE posts SET content = c WHERE id = where_id AND author_id = where_author *)
Definition update_posts_content (uid : option uuid) (c : text)
             (where_id where_author : uuid) (db : database) : response database :=
    let rows := tbl_posts db in
    let target := posts_update_target uid db where_id where_author in
    if existsb (fun p => target p && negb (holds (Rls.posts_update uid (set_content c p)))) rows
    then Err rls_violation
    else Ok (with_posts db (map (fun p => if target p then set_content c p else p) rows)).

Definition posts_delete_target (uid : option uuid) (db : database)
             (where_id where_author : uuid) (p : posts.row) : bool :=
    String.eqb (posts.id p) where_id && String.eqb (posts.author_id p) where_author &&
    holds (Rls.posts_select uid db p) && holds (Rls.posts_delete uid p).

  (** DELETE FROM posts WHERE id = where_id AND author_id = where_author;
      likes, comments and shared_posts reference posts ON DELETE CASCADE. *)
Definition delete_posts (uid : option uuid) (where_id where_author : uuid)
             (db : database) : response database :=
    let target := posts_delete_target uid db where_id where_author in
    let gone := map posts.id (filter target (tbl_posts db)) in
    let survives (post : uuid) := negb (existsb (String.eqb post) gone) in
    Ok (mkdb (tbl_profiles db)
             (filter (fun p => negb (target p)) (tbl_posts db))
             (filter (fun l => survives (likes.post_id l)) (tbl_likes db))
             (filter (fun c => survives (comments.post_id c)) (tbl_comments db))
             (tbl_friends db)
             (filter (fun s => survives (shared_posts.post_id s)) (tbl_shared_posts db))).

  (** *** comments *)

Definition set_comment_content (c : text) (r : comments.row) : comments.row :=
    comments.mk (comments.id r) (comments.post_id r) (comments.user_id r) c
                (comments.created_at r).

Definition comments_update_target (uid : option uuid) (where_id : uuid)
             (r : comments.row) : bool :=
    String.eqb (comments.id r) where_id &&
    holds (Rls.comments_select uid r) && holds (Rls.comments_update uid r).

  (** UPDATE comments SET content = c WHERE id = where_id ("Users can update
      own comments"; no handler of the client issues it). *)
Definition update_comments_content (uid : option uuid) (c : text) (where_id : uuid)
             (db : database) : response database :=
    let rows := tbl_comments db in
    let target := comments_update_target uid where_id in
    if existsb (fun r => target r &&
                         negb (holds (Rls.comments_update uid (set_comment_content c r)))) rows
    then Err rls_violation
    else Ok (with_comments db
               (map (fun r => if target r then set_comment_content c r else r) rows)).

Definition comments_delete_target (uid : option uuid) (where_id where_user : uuid)
             (r : comments.row) : bool :=
    String.eqb (comments.id r) where_id && String.eqb (comments.user_id r) where_user &&
    holds (Rls.comments_select uid r) && holds (Rls.comments_delete uid r).

  (** DELETE FROM comments WHERE id = where_id AND user_id = where_user *)
Definition delete_comments (uid : option uuid) (where_id where_user : uuid)
             (db : database) : response database :=
    Ok (with_comments db
          (filter (fun r => negb (comments_delete_target uid where_id where_user r))
                  (tbl_comments db))).

  (** INSERT INTO comments (post_id, user_id, content), on a row whose
      content is already a text value of the store. *)
Definition insert_comments (uid : option uuid) (new_id : uuid) (now : timestamptz)
             (post user : uuid) (c : text) (db : database) : response database :=
    let r := comments.mk new_id post user c (Some now) in
    if negb (holds (Rls.comments_insert uid r)) then Err rls_violation
    else if existsb (fun x => String.eqb (comments.id x) new_id) (tbl_comments db)
         then Err unique_violation
    else if negb (post_exists db post && profile_exists db user)
         then Err foreign_key_violation
    else Ok (with_comments db (tbl_comments db ++ [r])).

  (** from('comments').insert([{ post_id, user_id, content }]) with the
      content as the client sends it: the row is built from the body first,
      and a content the store cannot take as text ends the statement there,
      with nothing stored. *)
Definition insert_comments_body (uid : option uuid) (new_id : uuid) (now : timestamptz)
             (post user : uuid) (content : js_string) (db : database)
    : response database :=
    c <- json_text content ;;
    insert_comments uid new_id now post user c db.

  (** INSERT INTO posts (author_id, content, image_url, visibility);
      created_at and updated_at both default to now(). *)
Definition insert_posts (uid : option uuid) (new_id : uuid) (now : timestamptz)
             (author : uuid) (c : text) (image : option text) (vis : option text)
             (db : database) : response database :=
    let r := posts.mk new_id author c image (Some now) (Some now) vis in
    if negb (holds (Rls.posts_insert uid r)) then Err rls_violation
    else if existsb (fun x => String.eqb (posts.id x) new_id) (tbl_posts db)
         then Err unique_violation
    else if negb (profile_exists db author) then Err foreign_key_violation
    else Ok (with_posts db (tbl_posts db ++ [r])).

  (** *** profiles *)

Definition set_profile_fields (full_name bio avatar_url : text) (p : profiles.row)
    : profiles.row :=
    profiles.mk (profiles.id p) (profiles.username p) (Some full_name) (Some avatar_url)
                (Some bio) (profiles.created_at p).

Definition profiles_update_target (uid : option uuid) (where_id : uuid)
             (p : profiles.row) : bool :=
    String.eqb (profiles.id p) where_id &&
    holds (Rls.profiles_select uid p) && holds (Rls.profiles_update uid p).

  (** UPDATE profiles SET full_name = .., bio = .., avatar_url = .. WHERE id = where_id *)
Definition update_profiles (uid : option uuid) (full_name bio avatar_url : text)
             (where_id : uuid) (db : database) : response database :=
    let rows := tbl_profiles db in
    let target := profiles_update_target uid where_id in
    let set := set_profile_fields full_name bio avatar_url in
    if existsb (fun p => target p && negb (holds (Rls.profiles_update uid (set p)))) rows
    then Err rls_violation
    else Ok (mkdb (map (fun p => if target p then set p else p) rows)
                  (tbl_posts db) (tbl_likes db) (tbl_comments db) (tbl_friends db)
                  (tbl_shared_posts db)).


  (** *** reads *)

  (** SELECT ... FROM posts: the rows the SELECT policy lets through. *)
Definition select_posts (uid : option uuid) (db : database) : list posts.row :=
    filter (can_read db uid) (tbl_posts db).

Definition select_friends (uid : option uuid) (db : database) : list friends.row :=
    Rls.visible_friends uid db.

Definition select_shared_posts (uid : option uuid) (db : database) : list shared_posts.row :=
    filter (fun s => holds (Rls.shared_posts_select uid s)) (tbl_shared_posts db).

Definition select_comments (uid : option uuid) (db : database) : list comments.row :=
    filter (fun c => holds (Rls.comments_select uid c)) (tbl_comments db).

  (** Embedded resources of a select string. *)
Record profile_embed := mk_profile_embed {
    username : text;
    avatar_url : option text
  }.

  (** [profiles:col (username, avatar_url)]: the referenced profile, or null. *)
Definition embed_profile (uid : option uuid) (db : database) (ref : uuid)
    : option profile_embed :=
    option_map (fun p => mk_profile_embed (profiles.username p) (profiles.avatar_url p))
      (find (fun p => String.eqb (profiles.id p) ref && holds (Rls.profiles_select uid p))
            (tbl_profiles db)).

  (** [likes (user_id)] *)
Definition embed_likes (uid : option uuid) (db : database) (post : uuid) : list uuid :=
    map likes.user_id
        (filter (fun l => String.eqb (likes.post_id l) post && holds (Rls.likes_select uid l))
                (tbl_likes db)).

  (** [comments (id)] *)
Definition embed_comments (uid : option uuid) (db : database) (post : uuid) : list uuid :=
    map comments.id
        (filter (fun c => String.eqb (comments.post_id c) post &&
                          holds (Rls.comments_select uid c))
                (tbl_comments db)).

  (** [shared_posts (user_id)] *)
Definition embed_shared_posts (uid : option uuid) (db : database) (post : uuid) : list uuid :=
    map shared_posts.user_id
        (filter (fun s => String.eqb (shared_posts.post_id s) post &&
                          holds (Rls.shared_posts_select uid s))
                (tbl_shared_posts db)).

  (** [.single()]: exactly one row, else PGRST116. *)
Definition single {A} (rows : list A) : response A :=
    match rows with
    | [x] => Ok x
    | _ => Err PGRST116
    end.

  (** ORDER BY created_at DESC (NULLs first). *)
Definition order_created_desc {A} (created : A -> option timestamptz) : list A -> list A :=
    sort_by (fun a b =>
               match created a, created b with
               | None, Some _ => true
               | Some x, Some y => Z.ltb y x
               | _, _ => false
               end).

  (** ORDER BY created_at ASC (NULLs last). *)
Definition order_created_asc {A} (created : A -> option timestamptz) : list A -> list A :=
    sort_by (fun a b =>
               match created a, created b with
               | Some _, None => true
               | Some x, Some y => Z.ltb x y
               | _, _ => false
               end).

End Store.

(** ** The client's connection to the store *)

Record server := mksrv {
  srv_db : database;
  srv_online : bool
}.

(** A read: the answer of the store, or [fetch_failed] when it cannot be reached. *)
Definition query {A} (srv : server) (q : database -> response A) : response A :=
  if srv_online srv then q (srv_db srv) else Err fetch_failed.

(** A write: the store after the statement, and the [error] field of the answer. *)
Definition mutate (srv : server) (m : database -> response database)
  : server * option pg_error :=
  if srv_online srv then
    match m (srv_db srv) with
    | Ok db' => (mksrv db' (srv_online srv), None)
    | Err e => (srv, Some e)
    end
  else (srv, Some fetch_failed).

(** ** Client components

    Every handler is a function of the signed-in [user] (the same identity
    the store sees as [auth.uid()]), the server and the component's state.
    [setError(err instanceof Error ? err.message : fallback)] is kept as the
    thrown error together with the fallback text. *)

Record ui_error := mk_ui_error {
  thrown : pg_error;
  fallback : string
}.

(** *** Feed.tsx *)

Module Feed.

Record Post := mkPost {
  row : posts.row;                              (* the columns selected by [*] *)
  profiles : option Store.profile_embed;
  likes : list uuid;                            (* { user_id }[] *)
  comments : list uuid;                         (* { id }[] *)
  shared_posts : list uuid;                     (* { user_id }[] *)
  shared_by : option (option Store.profile_embed)   (* absent on original posts *)
}.

(** A row of the shared_posts query. *)
Record Share := mkShare {
  post_id : uuid;
  share_profiles : option Store.profile_embed;  (* profiles:user_id *)
  share_posts : option Post                     (* posts:post_id, null when not readable *)
}.

Record State := mkState {
  posts : list Post;
  loading : bool;
  error : option ui_error;
  editingPost : option uuid;
  editContent : string
}.

(** [useState] initial values. *)
Definition initial : State := mkState [] true None None EmptyString.

Definition setError (st : State) (e : ui_error) : State :=
  mkState (posts st) (loading st) (Some e) (editingPost st) (editContent st).

Definition post_json (uid : option uuid) (db : database) (p : posts.row) : Post :=
  mkPost p
         (Store.embed_profile uid db (posts.author_id p))
         (Store.embed_likes uid db (posts.id p))
         (Store.embed_comments uid db (posts.id p))
         (Store.embed_shared_posts uid db (posts.id p))
         None.

(** from('posts').select(`*, profiles:author_id (...), likes (user_id),
    comments (id), shared_posts (user_id)`).order('created_at', desc) *)
Definition select_original (uid : option uuid) (db : database) : response (list Post) :=
  Ok (map (post_json uid db)
          (Store.order_created_desc posts.created_at (Store.select_posts uid db))).

(** The post a share row references, as the caller may read it. *)
Definition embed_post (uid : option uuid) (db : database) (ref : uuid) : option Post :=
  option_map (post_json uid db)
             (find (fun p => String.eqb (posts.id p) ref) (Store.select_posts uid db)).

(** from('shared_posts').select(`post_id, profiles:user_id (...),
    posts:post_id (...)`).order('created_at', desc) *)
Definition select_shared (uid : option uuid) (db : database) : response (list Share) :=
  Ok (map (fun s => mkShare (shared_posts.post_id s)
                            (Store.embed_profile uid db (shared_posts.user_id s))
                            (embed_post uid db (shared_posts.post_id s)))
          (Store.order_created_desc shared_posts.created_at
                                    (Store.select_shared_posts uid db))).

(** sharedPosts.filter(share => share.posts)
               .map(share => ({ ...share.posts, shared_by: share.profiles })) *)
Definition transformedSharedPosts (sharedPosts : list Share) : list Post :=
  flat_map (fun share =>
              match share_posts share with
              | Some p => [mkPost (row p) (profiles p) (likes p) (comments p)
                                  (shared_posts p) (Some (share_profiles share))]
              | None => []
              end) sharedPosts.

(** The body of the [try] block of fetchPosts, up to [setPosts]. *)
Definition fetchPosts_try (originalR : response (list Post))
           (sharedR : response (list Share)) : response (list Post) :=
  originalPosts <- originalR ;;
  sharedPosts <- sharedR ;;
  Ok (sort_desc (fun p => js_time (posts.created_at (row p)))
                (originalPosts ++ transformedSharedPosts sharedPosts)).

(** The state setters fetchPosts may call. *)
Inductive setter :=
| setPosts (allPosts : list Post)
| setErrorTo (e : ui_error)
| setLoading (b : bool).

Definition apply_setter (st : State) (s : setter) : State :=
  match s with
  | setPosts allPosts =>
      mkState allPosts (loading st) (error st) (editingPost st) (editContent st)
  | setErrorTo e =>
      mkState (posts st) (loading st) (Some e) (editingPost st) (editContent st)
  | setLoading b =>
      mkState (posts st) b (error st) (editingPost st) (editContent st)
  end.

(** try / catch / finally around the body: [setPosts] at the end of the
    [try], [setError] in the [catch], [setLoading(false)] in the [finally]. *)
Definition fetchPosts_setters (r : response (list Post)) : list setter :=
  match r with
  | Ok allPosts => [setPosts allPosts; setLoading false]
  | Err e => [setErrorTo (mk_ui_error e "Failed to fetch posts"); setLoading false]
  end.

Definition fetchPosts_handle (r : response (list Post)) (st : State) : State :=
  fold_left apply_setter (fetchPosts_setters r) st.

Definition fetchPosts (user : option uuid) (srv : server) (st : State) : State :=
  fetchPosts_handle
    (fetchPosts_try (query srv (select_original user)) (query srv (select_shared user)))
    st.

(** posts.find(p => p.id === postId)?.likes.some(like => like.user_id === user.id) *)
Definition existingLike (st : State) (postId u : uuid) : bool :=
  match find (fun p => String.eqb (posts.id (row p)) postId) (posts st) with
  | Some p => existsb (fun like_user_id => String.eqb like_user_id u) (likes p)
  | None => false
  end.

(** The answer of the delete or insert is not inspected. *)
Definition toggleLike (user : option uuid) (postId : uuid)
           (new_id : uuid) (now : timestamptz) (srv : server) (st : State)
  : server * State :=
  match user with
  | None => (srv, st)
  | Some u =>
      let srv' :=
        if existingLike st postId u
        then fst (mutate srv (Store.delete_likes (Some u) postId u))
        else fst (mutate srv (Store.insert_likes (Some u) new_id now postId u)) in
      (srv', fetchPosts (Some u) srv' st)
  end.

Definition alreadyShared (st : State) (postId u : uuid) : bool :=
  match find (fun p => String.eqb (posts.id (row p)) postId) (posts st) with
  | Some p => existsb (fun share_user_id => String.eqb share_user_id u) (shared_posts p)
  | None => false
  end.

Definition sharePost (user : option uuid) (postId : uuid)
           (new_id : uuid) (now : timestamptz) (srv : server) (st : State)
  : server * State :=
  match user with
  | None => (srv, st)
  | Some u =>
      let srv' :=
        if alreadyShared st postId u
        then fst (mutate srv (Store.delete_shared_posts (Some u) postId u))
        else fst (mutate srv (Store.insert_shared_posts (Some u) new_id now postId u)) in
      (srv', fetchPosts (Some u) srv' st)
  end.

Definition updatePost (user : option uuid) (postId : uuid) (srv : server) (st : State)
  : server * State :=
  match user with
  | None => (srv, st)
  | Some u =>
      match mutate srv (Store.update_posts_content (Some u) (editContent st) postId u) with
      | (srv', Some e) => (srv', setError st (mk_ui_error e "Failed to update post"))
      | (srv', None) =>
          (* setEditingPost(null); setEditContent(''); fetchPosts() *)
          (srv', fetchPosts (Some u) srv'
                   (mkState (posts st) (loading st) (error st) None EmptyString))
      end
  end.

Definition deletePost (user : option uuid) (postId : uuid) (srv : server) (st : State)
  : server * State :=
  match user with
  | None => (srv, st)
  | Some u =>
      match mutate srv (Store.delete_posts (Some u) postId u) with
      | (srv', Some e) => (srv', setError st (mk_ui_error e "Failed to delete post"))
      | (srv', None) => (srv', fetchPosts (Some u) srv' st)
      end
  end.







Definition cancelEditing (st : State) : State :=
  mkState (posts st) (loading st) (error st) None EmptyString.

End Feed.

(** *** PostDetail.tsx *)

Module PostDetail.

Record Post := mkPost {
  row : posts.row;
  profiles : option Store.profile_embed;
  likes : list uuid
}.

Record Comment := mkComment {
  crow : comments.row;
  cprofiles : option Store.profile_embed
}.

Record State := mkState {
  post : option Post;
  comments : list Comment;
  loading : bool;
  error : option ui_error
}.

Definition initial : State := mkState None [] true None.

Definition post_json (uid : option uuid) (db : database) (p : posts.row) : Post :=
  mkPost p (Store.embed_profile uid db (posts.author_id p))
         (Store.embed_likes uid db (posts.id p)).

(** from('posts').select(`*, profiles:author_id (...), likes (user_id)`)
    .eq('id', id).single() *)
Definition select_post (uid : option uuid) (id : uuid) (db : database) : response Post :=
  Store.single
    (map (post_json uid db)
         (filter (fun p => String.eqb (posts.id p) id) (Store.select_posts uid db))).

Definition fetchPost (user : option uuid) (id : uuid) (srv : server) (st : State) : State :=
  match query srv (select_post user id) with
  | Ok data => mkState (Some data) (comments st) (loading st) (error st)
  | Err e => mkState (post st) (comments st) (loading st)
                     (Some (mk_ui_error e "Failed to fetch post"))
  end.

(** from('comments').select(`*, profiles:user_id (...)`).eq('post_id', id)
    .order('created_at', asc) *)
Definition select_comments (uid : option uuid) (id : uuid) (db : database)
  : response (list Comment) :=
  Ok (map (fun c => mkComment c (Store.embed_profile uid db (comments.user_id c)))
          (Store.order_created_asc comments.created_at
             (filter (fun c => String.eqb (comments.post_id c) id)
                     (Store.select_comments uid db)))).

Definition fetchComments (user : option uuid) (id : uuid) (srv : server) (st : State)
  : State :=
  match query srv (select_comments user id) with
  | Ok data => mkState (post st) data false (error st)
  | Err e => mkState (post st) (comments st) false
                     (Some (mk_ui_error e "Failed to fetch comments"))
  end.

Definition handleDeleteComment (user : option uuid) (id commentId : uuid)
           (srv : server) (st : State) : server * State :=
  match user with
  | None => (srv, st)
  | Some u =>
      match mutate srv (Store.delete_comments (Some u) commentId u) with
      | (srv', Some e) =>
          (srv', mkState (post st) (comments st) (loading st)
                         (Some (mk_ui_error e "Failed to delete comment")))
      | (srv', None) => (srv', fetchComments (Some u) id srv' st)
      end
  end.

(** [newComment] is the text of the comment box; the third component is
    its value afterwards. *)
Definition handleAddComment (user : option uuid) (id : uuid) (newComment : js_string)
           (new_id : uuid) (now : timestamptz) (srv : server) (st : State)
  : server * State * js_string :=
  match user with
  | None => (srv, st, newComment)
  | Some u =>
      match trim newComment with
      | [] => (srv, st, newComment)             (* !newComment.trim() *)
      | _ :: _ =>
          match mutate srv (Store.insert_comments_body (Some u) new_id now id u
                                                       (trim newComment)) with
          | (srv', Some e) =>
              (srv', mkState (post st) (comments st) (loading st)
                             (Some (mk_ui_error e "Failed to add comment")), newComment)
          | (srv', None) => (srv', fetchComments (Some u) id srv' st, [])
          end
      end
  end.

(** The like button of the detail page; [fetchPost] reads the route's [id]. *)
Definition toggleLike (user : option uuid) (id : uuid) (new_id : uuid)
           (now : timestamptz) (srv : server) (st : State) : server * State :=
  match user, post st with
  | Some u, Some p =>
      let existingLike :=
        existsb (fun like_user_id => String.eqb like_user_id u) (likes p) in
      let srv' :=
        if existingLike
        then fst (mutate srv (Store.delete_likes (Some u) (posts.id (row p)) u))
        else fst (mutate srv (Store.insert_likes (Some u) new_id now
                                                 (posts.id (row p)) u)) in
      (srv', fetchPost (Some u) id srv' st)
  | _, _ => (srv, st)
  end.

End PostDetail.

(** *** Profile.tsx *)

Module Profile.

Record Post := mkPost {
  row : posts.row;
  likes : list uuid;
  comments : list uuid;
  shared_posts : list uuid
}.

Record State := mkState {
  posts : list Post;
  friendStatus : option friends.row;
  loading : bool;
  error : option ui_error
}.

Definition initial : State := mkState [] None true None.

Definition setError (st : State) (e : ui_error) : State :=
  mkState (posts st) (friendStatus st) (loading st) (Some e).

Definition setFriendStatus (st : State) (data : option friends.row) : State :=
  mkState (posts st) data (loading st) (error st).

Definition post_json (uid : option uuid) (db : database) (p : posts.row) : Post :=
  mkPost p (Store.embed_likes uid db (posts.id p))
         (Store.embed_comments uid db (posts.id p))
         (Store.embed_shared_posts uid db (posts.id p)).

(** from('posts').select(`*, likes (user_id), comments (id), shared_posts
    (user_id)`).eq('author_id', id).order('created_at', desc) *)
Definition select_user_posts (uid : option uuid) (id : uuid) (db : database)
  : response (list Post) :=
  Ok (map (post_json uid db)
          (Store.order_created_desc posts.created_at
             (filter (fun p => String.eqb (posts.author_id p) id)
                     (Store.select_posts uid db)))).

Definition fetchUserPosts (user : option uuid) (id : uuid) (srv : server) (st : State)
  : State :=
  match query srv (select_user_posts user id) with
  | Ok data => mkState data (friendStatus st) false (error st)
  | Err e => mkState (posts st) (friendStatus st) false
                     (Some (mk_ui_error e "Failed to fetch posts"))
  end.

(** from('friends').select('*')
    .or(`sender_id.eq.${user.id},receiver_id.eq.${user.id}`)
    .or(`sender_id.eq.${id},receiver_id.eq.${id}`).single() *)
Definition select_friend_status (uid : option uuid) (u id : uuid) (db : database)
  : response friends.row :=
  Store.single
    (filter (fun f =>
               (String.eqb (friends.sender_id f) u || String.eqb (friends.receiver_id f) u) &&
               (String.eqb (friends.sender_id f) id || String.eqb (friends.receiver_id f) id))
            (Store.select_friends uid db)).

(** PGRST116 is not thrown: [data] is null and the status is cleared. *)
Definition checkFriendStatus (u id : uuid) (srv : server) (st : State) : State :=
  match query srv (select_friend_status (Some u) u id) with
  | Ok data => setFriendStatus st (Some data)
  | Err e =>
      if pg_error_eqb e PGRST116 then setFriendStatus st None
      else setError st (mk_ui_error e "Failed to check friend status")
  end.

Definition handleFriendRequest (user : option uuid) (id : uuid)
           (new_id : uuid) (now : timestamptz) (srv : server) (st : State)
  : server * State :=
  match user with
  | None => (srv, st)
  | Some u =>
      if String.eqb id EmptyString then (srv, st)
      else
        let answer :=
          match friendStatus st with
          | None =>
              (* Send friend request *)
              mutate srv (Store.insert_friends (Some u) new_id now u id)
          | Some fs =>
              if String.eqb (friends.status fs) "pending" &&
                 String.eqb (friends.receiver_id fs) u
              then (* Accept friend request *)
                mutate srv (Store.update_friends_status (Some u) "accepted" (friends.id fs))
              else (* Remove friend or cancel request *)
                mutate srv (Store.delete_friends (Some u) (friends.id fs))
          end in
        match answer with
        | (srv', Some e) =>
            (srv', setError st (mk_ui_error e "Failed to handle friend request"))
        | (srv', None) => (srv', checkFriendStatus u id srv' st)
        end
  end.

(** What getFriendActionButton renders. *)
Inductive FriendButton := AddFriend | CancelRequest | AcceptRequest | RemoveFriend.

Definition getFriendActionButton (user : option uuid) (id : uuid) (st : State)
  : option FriendButton :=
  match user with
  | None => None
  | Some u =>
      if String.eqb u id then None
      else
        match friendStatus st with
        | None => Some AddFriend
        | Some fs =>
            if String.eqb (friends.status fs) "pending"
            then if String.eqb (friends.sender_id fs) u
                 then Some CancelRequest else Some AcceptRequest
            else Some RemoveFriend
        end
  end.







End Profile.

(** *** FriendRequests.tsx *)

Module FriendRequests.

Record FriendRequest := mkFriendRequest {
  row : friends.row;
  profiles : option Store.profile_embed        (* profiles:sender_id *)
}.

Record State := mkState {
  requests : list FriendRequest;
  error : option ui_error
}.

Definition initial : State := mkState [] None.

(** from('friends').select(`*, profiles:sender_id (...)`)
    .eq('receiver_id', user?.id).eq('status', 'pending');
    without a user the filter value is not a uuid. *)
Definition select_requests (uid : option uuid) (db : database)
  : response (list FriendRequest) :=
  match uid with
  | None => Err invalid_text_representation
  | Some u =>
      Ok (map (fun f => mkFriendRequest f (Store.embed_profile uid db (friends.sender_id f)))
              (filter (fun f => String.eqb (friends.receiver_id f) u &&
                                String.eqb (friends.status f) "pending")
                      (Store.select_friends uid db)))
  end.

Definition fetchFriendRequests (user : option uuid) (srv : server) (st : State) : State :=
  match query srv (select_requests user) with
  | Ok data => mkState data (error st)
  | Err e => mkState (requests st) (Some (mk_ui_error e "Failed to fetch friend requests"))
  end.

Definition handleRequest (user : option uuid) (requestId : uuid) (accept : bool)
           (srv : server) (st : State) : server * State :=
  let answer :=
    if accept
    then mutate srv (Store.update_friends_status user "accepted" requestId)
    else mutate srv (Store.delete_friends user requestId) in
  match answer with
  | (srv', Some e) =>
      (srv', mkState (requests st) (Some (mk_ui_error e "Failed to handle friend request")))
  | (srv', None) => (srv', fetchFriendRequests user srv' st)
  end.

End FriendRequests.

(** *** Friends.tsx *)

Module Friends.

Record FriendProfile := mkFriendProfile {
  pid : uuid;
  username : text;
  full_name : option text;
  avatar_url : option text;
  bio : option text
}.

Record Friend := mkFriend {
  id : uuid;
  status : text;
  profiles : option FriendProfile
}.

Record State := mkState {
  friends : list Friend;
  loading : bool;
  error : option ui_error
}.

Definition initial : State := mkState [] true None.

Definition embed_friend_profile (uid : option uuid) (db : database) (ref : uuid)
  : option FriendProfile :=
  option_map (fun p => mkFriendProfile (profiles.id p) (profiles.username p)
                                       (profiles.full_name p) (profiles.avatar_url p)
                                       (profiles.bio p))
    (find (fun p => String.eqb (profiles.id p) ref && holds (Rls.profiles_select uid p))
          (tbl_profiles db)).

(** .eq('status', 'accepted').eq('sender_id', user?.id), embedding the receiver *)
Definition select_sent (uid : option uuid) (db : database) : response (list Friend) :=
  match uid with
  | None => Err invalid_text_representation
  | Some u =>
      Ok (map (fun f => mkFriend (friends.id f) (friends.status f)
                                 (embed_friend_profile uid db (friends.receiver_id f)))
              (filter (fun f => String.eqb (friends.status f) "accepted" &&
                                String.eqb (friends.sender_id f) u)
                      (Store.select_friends uid db)))
  end.

(** .eq('status', 'accepted').eq('receiver_id', user?.id), embedding the sender *)
Definition select_received (uid : option uuid) (db : database) : response (list Friend) :=
  match uid with
  | None => Err invalid_text_representation
  | Some u =>
      Ok (map (fun f => mkFriend (friends.id f) (friends.status f)
                                 (embed_friend_profile uid db (friends.sender_id f)))
              (filter (fun f => String.eqb (friends.status f) "accepted" &&
                                String.eqb (friends.receiver_id f) u)
                      (Store.select_friends uid db)))
  end.

(** Both queries are awaited before [if (error || receiverError) throw ...]. *)
Definition fetchFriends (user : option uuid) (srv : server) (st : State) : State :=
  match query srv (select_sent user), query srv (select_received user) with
  | Ok data, Ok receiverFriends => mkState (data ++ receiverFriends) false (error st)
  | Err e, _ => mkState (friends st) false (Some (mk_ui_error e "Failed to fetch friends"))
  | Ok _, Err e => mkState (friends st) false (Some (mk_ui_error e "Failed to fetch friends"))
  end.

Definition removeFriend (user : option uuid) (friendId : uuid)
           (srv : server) (st : State) : server * State :=
  match mutate srv (Store.delete_friends user friendId) with
  | (srv', Some e) =>
      (srv', mkState (friends st) (loading st) (Some (mk_ui_error e "Failed to remove friend")))
  | (srv', None) => (srv', fetchFriends user srv' st)
  end.

End Friends.

(** ** Invariants of the tables *)

(** At most one row per value of a two-column key. *)
Section TwoColumnKey.
Context {A : Type} (k1 k2 : A -> uuid).

Definition key_is (x y : uuid) (r : A) : bool :=
  String.eqb (k1 r) x && String.eqb (k2 r) y.

Definition at_most_one (l : list A) : Prop :=
  forall x y, List.length (filter (key_is x y) l) <= 1.
End TwoColumnKey.

(** UNIQUE(post_id, user_id) on likes and on shared_posts. *)
Definition likes_unique (db : database) : Prop :=
  at_most_one likes.post_id likes.user_id (tbl_likes db).

Definition shared_posts_unique (db : database) : Prop :=
  at_most_one shared_posts.post_id shared_posts.user_id (tbl_shared_posts db).

(** UNIQUE(sender_id, receiver_id) on friends: the ordered pair. *)
Definition friends_unique_ordered (db : database) : Prop :=
  at_most_one friends.sender_id friends.receiver_id (tbl_friends db).

(** The rows joining [a] and [b], whichever of the two sent the request. *)
Definition edges_between (a b : uuid) (db : database) : list friends.row :=
  filter (connectsb a b) (tbl_friends db).

(** At most one friends row per unordered pair of users. *)
Definition one_edge_per_pair (db : database) : Prop :=
  forall a b, List.length (edges_between a b db) <= 1.

(** Primary keys. *)
Definition pk_friends (db : database) : Prop :=
  NoDup (map friends.id (tbl_friends db)).

Definition pk_posts (db : database) : Prop :=
  NoDup (map posts.id (tbl_posts db)).

Definition pk_comments (db : database) : Prop :=
  NoDup (map comments.id (tbl_comments db)).

(** The users who like post [P], and whether [U] is one of them. *)
Definition like_set (db : database) (P : uuid) : list uuid :=
  map likes.user_id (filter (fun l => String.eqb (likes.post_id l) P) (tbl_likes db)).

Definition liked (db : database) (P U : uuid) : bool :=
  existsb (key_is likes.post_id likes.user_id P U) (tbl_likes db).

Definition shared (db : database) (P U : uuid) : bool :=
  existsb (key_is shared_posts.post_id shared_posts.user_id P U) (tbl_shared_posts db).

(** Whatever row of [db'] carries the id of [e] is [e] itself, unchanged. *)
Definition row_kept (e : friends.row) (db' : database) : Prop :=
  forall r, In r (tbl_friends db') -> friends.id r = friends.id e -> r = e.

(** [db'] is [db] with the row [e] accepted in place: same id, sender,
    receiver and creation time, status 'accepted', nothing else touched. *)
Definition accepted_in_place (db : database) (e : friends.row) (db' : database) : Prop :=
  (exists e',
      In e' (tbl_friends db') /\
      friends.id e' = friends.id e /\
      friends.sender_id e' = friends.sender_id e /\
      friends.receiver_id e' = friends.receiver_id e /\
      friends.created_at e' = friends.created_at e /\
      friends.status e' = "accepted" /\
      (forall r, In r (tbl_friends db') -> friends.id r = friends.id e -> r = e')) /\
  (forall f, In f (tbl_friends db) -> f <> e -> In f (tbl_friends db')) /\
  List.length (tbl_friends db') = List.length (tbl_friends db) /\
  tbl_profiles db' = tbl_profiles db /\
  tbl_posts db' = tbl_posts db /\
  tbl_likes db' = tbl_likes db /\
  tbl_comments db' = tbl_comments db /\
  tbl_shared_posts db' = tbl_shared_posts db.

(** ** The relationship operations, as the handlers issue them *)

Inductive relationship_op :=
| Send (target new_id : uuid) (now : timestamptz)   (* Profile: "Add Friend" *)
| Accept (requestId : uuid)                         (* FriendRequests / Profile: accept *)
| RejectOrCancel (requestId : uuid)                 (* FriendRequests: reject; Profile: cancel *)
| Remove (friendId : uuid).                         (* Friends / Profile: remove friend *)

Definition run_relationship_op (u : uuid) (op : relationship_op) (db : database)
  : response database :=
  match op with
  | Send target new_id now => Store.insert_friends (Some u) new_id now u target db
  | Accept requestId => Store.update_friends_status (Some u) "accepted" requestId db
  | RejectOrCancel requestId => Store.delete_friends (Some u) requestId db
  | Remove friendId => Store.delete_friends (Some u) friendId db
  end.

(** The store answers a statement with an error. *)
Definition rejected {A} (r : response A) : Prop := exists e, r = Err e.

(** ** The like and share operations, as statements of any caller *)

Inductive join_op :=
| Like (post new_id : uuid) (now : timestamptz)
| Unlike (post : uuid)
| Share (post new_id : uuid) (now : timestamptz)
| Unshare (post : uuid).

Definition run_join_op (uid : option uuid) (user : uuid) (op : join_op) (db : database)
  : response database :=
  match op with
  | Like post new_id now => Store.insert_likes uid new_id now post user db
  | Unlike post => Store.delete_likes uid post user db
  | Share post new_id now => Store.insert_shared_posts uid new_id now post user db
  | Unshare post => Store.delete_shared_posts uid post user db
  end.

Definition join_rows_unique (db : database) : Prop :=
  likes_unique db /\ shared_posts_unique db.

(** ** A small database for the examples *)

Definition alice : uuid := "a11ce".
Definition bob : uuid := "b0b".
Definition carol : uuid := "ca701".

Definition sample_profiles : list profiles.row :=
  [ profiles.mk alice "alice" None None None (Some 1%Z);
    profiles.mk bob "bob" None None None (Some 2%Z);
    profiles.mk carol "carol" None None None (Some 3%Z) ].

Definition public_post : posts.row :=
  posts.mk "p1" alice "hello" None (Some 10%Z) (Some 10%Z) (Some "public").

Definition friends_post : posts.row :=
  posts.mk "p2" alice "for friends" None (Some 11%Z) (Some 11%Z) (Some "friends").

Definition bob_comment : comments.row :=
  comments.mk "c1" "p1" bob "nice" (Some 12%Z).

Definition bob_to_alice : friends.row :=
  friends.mk "f1" bob alice "pending" (Some 20%Z).

Definition alice_to_bob : friends.row :=
  friends.mk "f2" alice bob "pending" (Some 21%Z).

(** alice has two posts, bob commented on the public one, nobody is friends. *)
Definition db0 : database :=
  mkdb sample_profiles [public_post; friends_post] [] [bob_comment] [] [].

(** bob has asked alice. *)
Definition db_pending : database := with_friends db0 [bob_to_alice].

(** alice has accepted. *)
Definition db_accepted : database :=
  with_friends db0 [Store.set_status "accepted" bob_to_alice].

(** bob likes the public post. *)
Definition db_liked : database :=
  with_likes db0 [likes.mk "l1" "p1" bob (Some 30%Z)].

Definition online (db : database) : server := mksrv db true.
Definition offline (db : database) : server := mksrv db false.

(** ** Every statement the handlers send, as data *)

Inductive statement :=
| InsertFriends (new_id : uuid) (now : timestamptz) (sender receiver : uuid)
| UpdateFriendsStatus (s : text) (where_id : uuid)
| DeleteFriends (where_id : uuid)
| InsertLikes (new_id : uuid) (now : timestamptz) (post user : uuid)
| DeleteLikes (post user : uuid)
| InsertSharedPosts (new_id : uuid) (now : timestamptz) (post user : uuid)
| DeleteSharedPosts (post user : uuid)
| InsertPosts (new_id : uuid) (now : timestamptz) (author : uuid) (c : text)
              (image vis : option text)
| UpdatePostsContent (c : text) (where_id where_author : uuid)
| DeletePosts (where_id where_author : uuid)
| InsertComments (new_id : uuid) (now : timestamptz) (post user : uuid) (c : text)
| UpdateCommentsContent (c : text) (where_id : uuid)
| DeleteComments (where_id where_user : uuid)
| UpdateProfiles (full_name bio avatar_url : text) (where_id : uuid).

Definition run_statement (uid : option uuid) (s : statement) (db : database)
  : response database :=
  match s with
  | InsertFriends new_id now sender receiver =>
      Store.insert_friends uid new_id now sender receiver db
  | UpdateFriendsStatus s where_id => Store.update_friends_status uid s where_id db
  | DeleteFriends where_id => Store.delete_friends uid where_id db
  | InsertLikes new_id now post user => Store.insert_likes uid new_id now post user db
  | DeleteLikes post user => Store.delete_likes uid post user db
  | InsertSharedPosts new_id now post user =>
      Store.insert_shared_posts uid new_id now post user db
  | DeleteSharedPosts post user => Store.delete_shared_posts uid post user db
  | InsertPosts new_id now author c image vis =>
      Store.insert_posts uid new_id now author c image vis db
  | UpdatePostsContent c where_id where_author =>
      Store.update_posts_content uid c where_id where_author db
  | DeletePosts where_id where_author => Store.delete_posts uid where_id where_author db
  | InsertComments new_id now post user c =>
      Store.insert_comments uid new_id now post user c db
  | UpdateCommentsContent c where_id => Store.update_comments_content uid c where_id db
  | DeleteComments where_id where_user => Store.delete_comments uid where_id where_user db
  | UpdateProfiles full_name bio avatar_url where_id =>
      Store.update_profiles uid full_name bio avatar_url where_id db
  end.

Definition is_insert (s : statement) : bool :=
  match s with
  | InsertFriends _ _ _ _ | InsertLikes _ _ _ _ | InsertSharedPosts _ _ _ _
  | InsertPosts _ _ _ _ _ _ | InsertComments _ _ _ _ _ => true
  | _ => false
  end.

(** ** The constraints of the schema, as a property of the database *)

(** REFERENCES profiles(id) / posts(id) on every foreign-key column. *)
Definition fk_ok (db : database) : Prop :=
  (forall p, In p (tbl_posts db) -> Store.profile_exists db (posts.author_id p) = true) /\
  (forall l, In l (tbl_likes db) ->
     Store.post_exists db (likes.post_id l) = true /\
     Store.profile_exists db (likes.user_id l) = true) /\
  (forall c, In c (tbl_comments db) ->
     Store.post_exists db (comments.post_id c) = true /\
     Store.profile_exists db (comments.user_id c) = true) /\
  (forall f, In f (tbl_friends db) ->
     Store.profile_exists db (friends.sender_id f) = true /\
     Store.profile_exists db (friends.receiver_id f) = true) /\
  (forall s, In s (tbl_shared_posts db) ->
     Store.post_exists db (shared_posts.post_id s) = true /\
     Store.profile_exists db (shared_posts.user_id s) = true).

(** PRIMARY KEY on every table, UNIQUE(username). *)
Definition pk_ok (db : database) : Prop :=
  NoDup (map profiles.id (tbl_profiles db)) /\
  NoDup (map profiles.username (tbl_profiles db)) /\
  NoDup (map posts.id (tbl_posts db)) /\
  NoDup (map likes.id (tbl_likes db)) /\
  NoDup (map comments.id (tbl_comments db)) /\
  NoDup (map friends.id (tbl_friends db)) /\
  NoDup (map shared_posts.id (tbl_shared_posts db)).

(** CHECK (status IN ('pending', 'accepted')) on every friends row. *)
Definition status_ok (db : database) : Prop :=
  forall f, In f (tbl_friends db) -> Store.friends_status_check f = true.

Definition schema_ok (db : database) : Prop :=
  pk_ok db /\ fk_ok db /\ status_ok db /\
  likes_unique db /\ shared_posts_unique db /\ friends_unique_ordered db.

(** ** Whose row it is *)

(** The caller's statement may have removed the row of another user only by
    the cascade from one of the caller's own posts. *)
Definition cascaded_from (uid : option uuid) (db : database) (post : uuid) : Prop :=
  exists p, In p (tbl_posts db) /\ posts.id p = post /\ uid = Some (posts.author_id p).

Definition foreign_rows_kept (uid : option uuid) (db db' : database) : Prop :=
  (forall p, In p (tbl_profiles db) -> uid <> Some (profiles.id p) ->
             In p (tbl_profiles db')) /\
  (forall p, In p (tbl_posts db) -> uid <> Some (posts.author_id p) ->
             In p (tbl_posts db')) /\
  (forall f, In f (tbl_friends db) ->
             uid <> Some (friends.sender_id f) -> uid <> Some (friends.receiver_id f) ->
             In f (tbl_friends db')) /\
  (forall l, In l (tbl_likes db) -> uid <> Some (likes.user_id l) ->
             In l (tbl_likes db') \/ cascaded_from uid db (likes.post_id l)) /\
  (forall c, In c (tbl_comments db) -> uid <> Some (comments.user_id c) ->
             In c (tbl_comments db') \/ cascaded_from uid db (comments.post_id c)) /\
  (forall s, In s (tbl_shared_posts db) -> uid <> Some (shared_posts.user_id s) ->
             In s (tbl_shared_posts db') \/ cascaded_from uid db (shared_posts.post_id s)).

(** Nothing new appears in another user's name. *)
Definition no_foreign_rows_added (uid : option uuid) (db db' : database) : Prop :=
  (forall p, In p (tbl_profiles db') -> uid <> Some (profiles.id p) ->
             In p (tbl_profiles db)) /\
  (forall p, In p (tbl_posts db') -> uid <> Some (posts.author_id p) ->
             In p (tbl_posts db)) /\
  (forall f, In f (tbl_friends db') -> uid <> Some (friends.sender_id f) ->
             uid <> Some (friends.receiver_id f) -> In f (tbl_friends db)) /\
  (forall l, In l (tbl_likes db') -> uid <> Some (likes.user_id l) ->
             In l (tbl_likes db)) /\
  (forall c, In c (tbl_comments db') -> uid <> Some (comments.user_id c) ->
             In c (tbl_comments db)) /\
  (forall s, In s (tbl_shared_posts db') -> uid <> Some (shared_posts.user_id s) ->
             In s (tbl_shared_posts db)).

(** A friends row names two users.  What a statement of the caller may do to
    such rows: a row is new only with the caller as its sender and an id not
    yet in the table; it differs from an old row only in its status, and only
    when the caller is the receiver of that row; an old row is gone or
    changed only when the caller is one of its two parties. *)
Definition friends_rows_by_role (uid : option uuid) (db db' : database) : Prop :=
  (forall f, In f (tbl_friends db') ->
     In f (tbl_friends db) \/
     (uid = Some (friends.sender_id f) /\
      forall g, In g (tbl_friends db) -> friends.id g <> friends.id f) \/
     (exists g, In g (tbl_friends db) /\ uid = Some (friends.receiver_id g) /\
                f = Store.set_status (friends.status f) g)) /\
  (forall g, In g (tbl_friends db) ->
     In g (tbl_friends db') \/
     uid = Some (friends.sender_id g) \/ uid = Some (friends.receiver_id g)).


(** Two posts of alice created in the same millisecond, the later one shared
    by carol. *)
Definition db_same_millisecond : database :=
  mkdb sample_profiles
       [posts.mk "pA" alice "first" None (Some 5000100%Z) (Some 5000100%Z) (Some "public");
        posts.mk "pB" alice "second" None (Some 5000900%Z) (Some 5000900%Z) (Some "public")]
       [] [] []
       [shared_posts.mk "s1" "pB" carol (Some 7000000%Z)].

(** alice's friends-only post with a like and a share by carol. *)
Definition db_shared : database :=
  mkdb sample_profiles [public_post; friends_post]
       [likes.mk "l7" "p1" carol (Some 40%Z)] [bob_comment] []
       [shared_posts.mk "s1" "p1" carol (Some 41%Z)].

(** * Properties *)

(** ** Three-valued logic under [holds] *)

Lemma holds_sql_or (a b : sqlbool) : holds (sql_or a b) = holds a || holds b.
Proof. destruct a as [[|]|], b as [[|]|]; reflexivity. Qed.

Lemma holds_sql_and (a b : sqlbool) : holds (sql_and a b) = holds a && holds b.
Proof. destruct a as [[|]|], b as [[|]|]; reflexivity. Qed.

Lemma holds_Some (b : bool) : holds (Some b) = b.
Proof. destruct b; reflexivity. Qed.

Lemma holds_sql_eq_uid (uid : option uuid) (x : uuid) :
  holds (sql_eq uid (Some x)) = true <-> uid = Some x.
Proof.
  destruct uid as [u|]; simpl.
  - destruct (String.eqb_spec u x); split; congruence.
  - split; discriminate.
Qed.

Lemma holds_sql_eq_some (x y : string) :
  holds (sql_eq (Some x) (Some y)) = String.eqb x y.
Proof. simpl. destruct (String.eqb x y); reflexivity. Qed.

Lemma holds_sql_eq_col (c : option text) (x : text) :
  holds (sql_eq c (Some x)) = true <-> c = Some x.
Proof. apply holds_sql_eq_uid. Qed.

Lemma holds_sql_eq_sym_uid (uid : option uuid) (x : uuid) :
  holds (sql_eq (Some x) uid) = holds (sql_eq uid (Some x)).
Proof. destruct uid as [u|]; simpl; [rewrite String.eqb_sym|]; reflexivity. Qed.

Lemma holds_friends_select (uid : option uuid) (f : friends.row) :
  holds (Rls.friends_select uid f) = true <->
  uid = Some (friends.sender_id f) \/ uid = Some (friends.receiver_id f).
Proof.
  unfold Rls.friends_select. rewrite holds_sql_or, orb_true_iff.
  now rewrite !holds_sql_eq_uid.
Qed.

Lemma holds_friends_delete (uid : option uuid) (f : friends.row) :
  holds (Rls.friends_delete uid f) = holds (Rls.friends_select uid f).
Proof.
  unfold Rls.friends_delete, Rls.friends_select. simpl.
  rewrite !holds_sql_or. simpl. now rewrite orb_false_r.
Qed.

(** ** The read policy on posts *)

(** The WHERE clause of the policy's sub-select, on one friends row. *)
Lemma policy_subselect_row (uid : option uuid) (author : uuid) (f : friends.row) :
  holds (sql_and
           (sql_or
              (sql_and (sql_eq (Some (friends.sender_id f)) uid)
                       (sql_eq (Some (friends.receiver_id f)) (Some author)))
              (sql_and (sql_eq (Some (friends.receiver_id f)) uid)
                       (sql_eq (Some (friends.sender_id f)) (Some author))))
           (sql_eq (Some (friends.status f)) (Some "accepted"))) = true <->
  exists v, uid = Some v /\ friends.status f = "accepted" /\ connects v author f.
Proof.
  rewrite holds_sql_and, holds_sql_or, !holds_sql_and.
  unfold connects. destruct uid as [u|].
  - rewrite !holds_sql_eq_some, andb_true_iff, orb_true_iff, !andb_true_iff, !String.eqb_eq.
    split.
    + intros [[[Hu Ha] | [Hu Ha]] Hs]; exists u; subst; auto.
    + intros (v & Hv & Hs & Hc). injection Hv as <-. tauto.
  - simpl. split; [discriminate|]. intros (v & Hv & _). discriminate.
Qed.

(** Every row the sub-select accepts is one the caller may see: its own
    policy on friends filters nothing out. *)
Lemma policy_exists_iff (db : database) (uid : option uuid) (author : uuid) :
  holds (sql_exists (Rls.visible_friends uid db)
           (fun f =>
              sql_and
                (sql_or
                   (sql_and (sql_eq (Some (friends.sender_id f)) uid)
                            (sql_eq (Some (friends.receiver_id f)) (Some author)))
                   (sql_and (sql_eq (Some (friends.receiver_id f)) uid)
                            (sql_eq (Some (friends.sender_id f)) (Some author))))
                (sql_eq (Some (friends.status f)) (Some "accepted")))) = true <->
  accepted_edge db uid author.
Proof.
  unfold sql_exists, accepted_edge, Rls.visible_friends.
  rewrite holds_Some, existsb_exists. split.
  - intros (f & Hin & Hf). apply filter_In in Hin as [Hin _].
    apply policy_subselect_row in Hf as (v & Hv & Hs & Hc).
    exists v, f. auto.
  - intros (v & f & Hv & Hin & Hs & Hc). exists f. split.
    + apply filter_In. split; [assumption|].
      apply holds_friends_select. subst uid.
      destruct Hc as [[H1 _] | [H1 _]]; rewrite H1; auto.
    + apply policy_subselect_row. exists v. auto.
Qed.

Lemma can_read_iff (db : database) (V : option uuid) (P : posts.row) :
  can_read db V P = true <->
  posts.visibility P = Some "public" \/
  V = Some (posts.author_id P) \/
  (posts.visibility P = Some "friends" /\ accepted_edge db V (posts.author_id P)).
Proof.
  unfold can_read, Rls.posts_select.
  rewrite !holds_sql_or, holds_sql_and, !orb_true_iff, andb_true_iff.
  rewrite policy_exists_iff, holds_sql_eq_uid, !holds_sql_eq_col. tauto.
Qed.

(** C1. A viewer V, anonymous or not, can read a post P exactly when P is
    public, or V is its author, or P is friends-only and an accepted friends
    row joins V and the author in one direction or the other.  Hence every
    identity reads every public post, and a viewer other than the author
    reads a friends-only post iff such an accepted row exists. *)
Theorem post_visibility_predicate :
  forall (db : database) (V : option uuid) (P : posts.row),
    (can_read db V P = true <->
       posts.visibility P = Some "public" \/
       V = Some (posts.author_id P) \/
       (posts.visibility P = Some "friends" /\ accepted_edge db V (posts.author_id P)))
    /\ (posts.visibility P = Some "public" -> can_read db V P = true)
    /\ (posts.visibility P = Some "friends" -> V <> Some (posts.author_id P) ->
        (can_read db V P = true <-> accepted_edge db V (posts.author_id P)))
    /\ (In P (Store.select_posts V db) <-> In P (tbl_posts db) /\ can_read db V P = true).
Proof.
  intros db V P. repeat split.
  - apply can_read_iff.
  - apply can_read_iff.
  - intros Hpub. apply can_read_iff. auto.
  - intros Hr. apply can_read_iff in Hr as [Hp | [Ha | [_ He]]]; try assumption.
    + congruence.
    + contradiction.
  - intros He. apply can_read_iff. auto.
  - apply filter_In in H. tauto.
  - apply filter_In in H. tauto.
  - intros [H1 H2]. apply filter_In. auto.
Qed.

(** ** Lists and keys *)

Lemma existsb_all_false {A} (f : A -> bool) (l : list A) :
  (forall x, In x l -> f x = false) -> existsb f l = false.
Proof.
  induction l as [|a l IH]; simpl; intros H; [reflexivity|].
  rewrite (H a (or_introl eq_refl)), IH; auto.
Qed.

Lemma existsb_false_In {A} (f : A -> bool) (l : list A) (x : A) :
  existsb f l = false -> In x l -> f x = false.
Proof.
  intros He Hin. destruct (f x) eqn:Hf; [|reflexivity].
  assert (existsb f l = true) by (apply existsb_exists; eauto). congruence.
Qed.

Lemma map_id_on {A} (g : A -> A) (l : list A) :
  (forall x, In x l -> g x = x) -> map g l = l.
Proof.
  induction l as [|a l IH]; simpl; intros H; [reflexivity|].
  rewrite (H a (or_introl eq_refl)), IH; auto.
Qed.

Lemma filter_all {A} (f : A -> bool) (l : list A) :
  (forall x, In x l -> f x = true) -> filter f l = l.
Proof.
  induction l as [|a l IH]; simpl; intros H; [reflexivity|].
  rewrite (H a (or_introl eq_refl)), IH; auto.
Qed.

Lemma filter_none {A} (f : A -> bool) (l : list A) :
  (forall x, In x l -> f x = false) -> filter f l = [].
Proof.
  induction l as [|a l IH]; simpl; intros H; [reflexivity|].
  rewrite (H a (or_introl eq_refl)), IH; auto.
Qed.

Lemma filter_filter_length {A} (f g : A -> bool) (l : list A) :
  List.length (filter f (filter g l)) <= List.length (filter f l).
Proof.
  induction l as [|a l IH]; simpl; [lia|].
  destruct (g a), (f a) eqn:Hf; simpl; rewrite ?Hf; simpl; lia.
Qed.

Lemma filter_map_preserved {A} (f : A -> bool) (g : A -> A) (l : list A) :
  (forall x, f (g x) = f x) ->
  List.length (filter f (map g l)) = List.length (filter f l).
Proof.
  intros H. induction l as [|a l IH]; simpl; [reflexivity|].
  rewrite H. destruct (f a); simpl; lia.
Qed.

(** A primary key identifies its row. *)
Lemma NoDup_key_inj {A} (key : A -> uuid) (l : list A) (x y : A) :
  NoDup (map key l) -> In x l -> In y l -> key x = key y -> x = y.
Proof.
  induction l as [|a l IH]; simpl; [contradiction|].
  intros Hnd [Hx | Hx] [Hy | Hy] Hk; inversion Hnd; subst.
  - reflexivity.
  - exfalso. apply H1. rewrite Hk. now apply in_map.
  - exfalso. apply H1. rewrite <- Hk. now apply in_map.
  - auto.
Qed.

Section TwoColumnKeyLemmas.
Context {A : Type} (k1 k2 : A -> uuid).

Lemma at_most_one_filter (g : A -> bool) (l : list A) :
  at_most_one k1 k2 l -> at_most_one k1 k2 (filter g l).
Proof.
  intros H x y. specialize (H x y).
  pose proof (filter_filter_length (key_is k1 k2 x y) g l). lia.
Qed.

Lemma at_most_one_snoc (l : list A) (r : A) :
  at_most_one k1 k2 l ->
  existsb (key_is k1 k2 (k1 r) (k2 r)) l = false ->
  at_most_one k1 k2 (l ++ [r]).
Proof.
  intros H Hnew x y. rewrite filter_app, length_app. simpl.
  destruct (key_is k1 k2 x y r) eqn:Hr; simpl; [|specialize (H x y); lia].
  unfold key_is in Hr. apply andb_true_iff in Hr as [Hx Hy].
  apply String.eqb_eq in Hx, Hy. subst x y.
  rewrite (filter_none _ l); [simpl; lia|].
  intros z Hz. eapply existsb_false_In; eauto.
Qed.

Lemma at_most_one_map (g : A -> A) (l : list A) :
  (forall r, k1 (g r) = k1 r) -> (forall r, k2 (g r) = k2 r) ->
  at_most_one k1 k2 l -> at_most_one k1 k2 (map g l).
Proof.
  intros H1 H2 H x y. rewrite filter_map_preserved; [apply H|].
  intros r. unfold key_is. now rewrite H1, H2.
Qed.

(** A second row for an existing key is what the unique index refuses. *)
Lemma at_most_one_no_second (l : list A) (r : A) :
  existsb (key_is k1 k2 (k1 r) (k2 r)) l = true -> ~ at_most_one k1 k2 (l ++ [r]).
Proof.
  intros He H. specialize (H (k1 r) (k2 r)).
  rewrite filter_app, length_app in H. simpl in H.
  unfold key_is at 2 in H. rewrite !String.eqb_refl in H. simpl in H.
  apply existsb_exists in He as (z & Hz & Hk).
  assert (In z (filter (key_is k1 k2 (k1 r) (k2 r)) l)) by (apply filter_In; auto).
  destruct (filter (key_is k1 k2 (k1 r) (k2 r)) l); simpl in *; [contradiction|lia].
Qed.
End TwoColumnKeyLemmas.

(** ** Database record *)

Lemma with_friends_same (db : database) : with_friends db (tbl_friends db) = db.
Proof. destruct db; reflexivity. Qed.

Lemma with_posts_same (db : database) : with_posts db (tbl_posts db) = db.
Proof. destruct db; reflexivity. Qed.

Lemma with_comments_same (db : database) : with_comments db (tbl_comments db) = db.
Proof. destruct db; reflexivity. Qed.

Lemma with_likes_same (db : database) : with_likes db (tbl_likes db) = db.
Proof. destruct db; reflexivity. Qed.

(** ** Accepting a friend request *)

(** The accept statement never fails in the store: the new row keeps its
    receiver and 'accepted' passes the CHECK constraint. *)
Lemma update_accept_ok (uid : option uuid) (where_id : uuid) (db : database) :
  Store.update_friends_status uid "accepted" where_id db =
  Ok (with_friends db
        (map (fun f => if Store.friends_update_target uid where_id f
                       then Store.set_status "accepted" f else f)
             (tbl_friends db))).
Proof.
  unfold Store.update_friends_status.
  rewrite existsb_all_false.
  - rewrite existsb_all_false; [reflexivity|].
    intros f _. unfold Store.friends_status_check. simpl. apply andb_false_r.
  - intros f _. unfold Store.friends_update_target, Rls.friends_update. simpl.
    destruct (holds (sql_eq uid (Some (friends.receiver_id f))));
      rewrite ?andb_false_r; reflexivity.
Qed.

Lemma update_target_receiver (uid : option uuid) (where_id : uuid) (f : friends.row) :
  Store.friends_update_target uid where_id f = true ->
  friends.id f = where_id /\ uid = Some (friends.receiver_id f).
Proof.
  unfold Store.friends_update_target, Rls.friends_update.
  rewrite !andb_true_iff, String.eqb_eq, holds_sql_eq_uid. tauto.
Qed.

Lemma update_target_of_receiver (f : friends.row) :
  Store.friends_update_target (Some (friends.receiver_id f)) (friends.id f) f = true.
Proof.
  unfold Store.friends_update_target.
  rewrite !andb_true_iff, String.eqb_eq. repeat split.
  - apply holds_friends_select. auto.
  - now apply holds_sql_eq_uid.
Qed.

(** Anyone but the recipient updates nothing. *)
Lemma accept_by_other_is_noop (db : database) (e : friends.row) (actor : option uuid) :
  pk_friends db -> In e (tbl_friends db) ->
  actor <> Some (friends.receiver_id e) ->
  Store.update_friends_status actor "accepted" (friends.id e) db = Ok db.
Proof.
  intros Hpk Hin Hne. rewrite update_accept_ok. f_equal.
  rewrite map_id_on; [apply with_friends_same|].
  intros f Hf. destruct (Store.friends_update_target actor (friends.id e) f) eqn:Ht;
    [|reflexivity].
  apply update_target_receiver in Ht as [Hid Hrcv].
  assert (f = e) by (eapply NoDup_key_inj; eauto). subst f. contradiction.
Qed.

Lemma row_kept_start (db : database) (e : friends.row) :
  pk_friends db -> In e (tbl_friends db) -> row_kept e db.
Proof. intros Hpk Hin r Hr Hid. eapply NoDup_key_inj; eauto. Qed.

Lemma row_kept_update (db db' : database) (e : friends.row) (uid : option uuid)
      (where_id : uuid) :
  row_kept e db -> uid <> Some (friends.receiver_id e) ->
  Store.update_friends_status uid "accepted" where_id db = Ok db' ->
  row_kept e db'.
Proof.
  intros Hk Hne Hup. rewrite update_accept_ok in Hup. injection Hup as <-.
  intros r Hr Hid. simpl in Hr. apply in_map_iff in Hr as (r0 & Hr0 & Hin0).
  assert (friends.id r0 = friends.id e) as Hid0.
  { rewrite <- Hid, <- Hr0.
    destruct (Store.friends_update_target uid where_id r0); reflexivity. }
  pose proof (Hk r0 Hin0 Hid0) as ->.
  destruct (Store.friends_update_target uid where_id e) eqn:Ht; [|congruence].
  apply update_target_receiver in Ht as [_ Hrcv]. contradiction.
Qed.

Lemma row_kept_delete (db db' : database) (e : friends.row) (uid : option uuid)
      (where_id : uuid) :
  row_kept e db -> Store.delete_friends uid where_id db = Ok db' -> row_kept e db'.
Proof.
  intros Hk Hdel. injection Hdel as <-. intros r Hr Hid. simpl in Hr.
  apply filter_In in Hr as [Hr _]. auto.
Qed.

Lemma row_kept_insert (db db' : database) (e : friends.row) (uid : option uuid)
      (new_id : uuid) (now : timestamptz) (s r : uuid) :
  row_kept e db -> In e (tbl_friends db) ->
  Store.insert_friends uid new_id now s r db = Ok db' -> row_kept e db'.
Proof.
  intros Hk Hin Hins. unfold Store.insert_friends in Hins.
  repeat match type of Hins with
         | (if ?c then _ else _) = _ => destruct c eqn:?; [discriminate|]
         end.
  injection Hins as <-. intros x Hx Hid. simpl in Hx.
  apply in_app_or in Hx as [Hx | [<- | []]]; [auto|].
  simpl in Hid. exfalso.
  assert (String.eqb (friends.id e) new_id = false) as Hf
      by (eapply (existsb_false_In (fun f => String.eqb (friends.id f) new_id)); eauto).
  rewrite <- Hid, String.eqb_refl in Hf. discriminate.
Qed.

Lemma mutate_db (srv : server) (m : database -> response database) :
  (exists db', m (srv_db srv) = Ok db' /\
               mutate srv m = (mksrv db' (srv_online srv), None)) \/
  (exists e, mutate srv m = (srv, Some e)).
Proof.
  unfold mutate. destruct (srv_online srv); [|right; eauto].
  destruct (m (srv_db srv)); [left|right]; eauto.
Qed.

Lemma row_kept_handleFriendRequest (db : database) (e : friends.row)
      (actor : option uuid) (id new_id : uuid) (now : timestamptz) (up : bool)
      (st : Profile.State) :
  pk_friends db -> In e (tbl_friends db) ->
  actor <> Some (friends.receiver_id e) ->
  row_kept e (srv_db (fst (Profile.handleFriendRequest actor id new_id now (mksrv db up) st))).
Proof.
  intros Hpk Hin Hne. pose proof (row_kept_start db e Hpk Hin) as Hk.
  unfold Profile.handleFriendRequest.
  destruct actor as [u|]; [|exact Hk].
  destruct (String.eqb id EmptyString); [exact Hk|].
  match goal with
  | |- context [match ?a with (_, _) => _ end] =>
      assert (row_kept e (srv_db (fst a))) as Ha; [|destruct a as [srv' [err|]]; exact Ha]
  end.
  destruct (Profile.friendStatus st) as [fs|].
  - destruct (String.eqb (friends.status fs) "pending" &&
              String.eqb (friends.receiver_id fs) u).
    + destruct (mutate_db (mksrv db up)
                  (Store.update_friends_status (Some u) "accepted" (friends.id fs)))
        as [(db' & Hm & ->) | (err & ->)]; simpl in *; [|exact Hk].
      eapply row_kept_update; eauto.
    + destruct (mutate_db (mksrv db up) (Store.delete_friends (Some u) (friends.id fs)))
        as [(db' & Hm & ->) | (err & ->)]; simpl in *; [|exact Hk].
      eapply row_kept_delete; eauto.
  - destruct (mutate_db (mksrv db up) (Store.insert_friends (Some u) new_id now u id))
      as [(db' & Hm & ->) | (err & ->)]; simpl in *; [|exact Hk].
    eapply row_kept_insert; eauto.
Qed.

Lemma accept_by_receiver (db : database) (e : friends.row) :
  pk_friends db -> In e (tbl_friends db) ->
  exists db',
    Store.update_friends_status (Some (friends.receiver_id e)) "accepted" (friends.id e) db
    = Ok db' /\
    In (Store.set_status "accepted" e) (tbl_friends db') /\
    accepted_in_place db e db'.
Proof.
  intros Hpk Hin. rewrite update_accept_ok. eexists. split; [reflexivity|].
  set (g := fun f => if Store.friends_update_target (Some (friends.receiver_id e))
                                                    (friends.id e) f
                     then Store.set_status "accepted" f else f).
  assert (g e = Store.set_status "accepted" e) as Hge
      by (unfold g; now rewrite update_target_of_receiver).
  assert (forall f, In f (tbl_friends db) -> f <> e -> g f = f) as Hother.
  { intros f Hf Hfe. unfold g.
    destruct (Store.friends_update_target _ _ f) eqn:Ht; [|reflexivity].
    apply update_target_receiver in Ht as [Hid _].
    exfalso. apply Hfe. eapply NoDup_key_inj; eauto. }
  assert (forall f, friends.id (g f) = friends.id f) as Hgid
      by (intros f; unfold g; destruct (Store.friends_update_target _ _ f); reflexivity).
  assert (In (Store.set_status "accepted" e) (map g (tbl_friends db))) as Hin'
      by (rewrite <- Hge; now apply in_map).
  split; [exact Hin'|]. unfold accepted_in_place. simpl. repeat split.
  - exists (Store.set_status "accepted" e). repeat split; try assumption.
    intros r Hr Hid. apply in_map_iff in Hr as (r0 & <- & Hr0).
    rewrite Hgid in Hid. assert (r0 = e) by (eapply NoDup_key_inj; eauto).
    subst r0. exact Hge.
  - intros f Hf Hfe. rewrite <- (Hother f Hf Hfe). now apply in_map.
  - apply length_map.
Qed.

Lemma handleRequest_accept_db (actor : option uuid) (requestId : uuid) (srv : server)
      (st : FriendRequests.State) :
  fst (FriendRequests.handleRequest actor requestId true srv st) =
  fst (mutate srv (Store.update_friends_status actor "accepted" requestId)).
Proof.
  unfold FriendRequests.handleRequest.
  destruct (mutate srv _) as [srv' [err|]]; reflexivity.
Qed.

(** C4, as stated, fails: bob, the requester of the pending row f1, and
    carol, a third party, send the accept.  Neither attempt is rejected: the
    store answers without an error and the handler shows none.  (The row
    stays pending.) *)
Lemma non_recipient_accept_is_not_rejected :
  In bob_to_alice (tbl_friends db_pending) /\
  friends.status bob_to_alice = "pending" /\
  friends.sender_id bob_to_alice = bob /\ friends.receiver_id bob_to_alice = alice /\
  ~ rejected (Store.update_friends_status (Some bob) "accepted" "f1" db_pending) /\
  ~ rejected (Store.update_friends_status (Some carol) "accepted" "f1" db_pending) /\
  FriendRequests.error
    (snd (FriendRequests.handleRequest (Some bob) "f1" true (online db_pending)
                                       FriendRequests.initial)) = None /\
  FriendRequests.error
    (snd (FriendRequests.handleRequest (Some carol) "f1" true (online db_pending)
                                       FriendRequests.initial)) = None.
Proof.
  split; [left; reflexivity|]. repeat (split; [reflexivity|]).
  split; [|split; [|split; reflexivity]]; intros [e He]; discriminate.
Qed.

(** C4, amended.  A pending friends row is turned into 'accepted' by its
    recipient only.  The same update issued by anyone else (the requester, a
    third party, an anonymous caller) touches no row and raises no error: the
    store answers with the database unchanged, the FriendRequests handler
    leaves the server as it was, and after the Profile handler the row, if
    still there, is still the pending one.  Issued by the recipient it
    replaces the row by its accepted version. *)
Theorem only_recipient_accepts :
  forall (db : database) (e : friends.row) (actor : option uuid),
    pk_friends db -> In e (tbl_friends db) -> friends.status e = "pending" ->
    (actor <> Some (friends.receiver_id e) ->
       Store.update_friends_status actor "accepted" (friends.id e) db = Ok db /\
       (forall up st,
           fst (FriendRequests.handleRequest actor (friends.id e) true (mksrv db up) st)
           = mksrv db up) /\
       (forall id new_id now up st r,
           In r (tbl_friends (srv_db (fst (Profile.handleFriendRequest
                                             actor id new_id now (mksrv db up) st)))) ->
           friends.id r = friends.id e -> r = e /\ friends.status r = "pending"))
    /\ (friends.sender_id e <> friends.receiver_id e ->
        Store.update_friends_status (Some (friends.sender_id e)) "accepted" (friends.id e) db
        = Ok db)
    /\ (forall st, exists db',
           fst (FriendRequests.handleRequest (Some (friends.receiver_id e)) (friends.id e)
                                             true (mksrv db true) st) = mksrv db' true /\
           In (Store.set_status "accepted" e) (tbl_friends db') /\
           ~ In e (tbl_friends db')).
Proof.
  intros db e actor Hpk Hin Hpending. split; [|split].
  - intros Hne. pose proof (accept_by_other_is_noop db e actor Hpk Hin Hne) as Hnoop.
    split; [exact Hnoop|]. split.
    + intros up st. rewrite handleRequest_accept_db. unfold mutate. simpl.
      destruct up; [rewrite Hnoop|]; reflexivity.
    + intros id new_id now up st r Hr Hid.
      assert (r = e) as ->
          by (eapply (row_kept_handleFriendRequest db e actor); eauto).
      auto.
  - intros Hsr. apply accept_by_other_is_noop; try assumption. congruence.
  - intros st. destruct (accept_by_receiver db e Hpk Hin) as (db' & Hup & Hacc & Hplace).
    exists db'. rewrite handleRequest_accept_db. unfold mutate. simpl. rewrite Hup.
    split; [reflexivity|]. split; [exact Hacc|].
    intros He. destruct Hplace as [(e' & _ & _ & _ & _ & _ & Hst & Huniq) _].
    rewrite (Huniq e He eq_refl) in Hpending. congruence.
Qed.

(** C10. Accepting a pending friends row changes its status and nothing
    else: after the recipient accepts, through the FriendRequests handler or
    through the Profile handler, the row with that id has the same id,
    sender_id, receiver_id and created_at and status 'accepted'; every other
    friends row and every other table is as before. *)
Theorem accept_changes_status_only :
  forall (db : database) (e : friends.row),
    pk_friends db -> In e (tbl_friends db) -> friends.status e = "pending" ->
    forall (st : FriendRequests.State) (pst : Profile.State)
           (new_id : uuid) (now : timestamptz),
      accepted_in_place db e
        (srv_db (fst (FriendRequests.handleRequest
                        (Some (friends.receiver_id e)) (friends.id e) true (online db) st)))
      /\ (friends.sender_id e <> EmptyString ->
          accepted_in_place db e
            (srv_db (fst (Profile.handleFriendRequest
                            (Some (friends.receiver_id e)) (friends.sender_id e) new_id now
                            (online db) (Profile.setFriendStatus pst (Some e)))))).
Proof.
  intros db e Hpk Hin Hpending st pst new_id now.
  destruct (accept_by_receiver db e Hpk Hin) as (db' & Hup & _ & Hplace).
  split.
  - rewrite handleRequest_accept_db. unfold mutate, online. simpl. rewrite Hup. exact Hplace.
  - intros Hid. unfold Profile.handleFriendRequest.
    apply String.eqb_neq in Hid. rewrite Hid. simpl Profile.friendStatus. cbv iota.
    rewrite Hpending, !String.eqb_refl. simpl andb. cbv iota.
    unfold mutate, online. simpl srv_online. cbv iota. simpl srv_db. rewrite Hup.
    exact Hplace.
Qed.

Lemma pk_friends_db_pending : pk_friends db_pending.
Proof. unfold pk_friends. simpl. constructor; [intros []|constructor]. Defined.

Lemma only_recipient_accepts_witness :
  pk_friends db_pending /\ In bob_to_alice (tbl_friends db_pending) /\
  friends.status bob_to_alice = "pending" /\
  Store.update_friends_status (Some bob) "accepted" "f1" db_pending = Ok db_pending.
Proof.
  split; [exact pk_friends_db_pending|]. split; [left; reflexivity|].
  split; [reflexivity|].
  apply (only_recipient_accepts db_pending bob_to_alice (Some bob)
           pk_friends_db_pending (or_introl eq_refl) eq_refl).
  discriminate.
Defined.

Lemma accept_changes_status_only_witness :
  pk_friends db_pending /\ In bob_to_alice (tbl_friends db_pending) /\
  friends.status bob_to_alice = "pending" /\
  accepted_in_place db_pending bob_to_alice
    (srv_db (fst (FriendRequests.handleRequest (Some alice) "f1" true (online db_pending)
                                               FriendRequests.initial))).
Proof.
  split; [exact pk_friends_db_pending|]. split; [left; reflexivity|].
  split; [reflexivity|].
  exact (proj1 (accept_changes_status_only db_pending bob_to_alice
                  pk_friends_db_pending (or_introl eq_refl) eq_refl
                  FriendRequests.initial Profile.initial "f9" 0%Z)).
Defined.

(** alice accepts bob's request from the request list. *)
Example alice_accepts_bob :
  FriendRequests.handleRequest (Some alice) "f1" true (online db_pending)
                               FriendRequests.initial
  = (online db_accepted, FriendRequests.initial).
Proof. reflexivity. Qed.

(** bob cannot accept his own request; nothing is reported to him either. *)
Example bob_cannot_accept_his_request :
  FriendRequests.handleRequest (Some bob) "f1" true (online db_pending)
                               FriendRequests.initial
  = (online db_pending, FriendRequests.initial).
Proof. reflexivity. Qed.

(** ** Sending a friend request *)

(** A second request in the same direction hits UNIQUE(sender_id, receiver_id). *)
Lemma same_direction_request_rejected (db : database) (s r new_id : uuid)
      (now : timestamptz) :
  Store.friends_unique_conflict db s r = true ->
  Store.insert_friends (Some s) new_id now s r db = Err unique_violation.
Proof.
  intros Hc. unfold Store.insert_friends, Rls.friends_insert. simpl.
  rewrite String.eqb_refl. simpl. rewrite Hc.
  destruct (existsb _ (tbl_friends db)); reflexivity.
Qed.

(** What the schema does keep: one row per ordered pair, whatever the
    operation and whoever runs it. *)
Lemma ordered_pair_unique_preserved (u : uuid) (op : relationship_op) (db db' : database) :
  friends_unique_ordered db -> run_relationship_op u op db = Ok db' ->
  friends_unique_ordered db'.
Proof.
  unfold friends_unique_ordered. intros Hinv Hrun. destruct op; simpl in Hrun.
  - unfold Store.insert_friends in Hrun.
    repeat match type of Hrun with
           | (if ?c then _ else _) = _ => destruct c eqn:?; [discriminate|]
           end.
    injection Hrun as <-. simpl. apply at_most_one_snoc; assumption.
  - rewrite update_accept_ok in Hrun. injection Hrun as <-. simpl.
    apply at_most_one_map; try assumption;
      intros r; destruct (Store.friends_update_target _ _ r); reflexivity.
  - injection Hrun as <-. simpl. now apply at_most_one_filter.
  - injection Hrun as <-. simpl. now apply at_most_one_filter.
Qed.

(** Accepting, rejecting, cancelling and removing keep one row per
    unordered pair. *)
Lemma one_edge_per_pair_preserved_without_send (u : uuid) (op : relationship_op)
      (db db' : database) :
  (forall target new_id now, op <> Send target new_id now) ->
  one_edge_per_pair db -> run_relationship_op u op db = Ok db' ->
  one_edge_per_pair db'.
Proof.
  unfold one_edge_per_pair, edges_between.
  intros Hop Hinv Hrun a b. specialize (Hinv a b). destruct op; simpl in Hrun.
  - exfalso. eapply Hop. reflexivity.
  - rewrite update_accept_ok in Hrun. injection Hrun as <-. simpl.
    rewrite filter_map_preserved; [assumption|].
    intros r. destruct (Store.friends_update_target _ _ r); reflexivity.
  - injection Hrun as <-. simpl.
    pose proof (filter_filter_length (connectsb a b)
                  (fun f => negb (Store.friends_delete_target (Some u) requestId f))
                  (tbl_friends db)). lia.
  - injection Hrun as <-. simpl.
    pose proof (filter_filter_length (connectsb a b)
                  (fun f => negb (Store.friends_delete_target (Some u) friendId f))
                  (tbl_friends db)). lia.
Qed.

Lemma one_edge_per_pair_db_pending : one_edge_per_pair db_pending.
Proof.
  intros a b. unfold edges_between. simpl.
  destruct (connectsb a b bob_to_alice); simpl; lia.
Qed.

(** C2. With bob's pending request to alice in the table, alice's own
    request to bob is not rejected: the store inserts it, the Profile handler
    reports no error, and the pair has two rows.  (alice's page was loaded
    before bob sent his request, so her component still shows "Add Friend".) *)
Theorem reverse_request_is_not_rejected :
  let alice_page := Profile.checkFriendStatus alice bob (online db0) Profile.initial in
  let bob_sends :=
    Profile.handleFriendRequest (Some bob) alice "f1" 20%Z (online db0) Profile.initial in
  let alice_sends :=
    Profile.handleFriendRequest (Some alice) bob "f2" 21%Z (fst bob_sends) alice_page in
  Profile.friendStatus alice_page = None /\
  fst bob_sends = online db_pending /\
  Store.insert_friends (Some alice) "f2" 21%Z alice bob db_pending
  = Ok (with_friends db0 [bob_to_alice; alice_to_bob]) /\
  srv_db (fst alice_sends) = with_friends db0 [bob_to_alice; alice_to_bob] /\
  Profile.error (snd alice_sends) = None.
Proof. repeat split. Qed.

(** C3. Send does not preserve "one friends row per unordered pair": the
    table with bob's request to alice satisfies it, alice's request to bob is
    accepted by the store, and afterwards two rows join alice and bob. *)
Theorem send_breaks_one_edge_per_pair :
  one_edge_per_pair db_pending /\
  run_relationship_op alice (Send bob "f2" 21%Z) db_pending
  = Ok (with_friends db0 [bob_to_alice; alice_to_bob]) /\
  edges_between alice bob (with_friends db0 [bob_to_alice; alice_to_bob])
  = [bob_to_alice; alice_to_bob] /\
  ~ one_edge_per_pair (with_friends db0 [bob_to_alice; alice_to_bob]).
Proof.
  split; [exact one_edge_per_pair_db_pending|]. repeat split.
  intros H. specialize (H alice bob). vm_compute in H. lia.
Qed.

(** ** Sorting keeps the rows *)

Lemma insert_sorted_perm {A} (before : A -> A -> bool) (x : A) (l : list A) :
  Permutation (insert_sorted before x l) (x :: l).
Proof.
  induction l as [|y l IH]; simpl; [reflexivity|].
  destruct (before y x); [|reflexivity].
  rewrite IH. apply perm_swap.
Qed.

Lemma sort_by_perm {A} (before : A -> A -> bool) (l : list A) :
  Permutation (sort_by before l) l.
Proof.
  induction l as [|x l IH]; simpl; [reflexivity|].
  rewrite insert_sorted_perm. now constructor.
Qed.

Lemma sort_by_In {A} (before : A -> A -> bool) (l : list A) (x : A) :
  In x (sort_by before l) <-> In x l.
Proof.
  split; apply Permutation_in; [|symmetry]; apply sort_by_perm.
Qed.

(** ** What the feed shows *)

Lemma feed_posts_online (user : option uuid) (db : database) (st0 : Feed.State) :
  Feed.posts (Feed.fetchPosts user (online db) st0) =
  sort_desc (fun p => js_time (posts.created_at (Feed.row p)))
    (map (Feed.post_json user db)
         (Store.order_created_desc posts.created_at (Store.select_posts user db))
     ++ Feed.transformedSharedPosts
          (map (fun s => Feed.mkShare (shared_posts.post_id s)
                           (Store.embed_profile user db (shared_posts.user_id s))
                           (Feed.embed_post user db (shared_posts.post_id s)))
               (Store.order_created_desc shared_posts.created_at
                  (Store.select_shared_posts user db)))).
Proof. reflexivity. Qed.

(** A share row yields an entry of the feed exactly when the post it
    references is found among the posts the caller may read. *)
Lemma transformed_In (user : option uuid) (db : database) (shares : list shared_posts.row)
      (p : Feed.Post) :
  In p (Feed.transformedSharedPosts
          (map (fun s => Feed.mkShare (shared_posts.post_id s)
                           (Store.embed_profile user db (shared_posts.user_id s))
                           (Feed.embed_post user db (shared_posts.post_id s)))
               shares)) <->
  exists s r, In s shares /\
              find (fun q => String.eqb (posts.id q) (shared_posts.post_id s))
                   (Store.select_posts user db) = Some r /\
              p = Feed.mkPost r (Store.embed_profile user db (posts.author_id r))
                              (Store.embed_likes user db (posts.id r))
                              (Store.embed_comments user db (posts.id r))
                              (Store.embed_shared_posts user db (posts.id r))
                              (Some (Store.embed_profile user db (shared_posts.user_id s))).
Proof.
  unfold Feed.transformedSharedPosts. rewrite in_flat_map. split.
  - intros (sh & Hsh & Hp). apply in_map_iff in Hsh as (s & <- & Hs).
    simpl in Hp. unfold Feed.embed_post in Hp.
    destruct (find _ (Store.select_posts user db)) as [r|] eqn:Hfind; simpl in Hp;
      [|contradiction].
    destruct Hp as [<- | []]. exists s, r. auto.
  - intros (s & r & Hs & Hfind & ->).
    eexists. split; [apply in_map; exact Hs|].
    simpl. unfold Feed.embed_post. rewrite Hfind. simpl. auto.
Qed.

(** Every entry of a fetched feed is a readable row of posts, with the
    likes the store has for it. *)
Lemma feed_entry (user : option uuid) (db : database) (st0 : Feed.State) (p : Feed.Post) :
  In p (Feed.posts (Feed.fetchPosts user (online db) st0)) ->
  In (Feed.row p) (Store.select_posts user db) /\
  Feed.likes p = Store.embed_likes user db (posts.id (Feed.row p)) /\
  Feed.shared_posts p = Store.embed_shared_posts user db (posts.id (Feed.row p)).
Proof.
  rewrite feed_posts_online. unfold sort_desc. rewrite sort_by_In, in_app_iff.
  intros [Hp | Hp].
  - apply in_map_iff in Hp as (r & <- & Hr).
    apply sort_by_In in Hr. auto.
  - apply transformed_In in Hp as (s & r & _ & Hfind & ->).
    apply find_some in Hfind as [Hr _]. auto.
Qed.

(** A readable post is in the feed. *)
Lemma feed_shows_readable (user : option uuid) (db : database) (st0 : Feed.State)
      (r : posts.row) :
  In r (Store.select_posts user db) ->
  In (Feed.post_json user db r) (Feed.posts (Feed.fetchPosts user (online db) st0)).
Proof.
  intros Hr. rewrite feed_posts_online. unfold sort_desc.
  rewrite sort_by_In, in_app_iff. left.
  apply in_map. now apply sort_by_In.
Qed.

Lemma existsb_like_set (user : option uuid) (db : database) (P U : uuid) :
  existsb (fun like_user_id => String.eqb like_user_id U) (Store.embed_likes user db P)
  = liked db P U.
Proof.
  unfold Store.embed_likes, liked, key_is, Rls.likes_select.
  induction (tbl_likes db) as [|l ls IH]; [reflexivity|].
  cbn [filter existsb]. rewrite <- IH. cbn [holds]. rewrite andb_true_r.
  destruct (String.eqb (likes.post_id l) P); reflexivity.
Qed.

Lemma existsb_shared_set (user : option uuid) (db : database) (P U : uuid) :
  existsb (fun share_user_id => String.eqb share_user_id U)
          (Store.embed_shared_posts user db P)
  = shared db P U.
Proof.
  unfold Store.embed_shared_posts, shared, key_is, Rls.shared_posts_select.
  induction (tbl_shared_posts db) as [|l ls IH]; [reflexivity|].
  cbn [filter existsb]. rewrite <- IH. cbn [holds]. rewrite andb_true_r.
  destruct (String.eqb (shared_posts.post_id l) P); reflexivity.
Qed.

(** On a freshly fetched feed that shows the post, the like button knows
    whether the user likes it. *)
Lemma existingLike_current (U P : uuid) (db : database) (st0 : Feed.State) :
  (exists r, In r (Store.select_posts (Some U) db) /\ posts.id r = P) ->
  Feed.existingLike (Feed.fetchPosts (Some U) (online db) st0) P U = liked db P U.
Proof.
  intros (r & Hr & Hid). unfold Feed.existingLike.
  destruct (find _ _) as [p|] eqn:Hfind.
  - apply find_some in Hfind as [Hp Heq]. apply String.eqb_eq in Heq.
    apply feed_entry in Hp as (_ & -> & _). rewrite Heq. apply existsb_like_set.
  - exfalso.
    pose proof (find_none _ _ Hfind _ (feed_shows_readable (Some U) db st0 r Hr)) as Hn.
    simpl in Hn. rewrite Hid, String.eqb_refl in Hn. discriminate.
Qed.

(** ** Likes *)

Lemma key_is_true {A} (k1 k2 : A -> uuid) (x y : uuid) (r : A) :
  key_is k1 k2 x y r = true <-> k1 r = x /\ k2 r = y.
Proof. unfold key_is. now rewrite andb_true_iff, !String.eqb_eq. Qed.

Lemma at_most_one_tail {A} (k1 k2 : A -> uuid) (a : A) (l : list A) :
  at_most_one k1 k2 (a :: l) -> at_most_one k1 k2 l.
Proof.
  intros H x y. specialize (H x y). simpl in H.
  destruct (key_is k1 k2 x y a); simpl in H; lia.
Qed.

Lemma at_most_one_head {A} (k1 k2 : A -> uuid) (a : A) (l : list A) (x y : uuid) :
  at_most_one k1 k2 (a :: l) -> key_is k1 k2 x y a = true ->
  forall r, In r l -> key_is k1 k2 x y r = false.
Proof.
  intros H Ha r Hr. specialize (H x y). simpl in H. rewrite Ha in H. simpl in H.
  destruct (key_is k1 k2 x y r) eqn:Hk; [|reflexivity].
  assert (In r (filter (key_is k1 k2 x y) l)) as Hin by (apply filter_In; auto).
  destruct (filter (key_is k1 k2 x y) l); simpl in *; [contradiction|lia].
Qed.

Lemma likes_delete_target_key (U P : uuid) (l : likes.row) :
  Store.likes_delete_target (Some U) P U l = key_is likes.post_id likes.user_id P U l.
Proof.
  unfold Store.likes_delete_target, key_is, Rls.likes_select, Rls.likes_delete.
  rewrite holds_sql_eq_some. simpl holds. rewrite andb_true_r.
  destruct (String.eqb_spec (likes.user_id l) U) as [->|];
    [now rewrite String.eqb_refl, andb_true_r | now rewrite andb_false_r].
Qed.

Lemma shared_posts_delete_target_key (U P : uuid) (s : shared_posts.row) :
  Store.shared_posts_delete_target (Some U) P U s
  = key_is shared_posts.post_id shared_posts.user_id P U s.
Proof.
  unfold Store.shared_posts_delete_target, key_is, Rls.shared_posts_select,
    Rls.shared_posts_delete.
  rewrite holds_sql_eq_some. simpl holds. rewrite andb_true_r.
  destruct (String.eqb_spec (shared_posts.user_id s) U) as [->|];
    [now rewrite String.eqb_refl, andb_true_r | now rewrite andb_false_r].
Qed.

Lemma delete_likes_own (U P : uuid) (db : database) :
  Store.delete_likes (Some U) P U db =
  Ok (with_likes db
        (filter (fun l => negb (key_is likes.post_id likes.user_id P U l)) (tbl_likes db))).
Proof.
  unfold Store.delete_likes. do 2 f_equal. apply filter_ext.
  intros l. now rewrite likes_delete_target_key.
Qed.

Lemma insert_likes_own (U P new_id : uuid) (now : timestamptz) (db : database) :
  liked db P U = false ->
  Store.post_exists db P = true -> Store.profile_exists db U = true ->
  ~ In new_id (map likes.id (tbl_likes db)) ->
  Store.insert_likes (Some U) new_id now P U db =
  Ok (with_likes db (tbl_likes db ++ [likes.mk new_id P U (Some now)])).
Proof.
  intros Hliked Hpost Hprofile Hfresh.
  unfold Store.insert_likes, Rls.likes_insert. simpl likes.user_id.
  rewrite holds_sql_eq_some, String.eqb_refl. simpl negb. cbv iota.
  rewrite existsb_all_false.
  - unfold Store.likes_unique_conflict. unfold liked, key_is in Hliked.
    rewrite Hliked, Hpost, Hprofile. reflexivity.
  - intros l Hl. apply String.eqb_neq. intros Heq. apply Hfresh.
    rewrite <- Heq. now apply in_map.
Qed.

Lemma readable_post_exists (uid : option uuid) (db : database) (P : uuid) :
  (exists r, In r (Store.select_posts uid db) /\ posts.id r = P) ->
  Store.post_exists db P = true.
Proof.
  intros (r & Hr & Hid). unfold Store.post_exists. apply existsb_exists.
  exists r. apply filter_In in Hr as [Hr _]. split; [assumption|].
  now apply String.eqb_eq.
Qed.

Lemma liked_after_delete (db : database) (P U : uuid) :
  existsb (key_is likes.post_id likes.user_id P U)
          (filter (fun l => negb (key_is likes.post_id likes.user_id P U l)) (tbl_likes db))
  = false.
Proof.
  apply existsb_all_false. intros l Hl. apply filter_In in Hl as [_ Hl].
  now apply negb_true_iff.
Qed.

(** Deleting the rows of one key and adding one row for it leaves every
    key as present or absent as it was. *)
Lemma liked_after_retoggle (rows : list likes.row) (P U p u new_id : uuid)
      (now : option timestamptz) :
  existsb (key_is likes.post_id likes.user_id P U) rows = true ->
  existsb (key_is likes.post_id likes.user_id p u)
          (filter (fun l => negb (key_is likes.post_id likes.user_id P U l)) rows
           ++ [likes.mk new_id P U now])
  = existsb (key_is likes.post_id likes.user_id p u) rows.
Proof.
  intros Hliked. rewrite existsb_app. simpl. rewrite orb_false_r.
  destruct (key_is likes.post_id likes.user_id p u (likes.mk new_id P U now)) eqn:Hnew.
  - rewrite orb_true_r. apply key_is_true in Hnew as [Hp Hu]. simpl in Hp, Hu.
    subst p u. now rewrite Hliked.
  - rewrite orb_false_r. clear Hliked.
    induction rows as [|a rows IH]; simpl; [reflexivity|].
    destruct (key_is likes.post_id likes.user_id P U a) eqn:Ha; simpl; rewrite IH.
    + replace (key_is likes.post_id likes.user_id p u a) with false; [reflexivity|].
      symmetry. apply key_is_true in Ha as [<- <-].
      unfold key_is in *. simpl in Hnew. exact Hnew.
    + reflexivity.
Qed.

Lemma like_set_In (db : database) (P u : uuid) :
  In u (like_set db P) <-> liked db P u = true.
Proof.
  unfold like_set, liked. rewrite in_map_iff, existsb_exists. split.
  - intros (l & <- & Hl). apply filter_In in Hl as [Hl Hp]. exists l.
    split; [assumption|]. apply key_is_true. apply String.eqb_eq in Hp. auto.
  - intros (l & Hl & Hk). apply key_is_true in Hk as [Hp Hu]. exists l.
    split; [assumption|]. apply filter_In. split; [assumption|].
    now apply String.eqb_eq.
Qed.

(** With one row per key, un-liking and liking again permutes the like set. *)
Lemma like_set_retoggle (rows : list likes.row) (P U new_id : uuid)
      (now : option timestamptz) :
  at_most_one likes.post_id likes.user_id rows ->
  existsb (key_is likes.post_id likes.user_id P U) rows = true ->
  Permutation
    (map likes.user_id
       (filter (fun l => String.eqb (likes.post_id l) P)
          (filter (fun l => negb (key_is likes.post_id likes.user_id P U l)) rows
           ++ [likes.mk new_id P U now])))
    (map likes.user_id (filter (fun l => String.eqb (likes.post_id l) P) rows)).
Proof.
  induction rows as [|a rows IH]; simpl; [discriminate|].
  intros Huniq Hliked.
  destruct (key_is likes.post_id likes.user_id P U a) eqn:Ha; simpl.
  - pose proof (at_most_one_head _ _ a rows P U Huniq Ha) as Hrest.
    rewrite (filter_all _ rows) by (intros r Hr; now rewrite (Hrest r Hr)).
    apply key_is_true in Ha as [Hp Hu]. rewrite Hp, String.eqb_refl. simpl.
    rewrite filter_app, map_app. simpl. rewrite String.eqb_refl. simpl.
    rewrite Hu. symmetry. apply Permutation_cons_append.
  - apply at_most_one_tail in Huniq. specialize (IH Huniq Hliked).
    destruct (String.eqb (likes.post_id a) P); simpl; [apply perm_skip|]; exact IH.
Qed.

(** One press of the like button on a current feed. *)
Lemma toggleLike_step (U P new_id : uuid) (now : timestamptz) (db : database)
      (st0 : Feed.State) :
  (exists r, In r (Store.select_posts (Some U) db) /\ posts.id r = P) ->
  Store.profile_exists db U = true ->
  (liked db P U = false -> ~ In new_id (map likes.id (tbl_likes db))) ->
  Feed.toggleLike (Some U) P new_id now (online db)
                  (Feed.fetchPosts (Some U) (online db) st0)
  = let db' :=
      if liked db P U
      then with_likes db
             (filter (fun l => negb (key_is likes.post_id likes.user_id P U l))
                     (tbl_likes db))
      else with_likes db (tbl_likes db ++ [likes.mk new_id P U (Some now)]) in
    (online db',
     Feed.fetchPosts (Some U) (online db') (Feed.fetchPosts (Some U) (online db) st0)).
Proof.
  intros Hread Hprofile Hfresh. unfold Feed.toggleLike.
  rewrite (existingLike_current U P db st0 Hread).
  destruct (liked db P U) eqn:Hliked; unfold mutate, online; simpl srv_online;
    cbv iota; simpl srv_db.
  - rewrite delete_likes_own. reflexivity.
  - rewrite insert_likes_own;
      [reflexivity | assumption | eapply readable_post_exists; eauto | assumption | auto].
Qed.

(** C5, as stated, fails: the handler decides on the list of posts it has on
    screen and does not wait for the refetch it starts.  bob has not liked
    p1 and presses twice, the second press still on the list as it was
    fetched before the first: both presses send the insert, the second is
    answered with a unique violation the handler does not look at, and bob's
    like stays.  From a liked post both presses send the delete and the like
    is gone. *)
Lemma second_press_on_stale_list_does_not_restore :
  like_set db0 "p1" = [] /\
  like_set
    (srv_db (fst (Feed.toggleLike (Some bob) "p1" "l2" 31%Z
                    (fst (Feed.toggleLike (Some bob) "p1" "l1" 30%Z (online db0)
                            (Feed.fetchPosts (Some bob) (online db0) Feed.initial)))
                    (Feed.fetchPosts (Some bob) (online db0) Feed.initial))))
    "p1" = [bob] /\
  like_set db_liked "p1" = [bob] /\
  like_set
    (srv_db (fst (Feed.toggleLike (Some bob) "p1" "l3" 32%Z
                    (fst (Feed.toggleLike (Some bob) "p1" "l2" 31%Z (online db_liked)
                            (Feed.fetchPosts (Some bob) (online db_liked) Feed.initial)))
                    (Feed.fetchPosts (Some bob) (online db_liked) Feed.initial))))
    "p1" = [].
Proof. repeat split. Qed.

(** C5, amended.  On a feed that shows post P to the signed-in user U, with
    the second press taken on the list as refreshed after the first, pressing
    the like button twice brings the likes back: if U had not liked P the first
    press inserts the (P, U) row and the second deletes it, leaving the
    database as it was; if U had liked P the first press deletes the row and
    the second inserts it again.  Either way every (post, user) pair is liked
    afterwards iff it was before, the like set of P has the same members,
    and, rows being unique per pair, the same number of them. *)
Theorem toggle_like_twice_restores :
  forall (db : database) (U P : uuid) (st0 : Feed.State)
         (id1 id2 : uuid) (t1 t2 : timestamptz),
    (exists r, In r (Store.select_posts (Some U) db) /\ posts.id r = P) ->
    Store.profile_exists db U = true ->
    ~ In id1 (map likes.id (tbl_likes db)) ->
    ~ In id2 (map likes.id (tbl_likes db)) ->
    let st := Feed.fetchPosts (Some U) (online db) st0 in
    let once := Feed.toggleLike (Some U) P id1 t1 (online db) st in
    let twice := Feed.toggleLike (Some U) P id2 t2 (fst once) (snd once) in
    (liked db P U = false ->
       tbl_likes (srv_db (fst once))
       = (tbl_likes db ++ [likes.mk id1 P U (Some t1)])%list /\
       srv_db (fst twice) = db)
    /\ (liked db P U = true ->
        tbl_likes (srv_db (fst once))
        = filter (fun l => negb (key_is likes.post_id likes.user_id P U l)) (tbl_likes db) /\
        tbl_likes (srv_db (fst twice))
        = (tbl_likes (srv_db (fst once)) ++ [likes.mk id2 P U (Some t2)])%list)
    /\ liked (srv_db (fst once)) P U = negb (liked db P U)
    /\ (forall p u, liked (srv_db (fst twice)) p u = liked db p u)
    /\ (forall u, In u (like_set (srv_db (fst twice)) P) <-> In u (like_set db P))
    /\ (likes_unique db ->
        Permutation (like_set (srv_db (fst twice)) P) (like_set db P) /\
        List.length (like_set (srv_db (fst twice)) P) = List.length (like_set db P)).
Proof.
  intros db U P st0 id1 id2 t1 t2 Hread Hprofile Hid1 Hid2 st once twice.
  assert (once = (let db' :=
                    if liked db P U
                    then with_likes db
                           (filter (fun l => negb (key_is likes.post_id likes.user_id P U l))
                                   (tbl_likes db))
                    else with_likes db (tbl_likes db ++ [likes.mk id1 P U (Some t1)]) in
                  (online db', Feed.fetchPosts (Some U) (online db') st))) as Honce
      by (apply toggleLike_step; auto).
  destruct (liked db P U) eqn:Hliked; cbv zeta in Honce.
  - (* liked: delete, then insert again *)
    set (rows1 := filter (fun l => negb (key_is likes.post_id likes.user_id P U l))
                         (tbl_likes db)) in *.
    assert (liked (with_likes db rows1) P U = false) as Hliked1
        by (apply liked_after_delete).
    assert (twice = (online (with_likes (with_likes db rows1)
                                        (rows1 ++ [likes.mk id2 P U (Some t2)])),
                     Feed.fetchPosts (Some U)
                       (online (with_likes (with_likes db rows1)
                                           (rows1 ++ [likes.mk id2 P U (Some t2)])))
                       (snd once))) as Htwice.
    { subst twice. rewrite Honce. simpl fst. simpl snd.
      rewrite toggleLike_step; auto.
      - rewrite Hliked1. reflexivity.
      - intros _ Hin. apply Hid2. simpl in Hin.
        apply in_map_iff in Hin as (l & <- & Hl). apply filter_In in Hl as [Hl _].
        now apply in_map. }
    rewrite Htwice, Honce. simpl.
    assert (forall p u,
               liked (with_likes (with_likes db rows1)
                                 (rows1 ++ [likes.mk id2 P U (Some t2)])) p u
               = liked db p u) as Hsame
        by (intros p u; apply liked_after_retoggle; exact Hliked).
    split; [discriminate|]. split; [auto|]. split; [exact Hliked1|].
    split; [exact Hsame|]. split.
    + intros u. rewrite !like_set_In. now rewrite Hsame.
    + intros Huniq.
      assert (Permutation
                (like_set (with_likes (with_likes db rows1)
                                      (rows1 ++ [likes.mk id2 P U (Some t2)])) P)
                (like_set db P)) as Hperm
          by (apply like_set_retoggle; assumption).
      split; [exact Hperm|]. now apply Permutation_length.
  - (* not liked: insert, then delete *)
    set (rows1 := (tbl_likes db ++ [likes.mk id1 P U (Some t1)])%list) in *.
    assert (liked (with_likes db rows1) P U = true) as Hliked1.
    { unfold liked, rows1. simpl. rewrite existsb_app. simpl.
      unfold key_is at 2. simpl. rewrite !String.eqb_refl. simpl.
      apply orb_true_r. }
    assert (filter (fun l => negb (key_is likes.post_id likes.user_id P U l)) rows1
            = tbl_likes db) as Hback.
    { unfold rows1. rewrite filter_app. simpl.
      unfold key_is at 2. simpl. rewrite !String.eqb_refl. simpl.
      rewrite app_nil_r. apply filter_all. intros l Hl.
      apply negb_true_iff. eapply existsb_false_In; eauto. }
    assert (twice = (online db, Feed.fetchPosts (Some U) (online db) (snd once)))
      as Htwice.
    { subst twice. rewrite Honce. simpl fst. simpl snd.
      rewrite toggleLike_step; auto.
      - rewrite Hliked1. cbv zeta. simpl tbl_likes. rewrite Hback.
        replace (with_likes (with_likes db rows1) (tbl_likes db)) with db
          by (destruct db; reflexivity).
        reflexivity.
      - rewrite Hliked1. discriminate. }
    rewrite Htwice, Honce. simpl.
    split; [auto|]. split; [discriminate|]. split; [exact Hliked1|].
    split; [reflexivity|]. split; [reflexivity|].
    intros _. split; reflexivity.
Qed.

Lemma toggle_like_twice_restores_witness :
  (exists r, In r (Store.select_posts (Some bob) db0) /\ posts.id r = "p1") /\
  Store.profile_exists db0 bob = true /\
  ~ In "l1" (map likes.id (tbl_likes db0)) /\
  ~ In "l2" (map likes.id (tbl_likes db0)) /\
  srv_db (fst (Feed.toggleLike (Some bob) "p1" "l2" 31%Z
                 (fst (Feed.toggleLike (Some bob) "p1" "l1" 30%Z (online db0)
                         (Feed.fetchPosts (Some bob) (online db0) Feed.initial)))
                 (snd (Feed.toggleLike (Some bob) "p1" "l1" 30%Z (online db0)
                         (Feed.fetchPosts (Some bob) (online db0) Feed.initial)))))
  = db0.
Proof.
  assert (exists r, In r (Store.select_posts (Some bob) db0) /\ posts.id r = "p1") as Hread
      by (exists public_post; split; [left; reflexivity | reflexivity]).
  assert (~ In "l1" (map likes.id (tbl_likes db0))) as H1 by (intros []).
  assert (~ In "l2" (map likes.id (tbl_likes db0))) as H2 by (intros []).
  split; [exact Hread|]. split; [reflexivity|]. split; [exact H1|]. split; [exact H2|].
  apply (toggle_like_twice_restores db0 bob "p1" Feed.initial "l1" "l2" 30%Z 31%Z
           Hread eq_refl H1 H2).
  reflexivity.
Defined.

(** bob likes the public post, then unlikes it. *)
Example bob_likes_then_unlikes :
  let once := Feed.toggleLike (Some bob) "p1" "l1" 30%Z (online db0)
                (Feed.fetchPosts (Some bob) (online db0) Feed.initial) in
  fst once = online db_liked /\
  fst (Feed.toggleLike (Some bob) "p1" "l2" 31%Z (fst once) (snd once)) = online db0.
Proof. split; reflexivity. Qed.

(** ** Unique join rows *)

Lemma insert_likes_unique (uid : option uuid) (new_id : uuid) (now : timestamptz)
      (P U : uuid) (db db' : database) :
  join_rows_unique db -> Store.insert_likes uid new_id now P U db = Ok db' ->
  join_rows_unique db'.
Proof.
  intros [Hl Hs] Hins. unfold Store.insert_likes in Hins.
  repeat match type of Hins with
         | (if ?c then _ else _) = _ => destruct c eqn:?; [discriminate|]
         end.
  injection Hins as <-. split; [|exact Hs].
  unfold likes_unique. simpl. apply at_most_one_snoc; assumption.
Qed.

Lemma insert_shared_posts_unique (uid : option uuid) (new_id : uuid) (now : timestamptz)
      (P U : uuid) (db db' : database) :
  join_rows_unique db -> Store.insert_shared_posts uid new_id now P U db = Ok db' ->
  join_rows_unique db'.
Proof.
  intros [Hl Hs] Hins. unfold Store.insert_shared_posts in Hins.
  repeat match type of Hins with
         | (if ?c then _ else _) = _ => destruct c eqn:?; [discriminate|]
         end.
  injection Hins as <-. split; [exact Hl|].
  unfold shared_posts_unique. simpl. apply at_most_one_snoc; assumption.
Qed.

Lemma run_join_op_unique (uid : option uuid) (user : uuid) (op : join_op)
      (db db' : database) :
  join_rows_unique db -> run_join_op uid user op db = Ok db' -> join_rows_unique db'.
Proof.
  intros Hinv Hrun. destruct op; simpl in Hrun.
  - eapply insert_likes_unique; eauto.
  - injection Hrun as <-. destruct Hinv as [Hl Hs]. split; [|exact Hs].
    unfold likes_unique. simpl. now apply at_most_one_filter.
  - eapply insert_shared_posts_unique; eauto.
  - injection Hrun as <-. destruct Hinv as [Hl Hs]. split; [exact Hl|].
    unfold shared_posts_unique. simpl. now apply at_most_one_filter.
Qed.

Lemma mutate_join_unique (srv : server) (uid : option uuid) (user : uuid) (op : join_op) :
  join_rows_unique (srv_db srv) ->
  join_rows_unique (srv_db (fst (mutate srv (run_join_op uid user op)))).
Proof.
  intros Hinv.
  destruct (mutate_db srv (run_join_op uid user op)) as [(db' & Hm & ->) | (e & ->)];
    simpl; [|exact Hinv].
  eapply run_join_op_unique; eauto.
Qed.

(** The unique index refuses a second row for a pair, whoever asks. *)
Lemma second_like_rejected (uid : option uuid) (new_id : uuid) (now : timestamptz)
      (P U : uuid) (db : database) :
  liked db P U = true ->
  (exists e, Store.insert_likes uid new_id now P U db = Err e) /\
  Store.insert_likes (Some U) new_id now P U db = Err unique_violation.
Proof.
  intros Hliked. unfold Store.insert_likes, Store.likes_unique_conflict.
  unfold liked, key_is in Hliked. rewrite Hliked. clear Hliked. split.
  - destruct (negb _); [eauto|]. destruct (existsb _ _); simpl; eauto.
  - unfold Rls.likes_insert. simpl likes.user_id.
    rewrite holds_sql_eq_some, String.eqb_refl. simpl.
    destruct (existsb _ _); reflexivity.
Qed.

Lemma second_share_rejected (uid : option uuid) (new_id : uuid) (now : timestamptz)
      (P U : uuid) (db : database) :
  shared db P U = true ->
  (exists e, Store.insert_shared_posts uid new_id now P U db = Err e) /\
  Store.insert_shared_posts (Some U) new_id now P U db = Err unique_violation.
Proof.
  intros Hshared. unfold Store.insert_shared_posts, Store.shared_posts_unique_conflict.
  unfold shared, key_is in Hshared. rewrite Hshared. clear Hshared. split.
  - destruct (negb _); [eauto|]. destruct (existsb _ _); simpl; eauto.
  - unfold Rls.shared_posts_insert. simpl shared_posts.user_id.
    rewrite holds_sql_eq_some, String.eqb_refl. simpl.
    destruct (existsb _ _); reflexivity.
Qed.

(** C8. With at most one likes row and at most one shared_posts row per
    (post, user) pair, the same holds after every like, unlike, share and
    unshare statement, whoever the caller, and after the Feed handlers that
    issue them; an insert for a pair that already has its row is answered
    with an error (the unique violation, for the user's own insert). *)
Theorem join_rows_stay_unique :
  forall (db : database),
    join_rows_unique db ->
    (forall uid user op db',
        run_join_op uid user op db = Ok db' -> join_rows_unique db')
    /\ (forall user P new_id now up st,
           join_rows_unique
             (srv_db (fst (Feed.toggleLike user P new_id now (mksrv db up) st))))
    /\ (forall user P new_id now up st,
           join_rows_unique
             (srv_db (fst (Feed.sharePost user P new_id now (mksrv db up) st))))
    /\ (forall uid P U new_id now,
           liked db P U = true ->
           (exists e, Store.insert_likes uid new_id now P U db = Err e) /\
           Store.insert_likes (Some U) new_id now P U db = Err unique_violation)
    /\ (forall uid P U new_id now,
           shared db P U = true ->
           (exists e, Store.insert_shared_posts uid new_id now P U db = Err e) /\
           Store.insert_shared_posts (Some U) new_id now P U db = Err unique_violation).
Proof.
  intros db Hinv. split; [|split; [|split; [|split]]].
  - intros uid user op db' Hrun. eapply run_join_op_unique; eauto.
  - intros user P new_id now up st. unfold Feed.toggleLike.
    destruct user as [u|]; [|exact Hinv]. cbv zeta. simpl fst.
    destruct (Feed.existingLike st P u).
    + exact (mutate_join_unique (mksrv db up) (Some u) u (Unlike P) Hinv).
    + exact (mutate_join_unique (mksrv db up) (Some u) u (Like P new_id now) Hinv).
  - intros user P new_id now up st. unfold Feed.sharePost.
    destruct user as [u|]; [|exact Hinv]. cbv zeta. simpl fst.
    destruct (Feed.alreadyShared st P u).
    + exact (mutate_join_unique (mksrv db up) (Some u) u (Unshare P) Hinv).
    + exact (mutate_join_unique (mksrv db up) (Some u) u (Share P new_id now) Hinv).
  - intros uid P U new_id now. apply second_like_rejected.
  - intros uid P U new_id now. apply second_share_rejected.
Qed.

Lemma join_rows_unique_db_liked : join_rows_unique db_liked.
Proof.
  split; intros x y; simpl.
  - destruct (key_is likes.post_id likes.user_id x y _); simpl; lia.
  - lia.
Defined.

Lemma join_rows_stay_unique_witness :
  join_rows_unique db_liked /\
  Store.insert_likes (Some bob) "l2" 31%Z "p1" bob db_liked = Err unique_violation.
Proof.
  split; [exact join_rows_unique_db_liked|].
  exact (proj2 (proj1 (proj2 (proj2 (proj2
           (join_rows_stay_unique db_liked join_rows_unique_db_liked))))
                 (Some bob) "p1" bob "l2" 31%Z eq_refl)).
Defined.

(** ** Failing reads *)

(** C9, as stated, fails: the [catch] records the error and does not clear
    the list.  bob's feed was fetched while alice was his friend; she has
    removed him since and the store cannot be reached: the fetch fails and
    the list still has both posts, p2 among them, which bob may no longer
    read. *)
Lemma failed_refresh_still_shows_posts :
  query (offline db0) (Feed.select_original (Some bob)) = Err fetch_failed /\
  map (fun p => posts.id (Feed.row p))
      (Feed.posts (Feed.fetchPosts (Some bob) (offline db0)
                     (Feed.fetchPosts (Some bob) (online db_accepted) Feed.initial)))
  = ["p2"; "p1"] /\
  can_read db0 (Some bob) friends_post = false.
Proof. repeat split. Qed.

(** C9, amended.  A feed fetch in which a query comes back with an error
    delivers no posts: the [try] block ends in that error, also when the
    first query had delivered rows; [setPosts] is not called, so nothing of
    the failed fetch reaches the list, which stays as it was (empty on the
    component's first fetch, the posts of the last successful fetch after a
    failed refresh), and the error is recorded.  In particular so when the
    store cannot be reached. *)
Theorem failed_fetch_returns_no_posts :
  forall (user : option uuid) (db : database) (st : Feed.State)
         (originalR : response (list Feed.Post)) (sharedR : response (list Feed.Share)),
    (exists e, originalR = Err e) \/ (exists e, sharedR = Err e) ->
    ((exists e, Feed.fetchPosts_try originalR sharedR = Err e) /\
     (forall allPosts,
         ~ In (Feed.setPosts allPosts)
              (Feed.fetchPosts_setters (Feed.fetchPosts_try originalR sharedR))) /\
     Feed.posts (Feed.fetchPosts_handle (Feed.fetchPosts_try originalR sharedR) st)
     = Feed.posts st /\
     Feed.posts (Feed.fetchPosts_handle (Feed.fetchPosts_try originalR sharedR) Feed.initial)
     = [] /\
     (exists e, Feed.error (Feed.fetchPosts_handle (Feed.fetchPosts_try originalR sharedR) st)
                = Some e))
    /\ (Feed.fetchPosts_try (query (offline db) (Feed.select_original user))
                            (query (offline db) (Feed.select_shared user))
        = Err fetch_failed /\
        Feed.posts (Feed.fetchPosts user (offline db) st) = Feed.posts st /\
        Feed.posts (Feed.fetchPosts user (offline db) Feed.initial) = []).
Proof.
  intros user db st originalR sharedR Hfail. split; [|repeat split].
  assert (exists e, Feed.fetchPosts_try originalR sharedR = Err e) as [e He].
  { destruct Hfail as [[e ->] | [e ->]]; [exists e; reflexivity|].
    destruct originalR as [rows|e']; [exists e | exists e']; reflexivity. }
  rewrite He. simpl. repeat split; eauto.
  intros allPosts [H | [H | []]]; discriminate.
Qed.

Lemma failed_fetch_returns_no_posts_witness :
  ((exists e, @Err (list Feed.Post) fetch_failed = Err e) \/
   (exists e, @Err (list Feed.Share) fetch_failed = Err e)) /\
  Feed.posts (Feed.fetchPosts (Some bob) (offline db0) Feed.initial) = [].
Proof.
  assert ((exists e, @Err (list Feed.Post) fetch_failed = Err e) \/
          (exists e, @Err (list Feed.Share) fetch_failed = Err e)) as H
      by (left; exists fetch_failed; reflexivity).
  split; [exact H|].
  apply (failed_fetch_returns_no_posts (Some bob) db0 Feed.initial
           (Err fetch_failed) (Err fetch_failed) H).
Defined.

(** The first query answers and the second does not: its rows are dropped. *)
Example partial_failure_drops_rows :
  Feed.fetchPosts_try (Feed.select_original (Some bob) db0) (Err fetch_failed)
  = Err fetch_failed.
Proof. reflexivity. Qed.

(** A failed refresh leaves the list that was on screen. *)
Example failed_refresh_keeps_list :
  let shown := Feed.fetchPosts (Some bob) (online db0) Feed.initial in
  Feed.posts (Feed.fetchPosts (Some bob) (offline db0) shown) = Feed.posts shown /\
  List.length (Feed.posts shown) = 1.
Proof. split; reflexivity. Qed.

(** ** One policy, every read path *)

Lemma filter_filter_comm {A} (f g : A -> bool) (l : list A) :
  filter f (filter g l) = filter g (filter f l).
Proof.
  induction l as [|a l IH]; simpl; [reflexivity|].
  destruct (f a) eqn:Hf, (g a) eqn:Hg; simpl; rewrite ?Hf, ?Hg, IH; reflexivity.
Qed.

Lemma filter_pk (l : list posts.row) (P : posts.row) :
  NoDup (map posts.id l) -> In P l ->
  filter (fun p => String.eqb (posts.id p) (posts.id P)) l = [P].
Proof.
  induction l as [|a l IH]; simpl; [contradiction|].
  intros Hnd Hin. inversion Hnd as [|x xs Hnotin Hnd']; subst.
  destruct Hin as [-> | Hin].
  - rewrite String.eqb_refl. f_equal. apply filter_none.
    intros q Hq. apply String.eqb_neq. intros Heq. apply Hnotin.
    rewrite <- Heq. now apply in_map.
  - replace (String.eqb (posts.id a) (posts.id P)) with false; [auto|].
    symmetry. apply String.eqb_neq. intros Heq. apply Hnotin.
    rewrite Heq. now apply in_map.
Qed.

Lemma readable_with_id (viewer : option uuid) (db : database) (P : posts.row) :
  pk_posts db -> In P (tbl_posts db) ->
  filter (fun p => String.eqb (posts.id p) (posts.id P)) (Store.select_posts viewer db)
  = if can_read db viewer P then [P] else [].
Proof.
  intros Hpk Hin. unfold Store.select_posts.
  rewrite filter_filter_comm, filter_pk by assumption. simpl.
  destruct (can_read db viewer P); reflexivity.
Qed.

Lemma find_readable (viewer : option uuid) (db : database) (P : posts.row) :
  pk_posts db -> In P (tbl_posts db) ->
  find (fun p => String.eqb (posts.id p) (posts.id P)) (Store.select_posts viewer db)
  = if can_read db viewer P then Some P else None.
Proof.
  intros Hpk Hin.
  pose proof (readable_with_id viewer db P Hpk Hin) as Hf.
  destruct (find _ (Store.select_posts viewer db)) as [q|] eqn:Hfind.
  - apply find_some in Hfind as [Hq Hid].
    assert (In q (filter (fun p => String.eqb (posts.id p) (posts.id P))
                         (Store.select_posts viewer db))) as Hq'
        by (apply filter_In; auto).
    rewrite Hf in Hq'. destruct (can_read db viewer P); simpl in Hq'.
    + destruct Hq' as [-> | []]. reflexivity.
    + contradiction.
  - destruct (can_read db viewer P) eqn:Hr; [|reflexivity].
    assert (In P (Store.select_posts viewer db)) as HP by (apply filter_In; auto).
    pose proof (find_none _ _ Hfind P HP) as Hn. simpl in Hn.
    rewrite String.eqb_refl in Hn. discriminate.
Qed.

Lemma select_posts_In (viewer : option uuid) (db : database) (P : posts.row) :
  In P (tbl_posts db) ->
  (In P (Store.select_posts viewer db) <-> can_read db viewer P = true).
Proof. intros Hin. unfold Store.select_posts. rewrite filter_In. tauto. Qed.

(** The rows of the three queries that carry P. *)
Lemma original_rows (viewer : option uuid) (db : database) (P : posts.row) :
  (exists p, In p (map (Feed.post_json viewer db)
                       (Store.order_created_desc posts.created_at
                          (Store.select_posts viewer db))) /\
             Feed.row p = P /\ Feed.shared_by p = None)
  <-> In P (Store.select_posts viewer db).
Proof.
  split.
  - intros (p & Hp & Hrow & _). apply in_map_iff in Hp as (r & <- & Hr).
    simpl in Hrow. subst r. now apply sort_by_In in Hr.
  - intros HP. exists (Feed.post_json viewer db P). split; [|split; reflexivity].
    apply in_map. now apply sort_by_In.
Qed.

Lemma shared_rows (viewer : option uuid) (db : database) (P : posts.row)
      (s : shared_posts.row) :
  pk_posts db -> In P (tbl_posts db) ->
  In s (tbl_shared_posts db) -> shared_posts.post_id s = posts.id P ->
  (exists p, In p (Feed.transformedSharedPosts
                     (map (fun s => Feed.mkShare (shared_posts.post_id s)
                                      (Store.embed_profile viewer db (shared_posts.user_id s))
                                      (Feed.embed_post viewer db (shared_posts.post_id s)))
                          (Store.order_created_desc shared_posts.created_at
                             (Store.select_shared_posts viewer db)))) /\
             Feed.row p = P /\ Feed.shared_by p <> None)
  <-> In P (Store.select_posts viewer db).
Proof.
  intros Hpk Hin Hs Hid. split.
  - intros (p & Hp & Hrow & _).
    apply transformed_In in Hp as (s' & r & _ & Hfind & ->).
    simpl in Hrow. subst r. now apply find_some in Hfind as [HP _].
  - intros HP.
    exists (Feed.mkPost P (Store.embed_profile viewer db (posts.author_id P))
                        (Store.embed_likes viewer db (posts.id P))
                        (Store.embed_comments viewer db (posts.id P))
                        (Store.embed_shared_posts viewer db (posts.id P))
                        (Some (Store.embed_profile viewer db (shared_posts.user_id s)))).
    split; [|split; [reflexivity | discriminate]].
    apply transformed_In. exists s, P. split; [|split; [|reflexivity]].
    + apply sort_by_In. apply filter_In. split; [assumption | reflexivity].
    + rewrite Hid, find_readable by assumption.
      apply (select_posts_In viewer db P Hin) in HP. now rewrite HP.
Qed.

Lemma profile_rows (viewer : option uuid) (db : database) (P : posts.row) :
  (exists p, In p (map (Profile.post_json viewer db)
                       (Store.order_created_desc posts.created_at
                          (filter (fun p => String.eqb (posts.author_id p)
                                                       (posts.author_id P))
                                  (Store.select_posts viewer db)))) /\
             Profile.row p = P)
  <-> In P (Store.select_posts viewer db).
Proof.
  split.
  - intros (p & Hp & Hrow). apply in_map_iff in Hp as (r & <- & Hr).
    simpl in Hrow. subst r. apply sort_by_In in Hr.
    now apply filter_In in Hr as [Hr _].
  - intros HP. exists (Profile.post_json viewer db P). split; [|reflexivity].
    apply in_map. apply sort_by_In. apply filter_In. split; [assumption|].
    apply String.eqb_refl.
Qed.

(** C7. The decision to show a post is the same on every read path.  For a
    row P of posts and any viewer, with the store reachable: the single-post
    query of PostDetail answers with P exactly when the policy lets the
    viewer read P (and with "no row" otherwise), and fetchPost puts P on the
    page exactly then; the feed query has P among its rows exactly then, and
    so has the list fetchPosts shows, as an original entry; a share row
    pointing at P yields an entry of the shared query, and a shared copy in
    the list of fetchPosts, exactly then (the embedded post is null
    otherwise and the entry is filtered out); and P is among the rows of
    its author's profile query, and in the list fetchUserPosts shows,
    exactly then. *)
Theorem one_decision_on_every_read_path :
  forall (viewer : option uuid) (db : database) (P : posts.row),
    pk_posts db -> In P (tbl_posts db) ->
    (PostDetail.select_post viewer (posts.id P) db
     = if can_read db viewer P
       then Ok (PostDetail.post_json viewer db P) else Err PGRST116)
    /\ (forall st,
           PostDetail.fetchPost viewer (posts.id P) (online db) st
           = if can_read db viewer P
             then PostDetail.mkState (Some (PostDetail.post_json viewer db P))
                    (PostDetail.comments st) (PostDetail.loading st) (PostDetail.error st)
             else PostDetail.mkState (PostDetail.post st) (PostDetail.comments st)
                    (PostDetail.loading st)
                    (Some (mk_ui_error PGRST116 "Failed to fetch post")))
    /\ (exists originalPosts,
           Feed.select_original viewer db = Ok originalPosts /\
           ((exists p, In p originalPosts /\ Feed.row p = P)
            <-> can_read db viewer P = true))
    /\ (Feed.embed_post viewer db (posts.id P)
        = if can_read db viewer P then Some (Feed.post_json viewer db P) else None)
    /\ (exists sharedPosts,
           Feed.select_shared viewer db = Ok sharedPosts /\
           forall s,
             In s (tbl_shared_posts db) -> shared_posts.post_id s = posts.id P ->
             ((exists p, In p (Feed.transformedSharedPosts sharedPosts) /\ Feed.row p = P)
              <-> can_read db viewer P = true))
    /\ (forall st,
           (exists p, In p (Feed.posts (Feed.fetchPosts viewer (online db) st)) /\
                      Feed.row p = P /\ Feed.shared_by p = None)
           <-> can_read db viewer P = true)
    /\ (forall st s,
           In s (tbl_shared_posts db) -> shared_posts.post_id s = posts.id P ->
           ((exists p, In p (Feed.posts (Feed.fetchPosts viewer (online db) st)) /\
                       Feed.row p = P /\ Feed.shared_by p <> None)
            <-> can_read db viewer P = true))
    /\ (exists userPosts,
           Profile.select_user_posts viewer (posts.author_id P) db = Ok userPosts /\
           ((exists p, In p userPosts /\ Profile.row p = P)
            <-> can_read db viewer P = true))
    /\ (forall st,
           (exists p, In p (Profile.posts
                              (Profile.fetchUserPosts viewer (posts.author_id P)
                                                      (online db) st)) /\
                      Profile.row p = P)
           <-> can_read db viewer P = true).
Proof.
  intros viewer db P Hpk Hin.
  pose proof (select_posts_In viewer db P Hin) as Hsel.
  pose proof (original_rows viewer db P) as Horig.
  pose proof (profile_rows viewer db P) as Hprof.
  assert (PostDetail.select_post viewer (posts.id P) db
          = if can_read db viewer P
            then Ok (PostDetail.post_json viewer db P) else Err PGRST116) as Hsingle.
  { unfold PostDetail.select_post. rewrite readable_with_id by assumption.
    destruct (can_read db viewer P); reflexivity. }
  split; [exact Hsingle|]. split; [|split; [|split; [|split; [|split; [|split; [|split]]]]]].
  - intros st. unfold PostDetail.fetchPost, query, online. simpl srv_online. cbv iota.
    simpl srv_db. rewrite Hsingle. destruct (can_read db viewer P); reflexivity.
  - eexists. split; [reflexivity|]. rewrite <- Hsel, <- Horig. split.
    + intros (p & Hp & Hrow). exists p. split; [assumption|]. split; [assumption|].
      apply in_map_iff in Hp as (r & <- & _). reflexivity.
    + intros (p & Hp & Hrow & _). eauto.
  - unfold Feed.embed_post. rewrite find_readable by assumption.
    destruct (can_read db viewer P); reflexivity.
  - eexists. split; [reflexivity|]. intros s Hs Hid.
    rewrite <- Hsel, <- (shared_rows viewer db P s Hpk Hin Hs Hid). split.
    + intros (p & Hp & Hrow). exists p. split; [assumption|]. split; [assumption|].
      apply transformed_In in Hp as (s' & r & _ & _ & ->). discriminate.
    + intros (p & Hp & Hrow & _). eauto.
  - intros st. rewrite feed_posts_online, <- Hsel, <- Horig. unfold sort_desc. split.
    + intros (p & Hp & Hrow & Hby). apply sort_by_In in Hp.
      apply in_app_or in Hp as [Hp | Hp]; [eauto|].
      apply transformed_In in Hp as (s' & r & _ & _ & ->). discriminate.
    + intros (p & Hp & Hrow & Hby). exists p. split; [|auto].
      apply sort_by_In. apply in_or_app. now left.
  - intros st s Hs Hid.
    rewrite feed_posts_online, <- Hsel, <- (shared_rows viewer db P s Hpk Hin Hs Hid).
    unfold sort_desc. split.
    + intros (p & Hp & Hrow & Hby). apply sort_by_In in Hp.
      apply in_app_or in Hp as [Hp | Hp]; [|eauto].
      apply in_map_iff in Hp as (r & <- & _). now contradiction Hby.
    + intros (p & Hp & Hrow & Hby). exists p. split; [|auto].
      apply sort_by_In. apply in_or_app. now right.
  - eexists. split; [reflexivity|]. now rewrite <- Hsel, <- Hprof.
  - intros st. rewrite <- Hsel, <- Hprof. reflexivity.
Qed.

Lemma pk_posts_db0 : pk_posts db0.
Proof.
  unfold pk_posts. simpl. constructor.
  - intros [H | []]. discriminate.
  - constructor; [intros []|constructor].
Defined.

Lemma one_decision_on_every_read_path_witness :
  pk_posts db0 /\ In friends_post (tbl_posts db0) /\
  PostDetail.select_post (Some bob) "p2" db0 = Err PGRST116 /\
  Feed.embed_post (Some bob) db0 "p2" = None /\
  PostDetail.post (PostDetail.fetchPost (Some bob) "p2" (online db0) PostDetail.initial)
  = None /\
  ~ (exists p, In p (Feed.posts (Feed.fetchPosts (Some bob) (online db0) Feed.initial)) /\
               Feed.row p = friends_post /\ Feed.shared_by p = None) /\
  ~ (exists p, In p (Profile.posts (Profile.fetchUserPosts (Some bob) alice (online db0)
                                                           Profile.initial)) /\
               Profile.row p = friends_post).
Proof.
  split; [exact pk_posts_db0|]. split; [right; left; reflexivity|].
  pose proof (one_decision_on_every_read_path (Some bob) db0 friends_post pk_posts_db0
                (or_intror (or_introl eq_refl)))
    as (H1 & H2 & _ & H4 & _ & H6 & _ & _ & H9).
  split; [exact H1|]. split; [exact H4|].
  split; [exact (f_equal PostDetail.post (H2 PostDetail.initial))|].
  split.
  - intros Hshown. apply (H6 Feed.initial) in Hshown. discriminate.
  - intros Hshown. apply (H9 Profile.initial) in Hshown. discriminate.
Defined.

(** The scenarios of the specification: the public post is read by an
    unrelated user and by an anonymous visitor; the friends-only post is
    not, until alice and bob are friends. *)
Example scenario_public_post :
  can_read db0 (Some bob) public_post = true /\ can_read db0 None public_post = true.
Proof. split; reflexivity. Qed.

Example scenario_friends_post :
  can_read db0 (Some bob) friends_post = false /\
  can_read db_pending (Some bob) friends_post = false /\
  can_read db_accepted (Some bob) friends_post = true /\
  can_read db_accepted (Some carol) friends_post = false /\
  can_read db_accepted None friends_post = false /\
  can_read db0 (Some alice) friends_post = true.
Proof. repeat split. Qed.

(** ** Editing and deleting posts and comments *)

Lemma posts_update_target_author (uid : option uuid) (db : database)
      (where_id where_author : uuid) (p : posts.row) :
  Store.posts_update_target uid db where_id where_author p = true ->
  uid = Some (posts.author_id p).
Proof.
  unfold Store.posts_update_target, Rls.posts_update.
  rewrite !andb_true_iff, holds_sql_eq_uid. tauto.
Qed.

Lemma posts_delete_target_author (uid : option uuid) (db : database)
      (where_id where_author : uuid) (p : posts.row) :
  Store.posts_delete_target uid db where_id where_author p = true ->
  uid = Some (posts.author_id p).
Proof.
  unfold Store.posts_delete_target, Rls.posts_delete.
  rewrite !andb_true_iff, holds_sql_eq_uid. tauto.
Qed.

Lemma comments_update_target_author (uid : option uuid) (where_id : uuid)
      (c : comments.row) :
  Store.comments_update_target uid where_id c = true -> uid = Some (comments.user_id c).
Proof.
  unfold Store.comments_update_target, Rls.comments_update.
  rewrite !andb_true_iff, holds_sql_eq_uid. tauto.
Qed.

Lemma comments_delete_target_author (uid : option uuid) (where_id where_user : uuid)
      (c : comments.row) :
  Store.comments_delete_target uid where_id where_user c = true ->
  uid = Some (comments.user_id c).
Proof.
  unfold Store.comments_delete_target, Rls.comments_delete.
  rewrite !andb_true_iff, holds_sql_eq_uid. tauto.
Qed.

Lemma author_reads_own_post (db : database) (p : posts.row) :
  holds (Rls.posts_select (Some (posts.author_id p)) db p) = true.
Proof. apply can_read_iff. auto. Qed.

Lemma posts_target_of_author (db : database) (p : posts.row) :
  Store.posts_update_target (Some (posts.author_id p)) db (posts.id p) (posts.author_id p) p
  = true /\
  Store.posts_delete_target (Some (posts.author_id p)) db (posts.id p) (posts.author_id p) p
  = true.
Proof.
  unfold Store.posts_update_target, Store.posts_delete_target,
    Rls.posts_update, Rls.posts_delete.
  rewrite author_reads_own_post, holds_sql_eq_some, !String.eqb_refl. auto.
Qed.

Lemma comments_target_of_author (c : comments.row) :
  Store.comments_update_target (Some (comments.user_id c)) (comments.id c) c = true /\
  Store.comments_delete_target (Some (comments.user_id c)) (comments.id c)
                               (comments.user_id c) c = true.
Proof.
  unfold Store.comments_update_target, Store.comments_delete_target,
    Rls.comments_update, Rls.comments_delete, Rls.comments_select.
  rewrite holds_sql_eq_some, !String.eqb_refl. auto.
Qed.

(** The UPDATE never fails: a row that is not the caller's is skipped. *)
Lemma update_posts_ok (uid : option uuid) (c : text) (where_id where_author : uuid)
      (db : database) :
  Store.update_posts_content uid c where_id where_author db =
  Ok (with_posts db
        (map (fun p => if Store.posts_update_target uid db where_id where_author p
                       then Store.set_content c p else p)
             (tbl_posts db))).
Proof.
  unfold Store.update_posts_content. rewrite existsb_all_false; [reflexivity|].
  intros p _.
  destruct (Store.posts_update_target uid db where_id where_author p) eqn:Ht;
    [|reflexivity].
  apply posts_update_target_author in Ht. subst uid.
  unfold Rls.posts_update. simpl posts.author_id.
  now rewrite holds_sql_eq_some, String.eqb_refl.
Qed.

Lemma update_comments_ok (uid : option uuid) (c : text) (where_id : uuid) (db : database) :
  Store.update_comments_content uid c where_id db =
  Ok (with_comments db
        (map (fun r => if Store.comments_update_target uid where_id r
                       then Store.set_comment_content c r else r)
             (tbl_comments db))).
Proof.
  unfold Store.update_comments_content. rewrite existsb_all_false; [reflexivity|].
  intros r _.
  destruct (Store.comments_update_target uid where_id r) eqn:Ht; [|reflexivity].
  apply comments_update_target_author in Ht. subst uid.
  unfold Rls.comments_update. simpl comments.user_id.
  now rewrite holds_sql_eq_some, String.eqb_refl.
Qed.

(** A statement that targets no row leaves the database as it is. *)
Lemma update_posts_no_target (uid : option uuid) (c : text) (where_id where_author : uuid)
      (db : database) :
  (forall p, In p (tbl_posts db) ->
             Store.posts_update_target uid db where_id where_author p = false) ->
  Store.update_posts_content uid c where_id where_author db = Ok db.
Proof.
  intros Hnone. rewrite update_posts_ok. f_equal.
  rewrite map_id_on; [apply with_posts_same|].
  intros p Hp. now rewrite Hnone.
Qed.

Lemma delete_posts_no_target (uid : option uuid) (where_id where_author : uuid)
      (db : database) :
  (forall p, In p (tbl_posts db) ->
             Store.posts_delete_target uid db where_id where_author p = false) ->
  Store.delete_posts uid where_id where_author db = Ok db.
Proof.
  intros Hnone. unfold Store.delete_posts.
  rewrite (filter_none (Store.posts_delete_target uid db where_id where_author))
    by assumption.
  simpl. rewrite !filter_all; [destruct db; reflexivity | auto | auto | auto |].
  intros p Hp. now rewrite Hnone.
Qed.

Lemma delete_comments_no_target (uid : option uuid) (where_id where_user : uuid)
      (db : database) :
  (forall c, In c (tbl_comments db) ->
             Store.comments_delete_target uid where_id where_user c = false) ->
  Store.delete_comments uid where_id where_user db = Ok db.
Proof.
  intros Hnone. unfold Store.delete_comments.
  rewrite filter_all; [now rewrite with_comments_same|].
  intros c Hc. now rewrite Hnone.
Qed.

Lemma feed_error_online (user : option uuid) (db : database) (st : Feed.State) :
  Feed.error (Feed.fetchPosts user (online db) st) = Feed.error st.
Proof. reflexivity. Qed.

(** C6, as stated, fails: bob edits and deletes alice's post, through the
    handlers and with statements of his own, and no authorization error comes
    back; the statements match no row and succeed. *)
Lemma non_author_mutation_raises_no_error :
  In public_post (tbl_posts db0) /\ Some bob <> Some (posts.author_id public_post) /\
  ~ rejected (Store.update_posts_content (Some bob) "edited" "p1" bob db0) /\
  ~ rejected (Store.update_posts_content (Some bob) "edited" "p1" alice db0) /\
  ~ rejected (Store.delete_posts (Some bob) "p1" alice db0) /\
  Feed.error (snd (Feed.updatePost (Some bob) "p1" (online db0) Feed.initial)) = None /\
  Feed.error (snd (Feed.deletePost (Some bob) "p1" (online db0) Feed.initial)) = None.
Proof.
  split; [left; reflexivity|]. split; [discriminate|].
  repeat split; intros [e He]; discriminate.
Qed.

(** C6, amended.  Only the author's statement changes a post or a comment.
    An UPDATE or DELETE of another identity (anonymous included) on posts or
    comments is answered without an error and leaves every row of other
    authors in place; the author's own statement edits, respectively removes,
    the row.  The handlers of a signed-in user who is not the author leave
    the server as it was and show no error; without a user they do nothing. *)
Theorem only_author_mutates :
  forall (db : database) (actor : option uuid),
    (forall p, In p (tbl_posts db) -> actor <> Some (posts.author_id p) ->
       forall c where_id where_author,
         (exists db', Store.update_posts_content actor c where_id where_author db = Ok db'
                      /\ In p (tbl_posts db')) /\
         (exists db', Store.delete_posts actor where_id where_author db = Ok db'
                      /\ In p (tbl_posts db')))
    /\ (forall r, In r (tbl_comments db) -> actor <> Some (comments.user_id r) ->
        forall c where_id where_user,
          (exists db', Store.update_comments_content actor c where_id db = Ok db'
                       /\ In r (tbl_comments db')) /\
          (exists db', Store.delete_comments actor where_id where_user db = Ok db'
                       /\ In r (tbl_comments db')))
    /\ (forall p c, In p (tbl_posts db) ->
          (exists db', Store.update_posts_content (Some (posts.author_id p)) c
                         (posts.id p) (posts.author_id p) db = Ok db'
                       /\ In (Store.set_content c p) (tbl_posts db')) /\
          (exists db', Store.delete_posts (Some (posts.author_id p))
                         (posts.id p) (posts.author_id p) db = Ok db'
                       /\ ~ In p (tbl_posts db')))
    /\ (forall r c, In r (tbl_comments db) ->
          (exists db', Store.update_comments_content (Some (comments.user_id r)) c
                         (comments.id r) db = Ok db'
                       /\ In (Store.set_comment_content c r) (tbl_comments db')) /\
          (exists db', Store.delete_comments (Some (comments.user_id r))
                         (comments.id r) (comments.user_id r) db = Ok db'
                       /\ ~ In r (tbl_comments db')))
    /\ (forall u postId st,
          (forall p, In p (tbl_posts db) -> posts.id p = postId -> posts.author_id p <> u) ->
          fst (Feed.updatePost (Some u) postId (online db) st) = online db /\
          Feed.error (snd (Feed.updatePost (Some u) postId (online db) st)) = Feed.error st /\
          fst (Feed.deletePost (Some u) postId (online db) st) = online db /\
          Feed.error (snd (Feed.deletePost (Some u) postId (online db) st)) = Feed.error st)
    /\ (forall u id commentId st,
          (forall r, In r (tbl_comments db) -> comments.id r = commentId ->
                     comments.user_id r <> u) ->
          fst (PostDetail.handleDeleteComment (Some u) id commentId (online db) st)
          = online db /\
          PostDetail.error
            (snd (PostDetail.handleDeleteComment (Some u) id commentId (online db) st))
          = PostDetail.error st)
    /\ (forall postId id commentId srv st pst,
          Feed.updatePost None postId srv st = (srv, st) /\
          Feed.deletePost None postId srv st = (srv, st) /\
          PostDetail.handleDeleteComment None id commentId srv pst = (srv, pst)).
Proof.
  intros db actor. split; [|split; [|split; [|split; [|split; [|split]]]]].
  - intros p Hp Hne c where_id where_author. split.
    + rewrite update_posts_ok. eexists. split; [reflexivity|]. simpl.
      apply in_map_iff. exists p. split; [|assumption].
      destruct (Store.posts_update_target actor db where_id where_author p) eqn:Ht;
        [|reflexivity].
      apply posts_update_target_author in Ht. contradiction.
    + eexists. split; [reflexivity|]. simpl. apply filter_In. split; [assumption|].
      destruct (Store.posts_delete_target actor db where_id where_author p) eqn:Ht;
        [|reflexivity].
      apply posts_delete_target_author in Ht. contradiction.
  - intros r Hr Hne c where_id where_user. split.
    + rewrite update_comments_ok. eexists. split; [reflexivity|]. simpl.
      apply in_map_iff. exists r. split; [|assumption].
      destruct (Store.comments_update_target actor where_id r) eqn:Ht; [|reflexivity].
      apply comments_update_target_author in Ht. contradiction.
    + eexists. split; [reflexivity|]. simpl. apply filter_In. split; [assumption|].
      destruct (Store.comments_delete_target actor where_id where_user r) eqn:Ht;
        [|reflexivity].
      apply comments_delete_target_author in Ht. contradiction.
  - intros p c Hp. destruct (posts_target_of_author db p) as [Hu Hd]. split.
    + rewrite update_posts_ok. eexists. split; [reflexivity|]. simpl.
      apply in_map_iff. exists p. now rewrite Hu.
    + eexists. split; [reflexivity|]. simpl. intros Hin.
      apply filter_In in Hin as [_ Hin]. rewrite Hd in Hin. discriminate.
  - intros r c Hr. destruct (comments_target_of_author r) as [Hu Hd]. split.
    + rewrite update_comments_ok. eexists. split; [reflexivity|]. simpl.
      apply in_map_iff. exists r. now rewrite Hu.
    + eexists. split; [reflexivity|]. simpl. intros Hin.
      apply filter_In in Hin as [_ Hin]. rewrite Hd in Hin. discriminate.
  - intros u postId st Hnot.
    assert (Store.update_posts_content (Some u) (Feed.editContent st) postId u db = Ok db)
      as Hup.
    { apply update_posts_no_target. intros p Hp.
      unfold Store.posts_update_target.
      destruct (String.eqb_spec (posts.id p) postId) as [Hid|]; [|reflexivity].
      destruct (String.eqb_spec (posts.author_id p) u) as [Ha|]; [|reflexivity].
      exfalso. eapply Hnot; eauto. }
    assert (Store.delete_posts (Some u) postId u db = Ok db) as Hdel.
    { apply delete_posts_no_target. intros p Hp.
      unfold Store.posts_delete_target.
      destruct (String.eqb_spec (posts.id p) postId) as [Hid|]; [|reflexivity].
      destruct (String.eqb_spec (posts.author_id p) u) as [Ha|]; [|reflexivity].
      exfalso. eapply Hnot; eauto. }
    unfold Feed.updatePost, Feed.deletePost, mutate, online. simpl srv_online.
    cbv iota. simpl srv_db. rewrite Hup, Hdel. simpl fst. simpl snd.
    repeat split; apply feed_error_online.
  - intros u id commentId st Hnot.
    assert (Store.delete_comments (Some u) commentId u db = Ok db) as Hdel.
    { apply delete_comments_no_target. intros r Hr.
      unfold Store.comments_delete_target.
      destruct (String.eqb_spec (comments.id r) commentId) as [Hid|]; [|reflexivity].
      destruct (String.eqb_spec (comments.user_id r) u) as [Ha|]; [|reflexivity].
      exfalso. eapply Hnot; eauto. }
    unfold PostDetail.handleDeleteComment, mutate, online. simpl srv_online.
    cbv iota. simpl srv_db. rewrite Hdel. split; reflexivity.
  - intros. repeat split.
Qed.

Lemma only_author_mutates_witness :
  In public_post (tbl_posts db0) /\ Some bob <> Some (posts.author_id public_post) /\
  exists db', Store.delete_posts (Some bob) "p1" alice db0 = Ok db' /\
              In public_post (tbl_posts db').
Proof.
  split; [left; reflexivity|]. split; [discriminate|].
  exact (proj2 (proj1 (only_author_mutates db0 (Some bob)) public_post
                      (or_introl eq_refl) ltac:(discriminate) "edited" "p1" alice)).
Defined.

(** alice edits her own post through the Feed handler. *)
Example alice_edits_own_post :
  tbl_posts (srv_db (fst (Feed.updatePost (Some alice) "p1" (online db0)
                            (Feed.mkState [] false None (Some "p1") "edited"))))
  = [Store.set_content "edited" public_post; friends_post].
Proof. reflexivity. Qed.

(** alice deletes her post: bob's comment on it goes with it. *)
Example alice_deletes_own_post :
  srv_db (fst (Feed.deletePost (Some alice) "p1" (online db0) Feed.initial))
  = mkdb sample_profiles [friends_post] [] [] [] [].
Proof. reflexivity. Qed.

(** ** The client-side check before a friend request

    The Profile page looks for a row between the two users, in either
    direction, when it loads; [handleFriendRequest] inserts only when that
    status is empty.  With a status that is current this keeps one row per
    pair; with the status of a page loaded before the other user's request
    it does not. *)

Lemma connectsb_sym (a b : uuid) (f : friends.row) :
  connectsb a b f = connectsb b a f.
Proof. unfold connectsb. rewrite orb_comm. f_equal; apply andb_comm. Qed.

Lemma connectsb_true (a b : uuid) (f : friends.row) :
  connectsb a b f = true <-> connects a b f.
Proof.
  unfold connectsb, connects.
  now rewrite orb_true_iff, !andb_true_iff, !String.eqb_eq.
Qed.

Lemma filter_filter_andb {A} (f g : A -> bool) (l : list A) :
  filter f (filter g l) = filter (fun x => g x && f x) l.
Proof.
  induction l as [|a l IH]; simpl; [reflexivity|].
  destruct (g a); simpl; [destruct (f a)|]; now rewrite IH.
Qed.

Lemma friend_status_filter (u id : uuid) (db : database) :
  u <> id ->
  filter (fun f =>
            (String.eqb (friends.sender_id f) u || String.eqb (friends.receiver_id f) u) &&
            (String.eqb (friends.sender_id f) id || String.eqb (friends.receiver_id f) id))
         (Store.select_friends (Some u) db)
  = edges_between u id db.
Proof.
  intros Hne. unfold Store.select_friends, Rls.visible_friends, edges_between.
  rewrite filter_filter_andb. apply filter_ext. intros f.
  unfold Rls.friends_select, connectsb.
  rewrite holds_sql_or, !holds_sql_eq_some.
  rewrite (String.eqb_sym u (friends.sender_id f)), (String.eqb_sym u (friends.receiver_id f)).
  destruct (String.eqb_spec (friends.sender_id f) u) as [Hs|Hs];
    destruct (String.eqb_spec (friends.receiver_id f) u) as [Hr|Hr];
    destruct (String.eqb_spec (friends.sender_id f) id) as [Hs'|Hs'];
    destruct (String.eqb_spec (friends.receiver_id f) id) as [Hr'|Hr'];
    cbn [orb andb]; try reflexivity; exfalso; congruence.
Qed.

Lemma checkFriendStatus_current (u id : uuid) (db : database) (st0 : Profile.State) :
  u <> id -> one_edge_per_pair db ->
  match edges_between u id db with
  | [] => Profile.friendStatus (Profile.checkFriendStatus u id (online db) st0) = None
  | e :: _ => Profile.friendStatus (Profile.checkFriendStatus u id (online db) st0) = Some e
  end.
Proof.
  intros Hne Hinv. specialize (Hinv u id).
  unfold Profile.checkFriendStatus, query, online, Profile.select_friend_status.
  simpl srv_online. cbv iota. simpl srv_db. rewrite friend_status_filter by assumption.
  destruct (edges_between u id db) as [|e [|e' l]]; simpl in *; try reflexivity; lia.
Qed.

Lemma insert_first_edge (uid : option uuid) (new_id : uuid) (now : timestamptz)
      (u id : uuid) (db db' : database) :
  edges_between u id db = [] -> one_edge_per_pair db ->
  Store.insert_friends uid new_id now u id db = Ok db' ->
  one_edge_per_pair db'.
Proof.
  intros Hnone Hinv Hins. unfold Store.insert_friends in Hins.
  repeat match type of Hins with
         | (if ?c then _ else _) = _ => destruct c eqn:?; [discriminate|]
         end.
  injection Hins as <-. intros a b. unfold edges_between. simpl.
  rewrite filter_app, length_app. simpl.
  destruct (connectsb a b (friends.mk new_id u id "pending" (Some now))) eqn:Hnew;
    [|specialize (Hinv a b); unfold edges_between in Hinv; simpl; lia].
  assert (filter (connectsb a b) (tbl_friends db) = []) as ->; [|simpl; lia].
  apply connectsb_true in Hnew. unfold connects in Hnew. simpl in Hnew.
  destruct Hnew as [[<- <-] | [<- <-]]; [exact Hnone|].
  unfold edges_between in Hnone. rewrite <- Hnone.
  apply filter_ext. intros f. apply connectsb_sym.
Qed.

(** With a status that is current, pressing the friend button keeps one row
    per unordered pair. *)
Lemma current_status_keeps_one_edge_per_pair (u id new_id : uuid) (now : timestamptz)
      (db : database) (st0 : Profile.State) :
  u <> id -> one_edge_per_pair db ->
  one_edge_per_pair
    (srv_db (fst (Profile.handleFriendRequest (Some u) id new_id now (online db)
                    (Profile.checkFriendStatus u id (online db) st0)))).
Proof.
  intros Hne Hinv.
  pose proof (checkFriendStatus_current u id db st0 Hne Hinv) as Hcur.
  unfold Profile.handleFriendRequest.
  destruct (String.eqb id EmptyString); [exact Hinv|].
  match goal with
  | |- context [match ?a with (_, _) => _ end] =>
      assert (one_edge_per_pair (srv_db (fst a))) as Ha;
        [|destruct a as [srv' [err|]]; exact Ha]
  end.
  destruct (edges_between u id db) as [|e l] eqn:Hedges; rewrite Hcur.
  - destruct (mutate_db (online db) (Store.insert_friends (Some u) new_id now u id))
      as [(db' & Hm & ->) | (err & ->)]; simpl in *; [|exact Hinv].
    eapply insert_first_edge; eauto.
  - destruct (String.eqb (friends.status e) "pending" &&
              String.eqb (friends.receiver_id e) u).
    + destruct (mutate_db (online db)
                  (Store.update_friends_status (Some u) "accepted" (friends.id e)))
        as [(db' & Hm & ->) | (err & ->)]; simpl in *; [|exact Hinv].
      apply (one_edge_per_pair_preserved_without_send u (Accept (friends.id e)) db db');
        [discriminate | assumption | assumption].
    + destruct (mutate_db (online db) (Store.delete_friends (Some u) (friends.id e)))
        as [(db' & Hm & ->) | (err & ->)]; simpl in *; [|exact Hinv].
      apply (one_edge_per_pair_preserved_without_send u (Remove (friends.id e)) db db');
        [discriminate | assumption | assumption].
Qed.

(** ** The primary key of friends is kept by every relationship operation *)

Lemma NoDup_map_filter {A} (key : A -> uuid) (f : A -> bool) (l : list A) :
  NoDup (map key l) -> NoDup (map key (filter f l)).
Proof.
  induction l as [|a l IH]; simpl; intros Hnd; [constructor|].
  inversion Hnd as [|x xs Hnotin Hnd']; subst.
  destruct (f a); simpl; [constructor|]; auto.
  intros Hin. apply Hnotin. apply in_map_iff in Hin as (y & Hy & Hin).
  apply filter_In in Hin as [Hin _]. rewrite <- Hy. now apply in_map.
Qed.

Lemma NoDup_map_snoc {A} (key : A -> uuid) (l : list A) (r : A) :
  NoDup (map key l) -> existsb (fun x => String.eqb (key x) (key r)) l = false ->
  NoDup (map key (l ++ [r])).
Proof.
  intros Hnd Hnew. rewrite map_app. simpl.
  apply NoDup_app; [assumption | repeat constructor; intros [] |].
  intros k Hk [<- | []].
  apply in_map_iff in Hk as (x & Hx & Hin).
  apply (existsb_false_In _ _ x) in Hnew; [|assumption].
  cbv beta in Hnew. rewrite Hx, String.eqb_refl in Hnew. discriminate.
Qed.

Lemma pk_friends_preserved (u : uuid) (op : relationship_op) (db db' : database) :
  pk_friends db -> run_relationship_op u op db = Ok db' -> pk_friends db'.
Proof.
  unfold pk_friends. intros Hpk Hrun. destruct op; simpl in Hrun.
  - unfold Store.insert_friends in Hrun.
    repeat match type of Hrun with
           | (if ?c then _ else _) = _ => destruct c eqn:?; [discriminate|]
           end.
    injection Hrun as <-. simpl. apply NoDup_map_snoc; assumption.
  - rewrite update_accept_ok in Hrun. injection Hrun as <-. simpl.
    rewrite map_map.
    replace (map _ (tbl_friends db)) with (map friends.id (tbl_friends db));
      [assumption|].
    apply map_ext. intros f. destruct (Store.friends_update_target _ _ f); reflexivity.
  - injection Hrun as <-. simpl. now apply NoDup_map_filter.
  - injection Hrun as <-. simpl. now apply NoDup_map_filter.
Qed.

(** * Further properties of the store and the handlers *)

(** ** Statements that match no row *)

Lemma existsb_target_false {A} (target check : A -> bool) (l : list A) :
  (forall x, In x l -> target x = false) ->
  existsb (fun x => target x && check x) l = false.
Proof.
  intros H. apply existsb_all_false. intros x Hx. now rewrite H.
Qed.

Lemma update_friends_no_target (uid : option uuid) (s : text) (where_id : uuid)
      (db : database) :
  (forall f, In f (tbl_friends db) -> Store.friends_update_target uid where_id f = false) ->
  Store.update_friends_status uid s where_id db = Ok db.
Proof.
  intros Hnone. unfold Store.update_friends_status.
  rewrite !existsb_target_false by assumption.
  rewrite map_id_on; [now rewrite with_friends_same|].
  intros f Hf. now rewrite Hnone.
Qed.

Lemma delete_friends_no_target (uid : option uuid) (where_id : uuid) (db : database) :
  (forall f, In f (tbl_friends db) -> Store.friends_delete_target uid where_id f = false) ->
  Store.delete_friends uid where_id db = Ok db.
Proof.
  intros Hnone. unfold Store.delete_friends.
  rewrite filter_all; [now rewrite with_friends_same|].
  intros f Hf. now rewrite Hnone.
Qed.

Lemma delete_likes_no_target (uid : option uuid) (post user : uuid) (db : database) :
  (forall l, In l (tbl_likes db) -> Store.likes_delete_target uid post user l = false) ->
  Store.delete_likes uid post user db = Ok db.
Proof.
  intros Hnone. unfold Store.delete_likes.
  rewrite filter_all; [now rewrite with_likes_same|].
  intros l Hl. now rewrite Hnone.
Qed.

Lemma delete_shared_posts_no_target (uid : option uuid) (post user : uuid)
      (db : database) :
  (forall s, In s (tbl_shared_posts db) ->
             Store.shared_posts_delete_target uid post user s = false) ->
  Store.delete_shared_posts uid post user db = Ok db.
Proof.
  intros Hnone. unfold Store.delete_shared_posts.
  rewrite filter_all; [destruct db; reflexivity|].
  intros s Hs. now rewrite Hnone.
Qed.

Lemma update_comments_no_target (uid : option uuid) (c : text) (where_id : uuid)
      (db : database) :
  (forall r, In r (tbl_comments db) -> Store.comments_update_target uid where_id r = false) ->
  Store.update_comments_content uid c where_id db = Ok db.
Proof.
  intros Hnone. rewrite update_comments_ok.
  rewrite map_id_on; [now rewrite with_comments_same|].
  intros r Hr. now rewrite Hnone.
Qed.

Lemma update_profiles_no_target (uid : option uuid) (full_name bio avatar_url : text)
      (where_id : uuid) (db : database) :
  (forall p, In p (tbl_profiles db) -> Store.profiles_update_target uid where_id p = false) ->
  Store.update_profiles uid full_name bio avatar_url where_id db = Ok db.
Proof.
  intros Hnone. unfold Store.update_profiles.
  rewrite existsb_target_false by assumption.
  rewrite map_id_on; [destruct db; reflexivity|].
  intros p Hp. now rewrite Hnone.
Qed.

(** ** Who owns the rows a statement matches *)

Lemma friends_delete_target_party (uid : option uuid) (where_id : uuid) (f : friends.row) :
  Store.friends_delete_target uid where_id f = true ->
  friends.id f = where_id /\
  (uid = Some (friends.sender_id f) \/ uid = Some (friends.receiver_id f)).
Proof.
  unfold Store.friends_delete_target.
  rewrite !andb_true_iff, String.eqb_eq, holds_friends_select. tauto.
Qed.

Lemma likes_delete_target_owner (uid : option uuid) (post user : uuid) (l : likes.row) :
  Store.likes_delete_target uid post user l = true -> uid = Some (likes.user_id l).
Proof.
  unfold Store.likes_delete_target, Rls.likes_delete.
  rewrite !andb_true_iff, holds_sql_eq_uid. tauto.
Qed.

Lemma shared_posts_delete_target_owner (uid : option uuid) (post user : uuid)
      (s : shared_posts.row) :
  Store.shared_posts_delete_target uid post user s = true ->
  uid = Some (shared_posts.user_id s).
Proof.
  unfold Store.shared_posts_delete_target, Rls.shared_posts_delete.
  rewrite !andb_true_iff, holds_sql_eq_uid. tauto.
Qed.

Lemma profiles_update_target_owner (uid : option uuid) (where_id : uuid)
      (p : profiles.row) :
  Store.profiles_update_target uid where_id p = true ->
  profiles.id p = where_id /\ uid = Some (profiles.id p).
Proof.
  unfold Store.profiles_update_target, Rls.profiles_update.
  rewrite !andb_true_iff, String.eqb_eq, holds_sql_eq_uid. tauto.
Qed.

Lemma not_true_false (b : bool) : (b = true -> False) -> b = false.
Proof. destruct b; [intros H; exfalso; auto | reflexivity]. Qed.

(** X1. An anonymous caller writes nothing: the inserts are refused by the
    WITH CHECK of their policy, the updates and deletes match no row. *)
Theorem anonymous_cannot_write :
  forall (s : statement) (db : database),
    (is_insert s = true -> run_statement None s db = Err rls_violation) /\
    (is_insert s = false -> run_statement None s db = Ok db) /\
    (forall db', run_statement None s db = Ok db' -> db' = db).
Proof.
  intros s db.
  assert (is_insert s = true -> run_statement None s db = Err rls_violation) as Hins
      by (destruct s; simpl; intros H; try discriminate; reflexivity).
  assert (is_insert s = false -> run_statement None s db = Ok db) as Hnot.
  { destruct s; simpl; intros H; try discriminate.
    - apply update_friends_no_target. intros f _. apply not_true_false. intros Ht.
      apply update_target_receiver in Ht as [_ Ht]. discriminate.
    - apply delete_friends_no_target. intros f _. apply not_true_false. intros Ht.
      apply friends_delete_target_party in Ht as [_ [Ht | Ht]]; discriminate.
    - apply delete_likes_no_target. intros l _. apply not_true_false. intros Ht.
      apply likes_delete_target_owner in Ht. discriminate.
    - apply delete_shared_posts_no_target. intros x _. apply not_true_false. intros Ht.
      apply shared_posts_delete_target_owner in Ht. discriminate.
    - apply update_posts_no_target. intros p _. apply not_true_false. intros Ht.
      apply posts_update_target_author in Ht. discriminate.
    - apply delete_posts_no_target. intros p _. apply not_true_false. intros Ht.
      apply posts_delete_target_author in Ht. discriminate.
    - apply update_comments_no_target. intros r _. apply not_true_false. intros Ht.
      apply comments_update_target_author in Ht. discriminate.
    - apply delete_comments_no_target. intros r _. apply not_true_false. intros Ht.
      apply comments_delete_target_author in Ht. discriminate.
    - apply update_profiles_no_target. intros p _. apply not_true_false. intros Ht.
      apply profiles_update_target_owner in Ht as [_ Ht]. discriminate. }
  split; [exact Hins|]. split; [exact Hnot|].
  intros db' Hrun. destruct (is_insert s) eqn:Hi.
  - rewrite (Hins eq_refl) in Hrun. discriminate.
  - rewrite (Hnot eq_refl) in Hrun. congruence.
Qed.

(** ** A caller only writes rows of its own *)

Lemma in_map_if_kept {A} (target : A -> bool) (set : A -> A) (l : list A) (x : A) :
  In x l -> target x = false ->
  In x (map (fun r => if target r then set r else r) l).
Proof.
  intros Hin Ht. apply in_map_iff. exists x. now rewrite Ht.
Qed.

Lemma in_map_if_old {A} (target : A -> bool) (set : A -> A) (l : list A) (x : A) :
  In x (map (fun r => if target r then set r else r) l) ->
  In x l \/ exists r, In r l /\ target r = true /\ x = set r.
Proof.
  intros Hin. apply in_map_iff in Hin as (r & Hr & Hin).
  destruct (target r) eqn:Ht; [right; exists r; auto | left; now subst].
Qed.

Lemma in_filter_neg_kept {A} (target : A -> bool) (l : list A) (x : A) :
  In x l -> target x = false -> In x (filter (fun r => negb (target r)) l).
Proof. intros Hin Ht. apply filter_In. now rewrite Ht. Qed.

Lemma in_snoc_old {A} (l : list A) (r x : A) :
  In x (l ++ [r]) -> x <> r -> In x l.
Proof.
  intros Hin Hne. apply in_app_or in Hin as [Hin | [Heq | []]]; [assumption|].
  congruence.
Qed.

Lemma policy_passed (uid : option uuid) (owner : uuid) :
  negb (holds (sql_eq uid (Some owner))) = false -> uid = Some owner.
Proof. intros H. apply negb_false_iff in H. now apply holds_sql_eq_uid. Qed.

Ltac passed_checks H :=
  repeat match type of H with
         | (if ?c then _ else _) = _ => destruct c eqn:?; [discriminate|]
         end;
  injection H as <-.

Ltac same_tables :=
  simpl; intros;
  first [ assumption
        | left; assumption
        | apply in_or_app; left; assumption
        | left; apply in_or_app; left; assumption ].

(** Rows of other users are still there after the statement. *)
Lemma statement_keeps_foreign_rows (uid : option uuid) (s : statement)
      (db db' : database) :
  run_statement uid s db = Ok db' -> foreign_rows_kept uid db db'.
Proof.
  intros Hrun. unfold foreign_rows_kept. destruct s; simpl in Hrun.
  - unfold Store.insert_friends in Hrun. passed_checks Hrun. repeat split; same_tables.
  - unfold Store.update_friends_status in Hrun. passed_checks Hrun.
    repeat split; try same_tables.
    simpl. intros f Hf Hs Hr. apply in_map_if_kept; [assumption|].
    apply not_true_false. intros Ht. apply update_target_receiver in Ht as [_ Ht].
    contradiction.
  - injection Hrun as <-. repeat split; try same_tables.
    simpl. intros f Hf Hs Hr. apply in_filter_neg_kept; [assumption|].
    apply not_true_false. intros Ht.
    apply friends_delete_target_party in Ht as [_ [Ht | Ht]]; contradiction.
  - unfold Store.insert_likes in Hrun. passed_checks Hrun. repeat split; same_tables.
  - injection Hrun as <-. repeat split; try same_tables.
    simpl. intros l Hl Hu. left. apply in_filter_neg_kept; [assumption|].
    apply not_true_false. intros Ht. apply likes_delete_target_owner in Ht.
    contradiction.
  - unfold Store.insert_shared_posts in Hrun. passed_checks Hrun.
    repeat split; same_tables.
  - injection Hrun as <-. repeat split; try same_tables.
    simpl. intros x Hx Hu. left. apply in_filter_neg_kept; [assumption|].
    apply not_true_false. intros Ht. apply shared_posts_delete_target_owner in Ht.
    contradiction.
  - unfold Store.insert_posts in Hrun. passed_checks Hrun. repeat split; same_tables.
  - rewrite update_posts_ok in Hrun. injection Hrun as <-.
    repeat split; try same_tables.
    simpl. intros p Hp Hu. apply in_map_if_kept; [assumption|].
    apply not_true_false. intros Ht. apply posts_update_target_author in Ht.
    contradiction.
  - injection Hrun as <-.
    assert (forall post,
               existsb (String.eqb post)
                       (map posts.id
                            (filter (Store.posts_delete_target uid db where_id where_author)
                                    (tbl_posts db))) = true ->
               cascaded_from uid db post) as Hcascade.
    { intros post He. apply existsb_exists in He as (i & Hi & Heq).
      apply String.eqb_eq in Heq. subst i.
      apply in_map_iff in Hi as (p & Hid & Hp). apply filter_In in Hp as [Hp Ht].
      exists p. apply posts_delete_target_author in Ht. auto. }
    repeat split; try same_tables; simpl.
    + intros p Hp Hu. apply in_filter_neg_kept; [assumption|].
      apply not_true_false. intros Ht. apply posts_delete_target_author in Ht.
      contradiction.
    + intros l Hl Hu.
      destruct (existsb (String.eqb (likes.post_id l))
                  (map posts.id
                       (filter (Store.posts_delete_target uid db where_id where_author)
                               (tbl_posts db)))) eqn:He;
        [right; now apply Hcascade
        | left; apply filter_In; split; [assumption|]; cbv beta; now rewrite He].
    + intros c Hc Hu.
      destruct (existsb (String.eqb (comments.post_id c))
                  (map posts.id
                       (filter (Store.posts_delete_target uid db where_id where_author)
                               (tbl_posts db)))) eqn:He;
        [right; now apply Hcascade
        | left; apply filter_In; split; [assumption|]; cbv beta; now rewrite He].
    + intros x Hx Hu.
      destruct (existsb (String.eqb (shared_posts.post_id x))
                  (map posts.id
                       (filter (Store.posts_delete_target uid db where_id where_author)
                               (tbl_posts db)))) eqn:He;
        [right; now apply Hcascade
        | left; apply filter_In; split; [assumption|]; cbv beta; now rewrite He].
  - unfold Store.insert_comments in Hrun. passed_checks Hrun. repeat split; same_tables.
  - rewrite update_comments_ok in Hrun. injection Hrun as <-.
    repeat split; try same_tables.
    simpl. intros r Hr Hu. left. apply in_map_if_kept; [assumption|].
    apply not_true_false. intros Ht. apply comments_update_target_author in Ht.
    contradiction.
  - injection Hrun as <-. repeat split; try same_tables.
    simpl. intros r Hr Hu. left. apply in_filter_neg_kept; [assumption|].
    apply not_true_false. intros Ht. apply comments_delete_target_author in Ht.
    contradiction.
  - unfold Store.update_profiles in Hrun. passed_checks Hrun.
    repeat split; try same_tables.
    simpl. intros p Hp Hu. apply in_map_if_kept; [assumption|].
    apply not_true_false. intros Ht. apply profiles_update_target_owner in Ht as [_ Ht].
    contradiction.
Qed.

Ltac unchanged := simpl; intros; assumption.

Ltac own_insert :=
  simpl; intros ? Hin Hne; apply (in_snoc_old _ _ _ Hin); intros ->; apply Hne;
  match goal with
  | H : negb (holds _) = false |- _ =>
      unfold Rls.friends_insert, Rls.likes_insert, Rls.shared_posts_insert,
        Rls.posts_insert, Rls.comments_insert in H;
      simpl in H; apply policy_passed in H; exact H
  end.

Ltac from_filter :=
  simpl; intros ? Hin; intros; apply filter_In in Hin as [Hin _]; exact Hin.

(** No row appears, or is rewritten, in the name of another user. *)
Lemma statement_adds_no_foreign_rows (uid : option uuid) (s : statement)
      (db db' : database) :
  run_statement uid s db = Ok db' -> no_foreign_rows_added uid db db'.
Proof.
  intros Hrun. unfold no_foreign_rows_added. destruct s; simpl in Hrun.
  - unfold Store.insert_friends in Hrun. passed_checks Hrun.
    repeat split; try unchanged.
    simpl. intros f Hin Hs Hr. apply (in_snoc_old _ _ _ Hin). intros ->. apply Hs.
    match goal with
    | H : negb (holds _) = false |- _ =>
        unfold Rls.friends_insert in H; simpl in H; apply policy_passed in H; exact H
    end.
  - unfold Store.update_friends_status in Hrun. passed_checks Hrun.
    repeat split; try unchanged.
    simpl. intros f Hin Hs Hr.
    apply in_map_if_old in Hin as [Hin | (r & _ & Ht & ->)]; [assumption|].
    apply update_target_receiver in Ht as [_ Ht]. simpl in Hr. contradiction.
  - injection Hrun as <-. repeat split; try unchanged. from_filter.
  - unfold Store.insert_likes in Hrun. passed_checks Hrun.
    repeat split; try unchanged. own_insert.
  - injection Hrun as <-. repeat split; try unchanged. from_filter.
  - unfold Store.insert_shared_posts in Hrun. passed_checks Hrun.
    repeat split; try unchanged. own_insert.
  - injection Hrun as <-. repeat split; try unchanged. from_filter.
  - unfold Store.insert_posts in Hrun. passed_checks Hrun.
    repeat split; try unchanged. own_insert.
  - rewrite update_posts_ok in Hrun. injection Hrun as <-.
    repeat split; try unchanged.
    simpl. intros p Hin Hne.
    apply in_map_if_old in Hin as [Hin | (r & _ & Ht & ->)]; [assumption|].
    apply posts_update_target_author in Ht. simpl in Hne. contradiction.
  - injection Hrun as <-. repeat split; try unchanged; from_filter.
  - unfold Store.insert_comments in Hrun. passed_checks Hrun.
    repeat split; try unchanged. own_insert.
  - rewrite update_comments_ok in Hrun. injection Hrun as <-.
    repeat split; try unchanged.
    simpl. intros c0 Hin Hne.
    apply in_map_if_old in Hin as [Hin | (r & _ & Ht & ->)]; [assumption|].
    apply comments_update_target_author in Ht. simpl in Hne. contradiction.
  - injection Hrun as <-. repeat split; try unchanged. from_filter.
  - unfold Store.update_profiles in Hrun. passed_checks Hrun.
    repeat split; try unchanged.
    simpl. intros p Hin Hne.
    apply in_map_if_old in Hin as [Hin | (r & _ & Ht & ->)]; [assumption|].
    apply profiles_update_target_owner in Ht as [_ Ht]. simpl in Hne. contradiction.
Qed.

Lemma friends_rows_by_role_same (uid : option uuid) (db db' : database) :
  tbl_friends db' = tbl_friends db -> friends_rows_by_role uid db db'.
Proof.
  intros Hsame. split; intros x Hx; left; [rewrite <- Hsame | rewrite Hsame]; exact Hx.
Qed.

(** A friends row is shared by two users: the part of each in it. *)
Lemma statement_friends_by_role (uid : option uuid) (s : statement)
      (db db' : database) :
  run_statement uid s db = Ok db' -> friends_rows_by_role uid db db'.
Proof.
  intros Hrun. destruct s; simpl in Hrun.
  - unfold Store.insert_friends in Hrun. passed_checks Hrun. split; simpl.
    + intros f Hf. apply in_app_or in Hf as [Hf | [<- | []]]; [now left|].
      right. left. simpl. split.
      * match goal with
        | H : negb (holds (Rls.friends_insert _ _)) = false |- _ =>
            unfold Rls.friends_insert in H; simpl in H; apply policy_passed in H; exact H
        end.
      * intros g Hg.
        match goal with
        | H : existsb (fun f => String.eqb (friends.id f) _) _ = false |- _ =>
            pose proof (existsb_false_In _ _ g H Hg) as Hid
        end.
        now apply String.eqb_neq.
    + intros g Hg. left. apply in_or_app. now left.
  - unfold Store.update_friends_status in Hrun. passed_checks Hrun. split; simpl.
    + intros f Hf. apply in_map_if_old in Hf as [Hf | (g & Hg & Ht & ->)]; [now left|].
      right. right. exists g. split; [assumption|].
      apply update_target_receiver in Ht as [_ Ht]. split; [exact Ht | reflexivity].
    + intros g Hg. destruct (Store.friends_update_target uid where_id g) eqn:Ht.
      * right. right. now apply update_target_receiver in Ht as [_ Ht].
      * left. now apply in_map_if_kept.
  - injection Hrun as <-. split; simpl.
    + intros f Hf. left. now apply filter_In in Hf as [Hf _].
    + intros g Hg. destruct (Store.friends_delete_target uid where_id g) eqn:Ht.
      * right. now apply friends_delete_target_party in Ht as [_ Ht].
      * left. now apply in_filter_neg_kept.
  - unfold Store.insert_likes in Hrun. passed_checks Hrun.
    now apply friends_rows_by_role_same.
  - injection Hrun as <-. now apply friends_rows_by_role_same.
  - unfold Store.insert_shared_posts in Hrun. passed_checks Hrun.
    now apply friends_rows_by_role_same.
  - injection Hrun as <-. now apply friends_rows_by_role_same.
  - unfold Store.insert_posts in Hrun. passed_checks Hrun.
    now apply friends_rows_by_role_same.
  - rewrite update_posts_ok in Hrun. injection Hrun as <-.
    now apply friends_rows_by_role_same.
  - injection Hrun as <-. now apply friends_rows_by_role_same.
  - unfold Store.insert_comments in Hrun. passed_checks Hrun.
    now apply friends_rows_by_role_same.
  - rewrite update_comments_ok in Hrun. injection Hrun as <-.
    now apply friends_rows_by_role_same.
  - injection Hrun as <-. now apply friends_rows_by_role_same.
  - unfold Store.update_profiles in Hrun. passed_checks Hrun.
    now apply friends_rows_by_role_same.
Qed.

(** X2. Every statement the handlers send (insert, update of the status or
    the text, delete, on the six tables), with whatever values a caller puts
    into it, leaves the rows of other users as they were: none is changed,
    none is added in their name, and none is removed, except that the likes,
    comments and shares on a post go when the post's own author deletes it.
    A friends row names two users: it is new only with the caller as its
    sender, changes only in its status and only by its receiver, and goes
    only by one of its two parties.  Statements of other shapes (an UPDATE
    of friends that sets another column, which the policy without WITH
    CHECK would let the receiver send) are not among these. *)
Theorem caller_writes_only_own_rows :
  forall (uid : option uuid) (s : statement) (db db' : database),
    run_statement uid s db = Ok db' ->
    foreign_rows_kept uid db db' /\ no_foreign_rows_added uid db db' /\
    friends_rows_by_role uid db db'.
Proof.
  intros uid s db db' Hrun. split; [|split].
  - eapply statement_keeps_foreign_rows; eauto.
  - eapply statement_adds_no_foreign_rows; eauto.
  - eapply statement_friends_by_role; eauto.
Qed.

Lemma caller_writes_only_own_rows_witness :
  run_statement (Some alice) (DeletePosts "p1" alice) db_shared
  = Ok (mkdb sample_profiles [friends_post] [] [] [] []) /\
  foreign_rows_kept (Some alice) db_shared (mkdb sample_profiles [friends_post] [] [] [] []).
Proof.
  split; [reflexivity|].
  exact (proj1 (caller_writes_only_own_rows (Some alice) (DeletePosts "p1" alice) db_shared
                  (mkdb sample_profiles [friends_post] [] [] [] []) eq_refl)).
Defined.

(** alice accepts bob's request: the row changes in its status only, and
    bob, the sender, could not have sent that update. *)
Example accept_is_a_status_change_by_the_receiver :
  run_statement (Some alice) (UpdateFriendsStatus "accepted" "f1") db_pending
  = Ok db_accepted /\
  run_statement (Some bob) (UpdateFriendsStatus "accepted" "f1") db_pending
  = Ok db_pending.
Proof. split; reflexivity. Qed.

(** ** The constraints of the schema are kept by every statement *)

Lemma NoDup_map_update {A} (key : A -> uuid) (g : A -> A) (l : list A) :
  (forall r, key (g r) = key r) -> NoDup (map key l) -> NoDup (map key (map g l)).
Proof.
  intros Hkey Hnd. rewrite map_map.
  replace (map (fun r => key (g r)) l) with (map key l); [assumption|].
  apply map_ext. intros r. now rewrite Hkey.
Qed.

Lemma existsb_map_key {A} (key : A -> uuid) (g : A -> A) (l : list A) (x : uuid) :
  (forall r, key (g r) = key r) ->
  existsb (fun r => String.eqb (key r) x) (map g l)
  = existsb (fun r => String.eqb (key r) x) l.
Proof.
  intros Hkey. induction l as [|a l IH]; simpl; [reflexivity|].
  now rewrite Hkey, IH.
Qed.

Lemma existsb_app_left {A} (f : A -> bool) (l l' : list A) :
  existsb f l = true -> existsb f (l ++ l') = true.
Proof. intros H. rewrite existsb_app, H. reflexivity. Qed.

Lemma if_same {A B} (b : bool) (f : A -> B) (x y : A) :
  f x = f y -> f (if b then x else y) = f y.
Proof. destruct b; auto. Qed.

Lemma pk_ok_preserved (uid : option uuid) (s : statement) (db db' : database) :
  pk_ok db -> run_statement uid s db = Ok db' -> pk_ok db'.
Proof.
  intros (Hprof & Huser & Hposts & Hlikes & Hcomments & Hfriends & Hshares) Hrun.
  unfold pk_ok. destruct s; simpl in Hrun.
  - unfold Store.insert_friends in Hrun. passed_checks Hrun.
    simpl. repeat split; try assumption. apply NoDup_map_snoc; assumption.
  - unfold Store.update_friends_status in Hrun. passed_checks Hrun.
    simpl. repeat split; try assumption.
    apply NoDup_map_update; [|assumption].
    intros r. destruct (Store.friends_update_target uid where_id r); reflexivity.
  - injection Hrun as <-. simpl. repeat split; try assumption.
    now apply NoDup_map_filter.
  - unfold Store.insert_likes in Hrun. passed_checks Hrun.
    simpl. repeat split; try assumption. apply NoDup_map_snoc; assumption.
  - injection Hrun as <-. simpl. repeat split; try assumption.
    now apply NoDup_map_filter.
  - unfold Store.insert_shared_posts in Hrun. passed_checks Hrun.
    simpl. repeat split; try assumption. apply NoDup_map_snoc; assumption.
  - injection Hrun as <-. simpl. repeat split; try assumption.
    now apply NoDup_map_filter.
  - unfold Store.insert_posts in Hrun. passed_checks Hrun.
    simpl. repeat split; try assumption. apply NoDup_map_snoc; assumption.
  - rewrite update_posts_ok in Hrun. injection Hrun as <-.
    simpl. repeat split; try assumption.
    apply NoDup_map_update; [|assumption].
    intros r. destruct (Store.posts_update_target uid db where_id where_author r);
      reflexivity.
  - injection Hrun as <-. simpl. repeat split; try assumption;
      now apply NoDup_map_filter.
  - unfold Store.insert_comments in Hrun. passed_checks Hrun.
    simpl. repeat split; try assumption. apply NoDup_map_snoc; assumption.
  - rewrite update_comments_ok in Hrun. injection Hrun as <-.
    simpl. repeat split; try assumption.
    apply NoDup_map_update; [|assumption].
    intros r. destruct (Store.comments_update_target uid where_id r); reflexivity.
  - injection Hrun as <-. simpl. repeat split; try assumption.
    now apply NoDup_map_filter.
  - unfold Store.update_profiles in Hrun. passed_checks Hrun.
    simpl. repeat split; try assumption.
    + apply NoDup_map_update; [|assumption].
      intros r. destruct (Store.profiles_update_target uid where_id r); reflexivity.
    + apply NoDup_map_update; [|assumption].
      intros r. destruct (Store.profiles_update_target uid where_id r); reflexivity.
Qed.

Lemma unique_pairs_preserved (uid : option uuid) (s : statement) (db db' : database) :
  likes_unique db /\ shared_posts_unique db /\ friends_unique_ordered db ->
  run_statement uid s db = Ok db' ->
  likes_unique db' /\ shared_posts_unique db' /\ friends_unique_ordered db'.
Proof.
  unfold likes_unique, shared_posts_unique, friends_unique_ordered.
  intros (Hl & Hs & Hf) Hrun. destruct s; simpl in Hrun.
  - unfold Store.insert_friends in Hrun. passed_checks Hrun.
    simpl. repeat split; try assumption. apply at_most_one_snoc; assumption.
  - unfold Store.update_friends_status in Hrun. passed_checks Hrun.
    simpl. repeat split; try assumption.
    apply at_most_one_map; try assumption;
      intros r; destruct (Store.friends_update_target uid where_id r); reflexivity.
  - injection Hrun as <-. simpl. repeat split; try assumption.
    now apply at_most_one_filter.
  - unfold Store.insert_likes in Hrun. passed_checks Hrun.
    simpl. repeat split; try assumption. apply at_most_one_snoc; assumption.
  - injection Hrun as <-. simpl. repeat split; try assumption.
    now apply at_most_one_filter.
  - unfold Store.insert_shared_posts in Hrun. passed_checks Hrun.
    simpl. repeat split; try assumption. apply at_most_one_snoc; assumption.
  - injection Hrun as <-. simpl. repeat split; try assumption.
    now apply at_most_one_filter.
  - unfold Store.insert_posts in Hrun. passed_checks Hrun.
    simpl. repeat split; assumption.
  - rewrite update_posts_ok in Hrun. injection Hrun as <-.
    simpl. repeat split; assumption.
  - injection Hrun as <-. simpl. repeat split; try assumption;
      now apply at_most_one_filter.
  - unfold Store.insert_comments in Hrun. passed_checks Hrun.
    simpl. repeat split; assumption.
  - rewrite update_comments_ok in Hrun. injection Hrun as <-.
    simpl. repeat split; assumption.
  - injection Hrun as <-. simpl. repeat split; assumption.
  - unfold Store.update_profiles in Hrun. passed_checks Hrun.
    simpl. repeat split; assumption.
Qed.

Lemma status_ok_preserved (uid : option uuid) (s : statement) (db db' : database) :
  status_ok db -> run_statement uid s db = Ok db' -> status_ok db'.
Proof.
  unfold status_ok. intros Hst Hrun. destruct s; simpl in Hrun;
    try (unfold Store.insert_likes, Store.insert_shared_posts, Store.insert_posts,
           Store.insert_comments, Store.update_profiles in Hrun;
         rewrite ?update_posts_ok, ?update_comments_ok in Hrun;
         passed_checks Hrun; simpl; exact Hst).
  - unfold Store.insert_friends in Hrun. passed_checks Hrun. simpl.
    intros f Hf. apply in_app_or in Hf as [Hf | [<- | []]]; [auto | reflexivity].
  - unfold Store.update_friends_status in Hrun. passed_checks Hrun. simpl.
    intros f Hf. apply in_map_if_old in Hf as [Hf | (r & Hr & Ht & ->)]; [auto|].
    match goal with
    | H : existsb (fun f => _ && negb (Store.friends_status_check _)) _ = false |- _ =>
        apply (existsb_false_In _ _ r) in H; [|assumption]; cbv beta in H;
        rewrite Ht in H; simpl in H; now apply negb_false_iff in H
    end.
  - injection Hrun as <-. simpl. intros f Hf. apply filter_In in Hf as [Hf _]. auto.
Qed.

(** A row that survives the cascade references a post that is still there. *)
Lemma cascade_keeps_reference (target : posts.row -> bool) (rows : list posts.row)
      (x : uuid) :
  existsb (fun r => String.eqb (posts.id r) x) rows = true ->
  negb (existsb (String.eqb x) (map posts.id (filter target rows))) = true ->
  existsb (fun r => String.eqb (posts.id r) x)
          (filter (fun p => negb (target p)) rows) = true.
Proof.
  intros Hex Hsurv. apply existsb_exists in Hex as (p & Hp & Hid).
  apply existsb_exists. exists p. split; [|assumption].
  apply filter_In. split; [assumption|].
  destruct (target p) eqn:Ht; [|reflexivity].
  apply negb_true_iff in Hsurv. exfalso.
  assert (existsb (String.eqb x) (map posts.id (filter target rows)) = true) as Hgone.
  { apply existsb_exists. exists (posts.id p). split.
    - apply in_map. apply filter_In. auto.
    - now rewrite String.eqb_sym. }
  congruence.
Qed.

Ltac fk_checked :=
  match goal with
  | H : negb (_ && _) = false |- _ =>
      apply negb_false_iff in H; apply andb_true_iff in H; exact H
  | H : negb _ = false |- _ => apply negb_false_iff in H; exact H
  end.

Ltac new_or_old Hin old :=
  apply in_app_or in Hin as [Hin | [<- | []]]; [now apply old | simpl; fk_checked].

Lemma fk_ok_preserved (uid : option uuid) (s : statement) (db db' : database) :
  fk_ok db -> run_statement uid s db = Ok db' -> fk_ok db'.
Proof.
  intros (Hp & Hl & Hc & Hf & Hs) Hrun.
  unfold fk_ok, Store.post_exists, Store.profile_exists in *.
  destruct s; simpl in Hrun.
  - unfold Store.insert_friends, Store.profile_exists in Hrun. passed_checks Hrun.
    simpl. repeat apply conj; try assumption.
    intros f Hin. new_or_old Hin Hf.
  - unfold Store.update_friends_status in Hrun. passed_checks Hrun.
    simpl. repeat apply conj; try assumption.
    intros f Hin. apply in_map_iff in Hin as (r & <- & Hr).
    destruct (Store.friends_update_target uid where_id r); simpl; now apply Hf.
  - injection Hrun as <-. simpl. repeat apply conj; try assumption.
    intros f Hin. apply filter_In in Hin as [Hin _]. now apply Hf.
  - unfold Store.insert_likes, Store.post_exists, Store.profile_exists in Hrun.
    passed_checks Hrun. simpl. repeat apply conj; try assumption.
    intros l Hin. new_or_old Hin Hl.
  - injection Hrun as <-. simpl. repeat apply conj; try assumption.
    intros l Hin. apply filter_In in Hin as [Hin _]. now apply Hl.
  - unfold Store.insert_shared_posts, Store.post_exists, Store.profile_exists in Hrun.
    passed_checks Hrun. simpl. repeat apply conj; try assumption.
    intros x Hin. new_or_old Hin Hs.
  - injection Hrun as <-. simpl. repeat apply conj; try assumption.
    intros x Hin. apply filter_In in Hin as [Hin _]. now apply Hs.
  - unfold Store.insert_posts, Store.profile_exists in Hrun. passed_checks Hrun.
    simpl. repeat apply conj; try assumption.
    + intros p Hin. new_or_old Hin Hp.
    + intros l Hin. destruct (Hl l Hin). split; [now apply existsb_app_left | assumption].
    + intros c0 Hin. destruct (Hc c0 Hin). split; [now apply existsb_app_left | assumption].
    + intros x Hin. destruct (Hs x Hin). split; [now apply existsb_app_left | assumption].
  - rewrite update_posts_ok in Hrun. injection Hrun as <-. simpl.
    assert (forall x,
               existsb (fun r => String.eqb (posts.id r) x)
                 (map (fun p => if Store.posts_update_target uid db where_id where_author p
                                then Store.set_content c p else p) (tbl_posts db))
               = existsb (fun r => String.eqb (posts.id r) x) (tbl_posts db)) as Hsame.
    { intros x. apply (existsb_map_key posts.id). intros r.
      destruct (Store.posts_update_target uid db where_id where_author r); reflexivity. }
    repeat apply conj; try assumption.
    + intros p Hin. apply in_map_iff in Hin as (r & <- & Hr).
      destruct (Store.posts_update_target uid db where_id where_author r); simpl;
        now apply Hp.
    + intros l Hin. rewrite Hsame. now apply Hl.
    + intros c0 Hin. rewrite Hsame. now apply Hc.
    + intros x Hin. rewrite Hsame. now apply Hs.
  - injection Hrun as <-. simpl. repeat apply conj; try assumption.
    + intros p Hin. apply filter_In in Hin as [Hin _]. now apply Hp.
    + intros l Hin. apply filter_In in Hin as [Hin Hsurv]. destruct (Hl l Hin).
      split; [now apply cascade_keeps_reference | assumption].
    + intros c0 Hin. apply filter_In in Hin as [Hin Hsurv]. destruct (Hc c0 Hin).
      split; [now apply cascade_keeps_reference | assumption].
    + intros x Hin. apply filter_In in Hin as [Hin Hsurv]. destruct (Hs x Hin).
      split; [now apply cascade_keeps_reference | assumption].
  - unfold Store.insert_comments, Store.post_exists, Store.profile_exists in Hrun.
    passed_checks Hrun. simpl. repeat apply conj; try assumption.
    intros x Hin. new_or_old Hin Hc.
  - rewrite update_comments_ok in Hrun. injection Hrun as <-. simpl.
    repeat apply conj; try assumption.
    intros x Hin. apply in_map_iff in Hin as (r & <- & Hr).
    destruct (Store.comments_update_target uid where_id r); simpl; now apply Hc.
  - injection Hrun as <-. simpl. repeat apply conj; try assumption.
    intros x Hin. apply filter_In in Hin as [Hin _]. now apply Hc.
  - unfold Store.update_profiles in Hrun. passed_checks Hrun. simpl.
    assert (forall x,
               existsb (fun r => String.eqb (profiles.id r) x)
                 (map (fun p => if Store.profiles_update_target uid where_id p
                                then Store.set_profile_fields full_name bio avatar_url p
                                else p) (tbl_profiles db))
               = existsb (fun r => String.eqb (profiles.id r) x) (tbl_profiles db))
      as Hsame.
    { intros x. apply (existsb_map_key profiles.id). intros r.
      destruct (Store.profiles_update_target uid where_id r); reflexivity. }
    repeat apply conj; intros x Hin; rewrite !Hsame; auto.
Qed.

(** X3. The constraints declared by the migrations (primary keys, unique
    usernames, one likes row and one shared_posts row per (post, user), one
    friends row per ordered pair, the status check, every foreign key) hold
    after every statement of every caller if they held before; deleting a
    post keeps the foreign keys by taking its likes, comments and shares
    along. *)
Theorem schema_constraints_kept :
  forall (uid : option uuid) (s : statement) (db db' : database),
    schema_ok db -> run_statement uid s db = Ok db' -> schema_ok db'.
Proof.
  intros uid s db db' (Hpk & Hfk & Hst & Huniq) Hrun. unfold schema_ok.
  split; [eapply pk_ok_preserved; eauto|].
  split; [eapply fk_ok_preserved; eauto|].
  split; [eapply status_ok_preserved; eauto|].
  eapply unique_pairs_preserved; eauto.
Qed.

Lemma schema_ok_db_shared : schema_ok db_shared.
Proof.
  unfold schema_ok, pk_ok, fk_ok, status_ok, likes_unique, shared_posts_unique,
    friends_unique_ordered, at_most_one. simpl.
  repeat apply conj;
    try solve [repeat constructor; simpl; intuition discriminate];
    try solve [intros x Hin; simpl in Hin; intuition (subst; auto)];
    try solve [intros x y; simpl;
               match goal with
               | |- context [if ?b then _ else _] => destruct b; simpl; lia
               | _ => lia
               end].
Defined.

Lemma schema_constraints_kept_witness :
  schema_ok db_shared /\
  run_statement (Some alice) (DeletePosts "p1" alice) db_shared
  = Ok (mkdb sample_profiles [friends_post] [] [] [] []) /\
  schema_ok (mkdb sample_profiles [friends_post] [] [] [] []).
Proof.
  split; [exact schema_ok_db_shared|]. split; [reflexivity|].
  exact (schema_constraints_kept (Some alice) (DeletePosts "p1" alice) db_shared
           (mkdb sample_profiles [friends_post] [] [] [] [])
           schema_ok_db_shared eq_refl).
Defined.

(** ** The order of the feed *)

Section SortDesc.
Context {A : Type} (key : A -> Z).




End SortDesc.



(** pA is 800 microseconds older than pB; both fall into millisecond 5000,
    so the feed keeps pB, pA from the store's order and puts carol's shared
    copy of pB after the older pA. *)
Example same_millisecond_feed :
  map (fun p => (posts.id (Feed.row p),
                 match Feed.shared_by p with Some _ => true | None => false end))
      (Feed.posts (Feed.fetchPosts (Some bob) (online db_same_millisecond) Feed.initial))
  = [("pB", false); ("pA", false); ("pB", true)].
Proof. reflexivity. Qed.

(** ** Friendship and friends-only posts *)

Lemma length_le_1_In_eq {A} (l : list A) (x y : A) :
  List.length l <= 1 -> In x l -> In y l -> x = y.
Proof.
  destruct l as [|a [|b l]]; simpl; intros Hlen Hx Hy; try lia; try contradiction.
  destruct Hx as [<- | []], Hy as [<- | []]. reflexivity.
Qed.

Lemma only_edge (db : database) (a b : uuid) (e f : friends.row) :
  one_edge_per_pair db -> In e (tbl_friends db) -> In f (tbl_friends db) ->
  connects a b e -> connects a b f -> f = e.
Proof.
  intros Hinv He Hf Hce Hcf.
  apply (length_le_1_In_eq (edges_between a b db)); [apply Hinv | |];
    apply filter_In; split; try assumption; now apply connectsb_true.
Qed.

Lemma connects_sym (a b : uuid) (f : friends.row) : connects a b f -> connects b a f.
Proof. unfold connects. tauto. Qed.

Lemma friends_post_read_iff (db : database) (v : uuid) (P : posts.row) :
  posts.visibility P = Some "friends" -> v <> posts.author_id P ->
  (can_read db (Some v) P = true <->
   exists f, In f (tbl_friends db) /\ friends.status f = "accepted" /\
             connects v (posts.author_id P) f).
Proof.
  intros Hvis Hne. rewrite can_read_iff. split.
  - intros [Hp | [Ha | [_ (v' & f & Hv & Hf)]]]; [congruence | congruence |].
    injection Hv as <-. exists f. exact Hf.
  - intros (f & Hf). right. right. split; [assumption|]. exists v, f. auto.
Qed.

(** X5. Accepting a request opens the friends-only posts of each of the two
    users to the other: after the recipient accepts through the request
    list, the recipient can read the requester's friends-only posts and the
    requester the recipient's. *)
Theorem accept_grants_read :
  forall (db : database) (e : friends.row) (st : FriendRequests.State) (P : posts.row),
    pk_friends db -> In e (tbl_friends db) ->
    posts.visibility P = Some "friends" ->
    let db' := srv_db (fst (FriendRequests.handleRequest
                              (Some (friends.receiver_id e)) (friends.id e) true
                              (online db) st)) in
    (posts.author_id P = friends.sender_id e ->
     can_read db' (Some (friends.receiver_id e)) P = true) /\
    (posts.author_id P = friends.receiver_id e ->
     can_read db' (Some (friends.sender_id e)) P = true).
Proof.
  intros db e st P Hpk Hin Hvis db'.
  destruct (accept_by_receiver db e Hpk Hin) as (db1 & Hup & Hacc & _).
  assert (db' = db1) as ->.
  { subst db'. rewrite handleRequest_accept_db. unfold mutate, online. simpl.
    now rewrite Hup. }
  split; intros Hauthor; apply can_read_iff; right; right; (split; [assumption|]).
  - exists (friends.receiver_id e), (Store.set_status "accepted" e).
    repeat split; try assumption. right. simpl. auto.
  - exists (friends.sender_id e), (Store.set_status "accepted" e).
    repeat split; try assumption. left. simpl. auto.
Qed.

Lemma accept_grants_read_witness :
  pk_friends db_pending /\ In bob_to_alice (tbl_friends db_pending) /\
  posts.visibility friends_post = Some "friends" /\
  can_read db_pending (Some bob) friends_post = false /\
  can_read (srv_db (fst (FriendRequests.handleRequest (Some alice) "f1" true
                           (online db_pending) FriendRequests.initial)))
           (Some bob) friends_post = true.
Proof.
  split; [exact pk_friends_db_pending|]. split; [left; reflexivity|].
  split; [reflexivity|]. split; [reflexivity|].
  exact (proj2 (accept_grants_read db_pending bob_to_alice FriendRequests.initial
                  friends_post pk_friends_db_pending (or_introl eq_refl) eq_refl)
               eq_refl).
Defined.

Lemma delete_target_of_party (e : friends.row) (actor : uuid) :
  actor = friends.sender_id e \/ actor = friends.receiver_id e ->
  Store.friends_delete_target (Some actor) (friends.id e) e = true.
Proof.
  intros Hparty. unfold Store.friends_delete_target.
  rewrite holds_friends_delete, String.eqb_refl. simpl.
  assert (holds (Rls.friends_select (Some actor) e) = true) as ->; [|reflexivity].
  apply holds_friends_select. destruct Hparty; subst; auto.
Qed.

(** X6. Removing a friend closes the friends-only posts again: with one
    friends row between two users, after either of them removes it on the
    Friends page, neither can read the other's friends-only posts. *)
Theorem unfriend_revokes_read :
  forall (db : database) (e : friends.row) (actor : uuid) (st : Friends.State)
         (viewer : uuid) (P : posts.row),
    one_edge_per_pair db -> In e (tbl_friends db) ->
    actor = friends.sender_id e \/ actor = friends.receiver_id e ->
    connects viewer (posts.author_id P) e ->
    posts.visibility P = Some "friends" -> viewer <> posts.author_id P ->
    can_read (srv_db (fst (Friends.removeFriend (Some actor) (friends.id e)
                                                (online db) st)))
             (Some viewer) P = false.
Proof.
  intros db e actor st viewer P Hinv Hin Hparty Hconn Hvis Hne.
  apply not_true_false. intros Hread.
  apply friends_post_read_iff in Hread as (f & Hf & _ & Hcf); try assumption.
  unfold Friends.removeFriend, mutate, online in Hf. simpl in Hf.
  apply filter_In in Hf as [Hf Hkeep].
  assert (f = e) by (eapply only_edge; eauto). subst f.
  rewrite delete_target_of_party in Hkeep by assumption. discriminate.
Qed.

Lemma one_edge_per_pair_db_accepted : one_edge_per_pair db_accepted.
Proof.
  intros a b. unfold edges_between. simpl.
  destruct (connectsb a b _); simpl; lia.
Defined.

Lemma unfriend_revokes_read_witness :
  one_edge_per_pair db_accepted /\
  can_read db_accepted (Some bob) friends_post = true /\
  can_read (srv_db (fst (Friends.removeFriend (Some bob) "f1" (online db_accepted)
                                              Friends.initial)))
           (Some bob) friends_post = false.
Proof.
  split; [exact one_edge_per_pair_db_accepted|]. split; [reflexivity|].
  apply (unfriend_revokes_read db_accepted (Store.set_status "accepted" bob_to_alice) bob
           Friends.initial bob friends_post one_edge_per_pair_db_accepted
           (or_introl eq_refl) (or_introl eq_refl) (or_introl (conj eq_refl eq_refl))
           eq_refl).
  discriminate.
Defined.

(** ** Rejecting, cancelling, unfriending *)

Lemma either_party_edge_removed (db : database) (e : friends.row) (a : uuid) :
  pk_friends db -> In e (tbl_friends db) ->
  a = friends.sender_id e \/ a = friends.receiver_id e ->
  exists db',
    Store.delete_friends (Some a) (friends.id e) db = Ok db' /\
    ~ In e (tbl_friends db') /\
    (forall f, In f (tbl_friends db) -> f <> e -> In f (tbl_friends db')) /\
    (forall f, In f (tbl_friends db') -> In f (tbl_friends db)).
Proof.
  intros Hpk Hin Ha. eexists. split; [reflexivity|]. simpl. repeat split.
  - intros He. apply filter_In in He as [_ He].
    rewrite delete_target_of_party in He by assumption. discriminate.
  - intros f Hf Hne. apply in_filter_neg_kept; [assumption|].
    apply not_true_false. intros Ht.
    apply friends_delete_target_party in Ht as [Hid _].
    apply Hne. eapply NoDup_key_inj; eauto.
  - intros f Hf. now apply filter_In in Hf as [Hf _].
Qed.

(** X7. Reject, cancel and unfriend are one DELETE by id, open to both
    parties of the row in either status: issued by the sender or the
    receiver it removes that row and only that row; issued by anyone else it
    changes nothing.  So for the three handlers that send it. *)
Theorem either_party_removes_edge :
  forall (db : database) (e : friends.row) (actor : option uuid),
    pk_friends db -> In e (tbl_friends db) ->
    ((actor = Some (friends.sender_id e) \/ actor = Some (friends.receiver_id e)) ->
     exists db',
       Store.delete_friends actor (friends.id e) db = Ok db' /\
       ~ In e (tbl_friends db') /\
       (forall f, In f (tbl_friends db) -> f <> e -> In f (tbl_friends db')) /\
       (forall f, In f (tbl_friends db') -> In f (tbl_friends db)) /\
       (forall rst fst_,
           fst (FriendRequests.handleRequest actor (friends.id e) false (online db) rst)
           = online db' /\
           fst (Friends.removeFriend actor (friends.id e) (online db) fst_) = online db'))
    /\ (actor <> Some (friends.sender_id e) -> actor <> Some (friends.receiver_id e) ->
        Store.delete_friends actor (friends.id e) db = Ok db /\
        (forall rst fst_,
            fst (FriendRequests.handleRequest actor (friends.id e) false (online db) rst)
            = online db /\
            fst (Friends.removeFriend actor (friends.id e) (online db) fst_) = online db)).
Proof.
  intros db e actor Hpk Hin. split.
  - intros Hparty.
    assert (exists a, actor = Some a /\
                      (a = friends.sender_id e \/ a = friends.receiver_id e))
      as (a & -> & Ha) by (destruct Hparty as [-> | ->]; eauto).
    destruct (either_party_edge_removed db e a Hpk Hin Ha)
      as (db' & Hdel & Hgone & Hkept & Hsub).
    exists db'. repeat split; try assumption;
      unfold FriendRequests.handleRequest, Friends.removeFriend, mutate, online;
      simpl srv_online; cbv iota; simpl srv_db; rewrite Hdel; reflexivity.
  - intros Hs Hr.
    assert (Store.delete_friends actor (friends.id e) db = Ok db) as Hnoop.
    { apply delete_friends_no_target. intros f Hf. apply not_true_false. intros Ht.
      apply friends_delete_target_party in Ht as [Hid Hparty].
      assert (f = e) by (eapply NoDup_key_inj; eauto). subst f. tauto. }
    split; [exact Hnoop|]. intros rst fst_.
    unfold FriendRequests.handleRequest, Friends.removeFriend, mutate, online.
    simpl srv_online. cbv iota. simpl srv_db. rewrite Hnoop. split; reflexivity.
Qed.

Lemma either_party_removes_edge_witness :
  pk_friends db_pending /\ In bob_to_alice (tbl_friends db_pending) /\
  Store.delete_friends (Some carol) "f1" db_pending = Ok db_pending.
Proof.
  split; [exact pk_friends_db_pending|]. split; [left; reflexivity|].
  apply (either_party_removes_edge db_pending bob_to_alice (Some carol)
           pk_friends_db_pending (or_introl eq_refl)); discriminate.
Defined.

(** ** The request list *)

Lemma select_requests_rows (u : uuid) (db : database) (f : friends.row) :
  In f (filter (fun f => String.eqb (friends.receiver_id f) u &&
                         String.eqb (friends.status f) "pending")
               (Store.select_friends (Some u) db)) <->
  In f (tbl_friends db) /\ friends.receiver_id f = u /\ friends.status f = "pending".
Proof.
  unfold Store.select_friends, Rls.visible_friends.
  rewrite !filter_In, andb_true_iff, !String.eqb_eq, holds_friends_select. split.
  - tauto.
  - intros (Hin & Hr & Hs). repeat split; try assumption. right. now rewrite Hr.
Qed.

Lemma requests_online (u : uuid) (db : database) (st : FriendRequests.State)
      (f : friends.row) :
  (exists r, In r (FriendRequests.requests
                     (FriendRequests.fetchFriendRequests (Some u) (online db) st)) /\
             FriendRequests.row r = f) <->
  In f (tbl_friends db) /\ friends.receiver_id f = u /\ friends.status f = "pending".
Proof.
  rewrite <- select_requests_rows. simpl. split.
  - intros (r & Hr & <-). apply in_map_iff in Hr as (f & <- & Hf). exact Hf.
  - intros Hf. eexists. split; [apply in_map; exact Hf | reflexivity].
Qed.

(** X8. The request list shows exactly the pending rows addressed to the
    user.  Once the user has accepted or rejected one of them, the refreshed
    list no longer has it and still has every other pending request. *)
Theorem request_list_is_exact :
  forall (db : database) (u : uuid) (st : FriendRequests.State),
    (forall f,
        (exists r, In r (FriendRequests.requests
                           (FriendRequests.fetchFriendRequests (Some u) (online db) st)) /\
                   FriendRequests.row r = f) <->
        In f (tbl_friends db) /\ friends.receiver_id f = u /\ friends.status f = "pending")
    /\ (forall e accept,
           pk_friends db -> In e (tbl_friends db) -> friends.receiver_id e = u ->
           let after := FriendRequests.handleRequest (Some u) (friends.id e) accept
                                                     (online db) st in
           (forall r, In r (FriendRequests.requests (snd after)) ->
                      friends.id (FriendRequests.row r) <> friends.id e) /\
           (forall f, In f (tbl_friends db) -> friends.receiver_id f = u ->
                      friends.status f = "pending" -> f <> e ->
                      exists r, In r (FriendRequests.requests (snd after)) /\
                                FriendRequests.row r = f)).
Proof.
  intros db u st. split; [intros f; apply requests_online|].
  intros e accept Hpk Hin Hrcv after. subst u.
  destruct accept.
  - destruct (accept_by_receiver db e Hpk Hin) as (db' & Hup & _ & Hplace).
    assert (after = (online db',
                     FriendRequests.fetchFriendRequests (Some (friends.receiver_id e))
                                                        (online db') st)) as ->.
    { subst after. unfold FriendRequests.handleRequest, mutate, online.
      simpl srv_online. cbv iota. simpl srv_db. now rewrite Hup. }
    destruct Hplace as ((e' & _ & _ & _ & _ & _ & Hst & Huniq) & Hkept & _).
    simpl snd. split.
    + intros r Hr Hid.
      assert (exists r0, In r0 (FriendRequests.requests
                                  (FriendRequests.fetchFriendRequests
                                     (Some (friends.receiver_id e)) (online db') st)) /\
                         FriendRequests.row r0 = FriendRequests.row r) as Hex by eauto.
      apply requests_online in Hex as (Hin' & _ & Hpend).
      rewrite (Huniq _ Hin' Hid) in Hpend. congruence.
    + intros f Hf Hr Hpend Hne. apply requests_online. auto.
  - destruct (either_party_edge_removed db e (friends.receiver_id e) Hpk Hin
                (or_intror eq_refl)) as (db' & Hdel & Hgone & Hkept & Hsub).
    assert (after = (online db',
                     FriendRequests.fetchFriendRequests (Some (friends.receiver_id e))
                                                        (online db') st)) as ->.
    { subst after. unfold FriendRequests.handleRequest, mutate, online.
      simpl srv_online. cbv iota. simpl srv_db. now rewrite Hdel. }
    simpl snd. split.
    + intros r Hr Hid.
      assert (exists r0, In r0 (FriendRequests.requests
                                  (FriendRequests.fetchFriendRequests
                                     (Some (friends.receiver_id e)) (online db') st)) /\
                         FriendRequests.row r0 = FriendRequests.row r) as Hex by eauto.
      apply requests_online in Hex as (Hin' & _ & _).
      apply Hgone. replace e with (FriendRequests.row r); [assumption|].
      eapply NoDup_key_inj; eauto.
    + intros f Hf Hr Hpend Hne. apply requests_online. auto.
Qed.

(** ** The Friends page *)

Lemma embed_friend_profile_pid (uid : option uuid) (db : database) (ref : uuid)
      (fp : Friends.FriendProfile) :
  Friends.embed_friend_profile uid db ref = Some fp -> Friends.pid fp = ref.
Proof.
  unfold Friends.embed_friend_profile. intros H.
  destruct (find _ (tbl_profiles db)) as [p|] eqn:Hfind; simpl in H; [|discriminate].
  injection H as <-. simpl. apply find_some in Hfind as [_ Hid].
  apply andb_true_iff in Hid as [Hid _]. now apply String.eqb_eq.
Qed.

Lemma embed_friend_profile_exists (uid : option uuid) (db : database) (ref : uuid) :
  Store.profile_exists db ref = true ->
  exists fp, Friends.embed_friend_profile uid db ref = Some fp.
Proof.
  unfold Store.profile_exists, Friends.embed_friend_profile. intros Hex.
  apply existsb_exists in Hex as (p & Hp & Hid).
  destruct (find _ (tbl_profiles db)) as [q|] eqn:Hfind; simpl; [eauto|].
  pose proof (find_none _ _ Hfind p Hp) as Hn. simpl in Hn.
  rewrite Hid in Hn. discriminate.
Qed.

Lemma friends_list_online (u : uuid) (db : database) (st : Friends.State) :
  Friends.friends (Friends.fetchFriends (Some u) (online db) st) =
  (map (fun f => Friends.mkFriend (friends.id f) (friends.status f)
                   (Friends.embed_friend_profile (Some u) db (friends.receiver_id f)))
       (filter (fun f => String.eqb (friends.status f) "accepted" &&
                         String.eqb (friends.sender_id f) u)
               (Store.select_friends (Some u) db))
   ++
   map (fun f => Friends.mkFriend (friends.id f) (friends.status f)
                   (Friends.embed_friend_profile (Some u) db (friends.sender_id f)))
       (filter (fun f => String.eqb (friends.status f) "accepted" &&
                         String.eqb (friends.receiver_id f) u)
               (Store.select_friends (Some u) db)))%list.
Proof. reflexivity. Qed.

Lemma sent_rows (u : uuid) (db : database) (f : friends.row) :
  In f (filter (fun f => String.eqb (friends.status f) "accepted" &&
                         String.eqb (friends.sender_id f) u)
               (Store.select_friends (Some u) db)) <->
  In f (tbl_friends db) /\ friends.status f = "accepted" /\ friends.sender_id f = u.
Proof.
  unfold Store.select_friends, Rls.visible_friends.
  rewrite !filter_In, andb_true_iff, !String.eqb_eq, holds_friends_select. split.
  - tauto.
  - intros (Hin & Hs & Hu). repeat split; try assumption. left. now rewrite Hu.
Qed.

Lemma received_rows (u : uuid) (db : database) (f : friends.row) :
  In f (filter (fun f => String.eqb (friends.status f) "accepted" &&
                         String.eqb (friends.receiver_id f) u)
               (Store.select_friends (Some u) db)) <->
  In f (tbl_friends db) /\ friends.status f = "accepted" /\ friends.receiver_id f = u.
Proof.
  unfold Store.select_friends, Rls.visible_friends.
  rewrite !filter_In, andb_true_iff, !String.eqb_eq, holds_friends_select. split.
  - tauto.
  - intros (Hin & Hs & Hu). repeat split; try assumption. right. now rewrite Hu.
Qed.

Lemma friend_listed_iff (u a : uuid) (db : database) (st : Friends.State) :
  Store.profile_exists db a = true ->
  ((exists fr fp, In fr (Friends.friends (Friends.fetchFriends (Some u) (online db) st)) /\
                  Friends.profiles fr = Some fp /\ Friends.pid fp = a)
   <-> accepted_edge db (Some u) a).
Proof.
  intros Hprofile. rewrite friends_list_online. split.
  - intros (fr & fp & Hin & Hfp & Hpid). apply in_app_or in Hin as [Hin | Hin];
      apply in_map_iff in Hin as (f & <- & Hf); simpl in Hfp;
      apply embed_friend_profile_pid in Hfp; rewrite Hpid in Hfp; subst a.
    + apply sent_rows in Hf as (Hf & Hs & Hu).
      exists u, f. repeat split; try assumption. left. auto.
    + apply received_rows in Hf as (Hf & Hs & Hu).
      exists u, f. repeat split; try assumption. right. auto.
  - intros (v & f & Hv & Hf & Hs & Hc). injection Hv as <-.
    destruct (embed_friend_profile_exists (Some u) db a Hprofile) as (fp & Hfp).
    pose proof (embed_friend_profile_pid _ _ _ _ Hfp) as Hpid.
    destruct Hc as [[Hsu Hra] | [Hru Hsa]].
    + exists (Friends.mkFriend (friends.id f) (friends.status f)
                (Friends.embed_friend_profile (Some u) db (friends.receiver_id f))), fp.
      split; [|split; [simpl; now rewrite Hra | assumption]].
      apply in_or_app. left. apply in_map_iff. exists f. split; [reflexivity|].
      apply sent_rows. auto.
    + exists (Friends.mkFriend (friends.id f) (friends.status f)
                (Friends.embed_friend_profile (Some u) db (friends.sender_id f))), fp.
      split; [|split; [simpl; now rewrite Hsa | assumption]].
      apply in_or_app. right. apply in_map_iff. exists f. split; [reflexivity|].
      apply received_rows. auto.
Qed.

(** X9. The Friends page lists the accepted friends rows of the user, sent
    or received, and never a pending one; a user with a profile is shown
    there exactly when an accepted row joins the two, which for another
    user's friends-only post is exactly when the viewer can read it. *)
Theorem friends_list_is_exact :
  forall (db : database) (u : uuid) (st : Friends.State),
    let listed := Friends.friends (Friends.fetchFriends (Some u) (online db) st) in
    (forall i,
        (exists fr, In fr listed /\ Friends.id fr = i) <->
        (exists f, In f (tbl_friends db) /\ friends.id f = i /\
                   friends.status f = "accepted" /\
                   (friends.sender_id f = u \/ friends.receiver_id f = u)))
    /\ (forall fr, In fr listed -> Friends.status fr = "accepted")
    /\ (forall a, Store.profile_exists db a = true ->
          ((exists fr fp, In fr listed /\ Friends.profiles fr = Some fp /\
                          Friends.pid fp = a)
           <-> accepted_edge db (Some u) a))
    /\ (forall P, posts.visibility P = Some "friends" -> u <> posts.author_id P ->
          Store.profile_exists db (posts.author_id P) = true ->
          (can_read db (Some u) P = true <->
           exists fr fp, In fr listed /\ Friends.profiles fr = Some fp /\
                         Friends.pid fp = posts.author_id P)).
Proof.
  intros db u st listed. subst listed. split; [|split; [|split]].
  - intros i. rewrite friends_list_online. split.
    + intros (fr & Hin & Hid). apply in_app_or in Hin as [Hin | Hin];
        apply in_map_iff in Hin as (f & <- & Hf); simpl in Hid.
      * apply sent_rows in Hf as (Hf & Hs & Hu). exists f. auto.
      * apply received_rows in Hf as (Hf & Hs & Hu). exists f. auto.
    + intros (f & Hf & Hid & Hs & [Hu | Hu]).
      * exists (Friends.mkFriend (friends.id f) (friends.status f)
                  (Friends.embed_friend_profile (Some u) db (friends.receiver_id f))).
        split; [|exact Hid].
        apply in_or_app. left. apply in_map_iff. exists f. split; [reflexivity|].
        apply sent_rows. auto.
      * exists (Friends.mkFriend (friends.id f) (friends.status f)
                  (Friends.embed_friend_profile (Some u) db (friends.sender_id f))).
        split; [|exact Hid].
        apply in_or_app. right. apply in_map_iff. exists f. split; [reflexivity|].
        apply received_rows. auto.
  - intros fr Hin. rewrite friends_list_online in Hin.
    apply in_app_or in Hin as [Hin | Hin];
      apply in_map_iff in Hin as (f & <- & Hf); simpl.
    + now apply sent_rows in Hf as (_ & Hs & _).
    + now apply received_rows in Hf as (_ & Hs & _).
  - intros a Ha. now apply friend_listed_iff.
  - intros P Hvis Hne Hprofile. rewrite friend_listed_iff by assumption.
    rewrite can_read_iff. split.
    + intros [Hp | [Ha | [_ He]]]; [congruence | congruence | assumption].
    + intros He. auto.
Qed.

Example friends_page_after_accept :
  map Friends.id
      (Friends.friends (Friends.fetchFriends (Some bob) (online db_accepted)
                                             Friends.initial)) = ["f1"] /\
  Friends.friends (Friends.fetchFriends (Some bob) (online db_pending) Friends.initial)
  = [].
Proof. split; reflexivity. Qed.

(** ** The friend button of the Profile page *)

Lemma handleFriendRequest_db (u id new_id : uuid) (now : timestamptz) (srv : server)
      (st : Profile.State) :
  id <> EmptyString ->
  fst (Profile.handleFriendRequest (Some u) id new_id now srv st) =
  fst (match Profile.friendStatus st with
       | None => mutate srv (Store.insert_friends (Some u) new_id now u id)
       | Some fs =>
           if String.eqb (friends.status fs) "pending" &&
              String.eqb (friends.receiver_id fs) u
           then mutate srv (Store.update_friends_status (Some u) "accepted" (friends.id fs))
           else mutate srv (Store.delete_friends (Some u) (friends.id fs))
       end).
Proof.
  intros Hid. unfold Profile.handleFriendRequest.
  apply String.eqb_neq in Hid. rewrite Hid.
  match goal with
  | |- fst (match ?a with (_, _) => _ end) = _ => destruct a as [srv' [e|]]; reflexivity
  end.
Qed.

Lemma checkFriendStatus_connects (u id : uuid) (db : database) (st0 : Profile.State)
      (fs : friends.row) :
  u <> id ->
  Profile.friendStatus (Profile.checkFriendStatus u id (online db) st0) = Some fs ->
  In fs (tbl_friends db) /\ connects u id fs.
Proof.
  intros Hne. unfold Profile.checkFriendStatus, query, online, Profile.select_friend_status.
  simpl srv_online. cbv iota. simpl srv_db. rewrite friend_status_filter by assumption.
  destruct (edges_between u id db) as [|e [|e' l]] eqn:He; simpl; try discriminate.
  intros H. injection H as <-.
  assert (In e (edges_between u id db)) as Hin by (rewrite He; now left).
  apply filter_In in Hin as [Hin Hc]. split; [assumption|]. now apply connectsb_true.
Qed.

(** X10. On another user's profile, with the status the page has just
    fetched, the label of the friend button says what pressing it sends:
    "Add Friend" the insert, "Accept Request" the update to 'accepted' of a
    pending row addressed to the user, "Cancel Request" and "Remove Friend"
    the delete of the row (the user's own pending request, or a row that is
    no longer pending). *)
Theorem button_matches_action :
  forall (u id new_id : uuid) (now : timestamptz) (db : database) (srv : server)
         (st0 : Profile.State),
    u <> id -> id <> EmptyString ->
    let st := Profile.checkFriendStatus u id (online db) st0 in
    let after := fst (Profile.handleFriendRequest (Some u) id new_id now srv st) in
    match Profile.getFriendActionButton (Some u) id st with
    | Some Profile.AddFriend =>
        Profile.friendStatus st = None /\
        after = fst (mutate srv (Store.insert_friends (Some u) new_id now u id))
    | Some Profile.AcceptRequest =>
        exists fs, Profile.friendStatus st = Some fs /\
                   friends.status fs = "pending" /\ friends.receiver_id fs = u /\
                   after = fst (mutate srv (Store.update_friends_status
                                              (Some u) "accepted" (friends.id fs)))
    | Some Profile.CancelRequest =>
        exists fs, Profile.friendStatus st = Some fs /\
                   friends.status fs = "pending" /\ friends.sender_id fs = u /\
                   after = fst (mutate srv (Store.delete_friends (Some u) (friends.id fs)))
    | Some Profile.RemoveFriend =>
        exists fs, Profile.friendStatus st = Some fs /\
                   friends.status fs <> "pending" /\
                   after = fst (mutate srv (Store.delete_friends (Some u) (friends.id fs)))
    | None => False
    end.
Proof.
  intros u id new_id now db srv st0 Hne Hid st after. subst after.
  rewrite handleFriendRequest_db by assumption.
  unfold Profile.getFriendActionButton.
  apply String.eqb_neq in Hne as Hneb. rewrite Hneb.
  destruct (Profile.friendStatus st) as [fs|] eqn:Hfs; [|auto].
  destruct (checkFriendStatus_connects u id db st0 fs Hne Hfs) as [_ Hconn].
  destruct (String.eqb_spec (friends.status fs) "pending") as [Hpend | Hpend].
  - destruct (String.eqb_spec (friends.sender_id fs) u) as [Hs | Hs].
    + exists fs. repeat split; try assumption.
      destruct (String.eqb_spec (friends.receiver_id fs) u) as [Hr | Hr]; [|reflexivity].
      exfalso. unfold connects in Hconn. destruct Hconn as [[_ Hi] | [_ Hi]]; congruence.
    + exists fs. unfold connects in Hconn.
      destruct Hconn as [[Hs' _] | [Hr _]]; [contradiction|].
      repeat split; try assumption. rewrite Hr, String.eqb_refl. reflexivity.
  - exists fs. repeat split; assumption.
Qed.

Lemma button_matches_action_witness :
  bob <> alice /\ alice <> EmptyString /\
  Profile.getFriendActionButton (Some bob) alice
    (Profile.checkFriendStatus bob alice (online db_pending) Profile.initial)
  = Some Profile.CancelRequest /\
  Profile.getFriendActionButton (Some alice) bob
    (Profile.checkFriendStatus alice bob (online db_pending) Profile.initial)
  = Some Profile.AcceptRequest /\
  exists fs,
    Profile.friendStatus
      (Profile.checkFriendStatus bob alice (online db_pending) Profile.initial) = Some fs /\
    friends.status fs = "pending" /\ friends.sender_id fs = bob /\
    fst (Profile.handleFriendRequest (Some bob) alice "f9" 50%Z (online db_pending)
           (Profile.checkFriendStatus bob alice (online db_pending) Profile.initial))
    = fst (mutate (online db_pending) (Store.delete_friends (Some bob) (friends.id fs))).
Proof.
  assert (bob <> alice) as H1 by discriminate.
  assert (alice <> EmptyString) as H2 by discriminate.
  split; [exact H1|]. split; [exact H2|]. split; [reflexivity|]. split; [reflexivity|].
  exact (button_matches_action bob alice "f9" 50%Z db_pending (online db_pending)
           Profile.initial H1 H2).
Defined.

(** X11. Once two rows join a pair (one in each direction), the Profile page
    finds no single status, offers "Add Friend", and pressing it always
    fails: the store answers with the unique violation, which the page
    shows, and nothing is written. *)
Theorem double_edge_blocks_profile_button :
  forall (u id new_id : uuid) (now : timestamptz) (db : database) (st0 : Profile.State)
         (e1 e2 : friends.row),
    u <> id -> id <> EmptyString ->
    friends_unique_ordered db ->
    In e1 (tbl_friends db) -> In e2 (tbl_friends db) -> e1 <> e2 ->
    connects u id e1 -> connects u id e2 ->
    let st := Profile.checkFriendStatus u id (online db) st0 in
    Profile.getFriendActionButton (Some u) id st = Some Profile.AddFriend /\
    Profile.handleFriendRequest (Some u) id new_id now (online db) st
    = (online db,
       Profile.setError st (mk_ui_error unique_violation "Failed to handle friend request")).
Proof.
  intros u id new_id now db st0 e1 e2 Hne Hid Huniq H1 H2 Hdiff Hc1 Hc2 st.
  assert (Profile.friendStatus st = None) as Hnone.
  { destruct (Profile.friendStatus st) as [fs|] eqn:Hfs; [|reflexivity]. exfalso.
    subst st. revert Hfs.
    unfold Profile.checkFriendStatus, query, online, Profile.select_friend_status.
    simpl srv_online. cbv iota. simpl srv_db. rewrite friend_status_filter by assumption.
    assert (In e1 (edges_between u id db)) as Hin1
        by (apply filter_In; split; [assumption | now apply connectsb_true]).
    assert (In e2 (edges_between u id db)) as Hin2
        by (apply filter_In; split; [assumption | now apply connectsb_true]).
    destruct (edges_between u id db) as [|e [|e' l]]; simpl in *; try discriminate;
      try contradiction.
    destruct Hin1 as [<- | []], Hin2 as [<- | []]. contradiction. }
  assert (Store.friends_unique_conflict db u id = true) as Hconflict.
  { unfold Store.friends_unique_conflict. apply existsb_exists.
    destruct Hc1 as [[Hs1 Hr1] | [Hr1 Hs1]].
    - exists e1. split; [assumption|]. now rewrite Hs1, Hr1, !String.eqb_refl.
    - destruct Hc2 as [[Hs2 Hr2] | [Hr2 Hs2]].
      + exists e2. split; [assumption|]. now rewrite Hs2, Hr2, !String.eqb_refl.
      + exfalso. apply Hdiff.
        apply (length_le_1_In_eq
                 (filter (key_is friends.sender_id friends.receiver_id id u)
                         (tbl_friends db))); [apply Huniq | |];
          apply filter_In; split; try assumption; apply key_is_true; auto. }
  split.
  - unfold Profile.getFriendActionButton. apply String.eqb_neq in Hne. now rewrite Hne, Hnone.
  - unfold Profile.handleFriendRequest. apply String.eqb_neq in Hid. rewrite Hid, Hnone.
    unfold mutate, online. simpl srv_online. cbv iota. simpl srv_db.
    unfold Store.insert_friends, Rls.friends_insert. simpl friends.sender_id.
    rewrite holds_sql_eq_some, String.eqb_refl. simpl negb. cbv iota.
    rewrite Hconflict.
    destruct (existsb _ (tbl_friends db)); reflexivity.
Qed.

Lemma double_edge_blocks_profile_button_witness :
  Profile.handleFriendRequest (Some alice) bob "f9" 50%Z
    (online (with_friends db0 [bob_to_alice; alice_to_bob]))
    (Profile.checkFriendStatus alice bob
       (online (with_friends db0 [bob_to_alice; alice_to_bob])) Profile.initial)
  = (online (with_friends db0 [bob_to_alice; alice_to_bob]),
     Profile.setError
       (Profile.checkFriendStatus alice bob
          (online (with_friends db0 [bob_to_alice; alice_to_bob])) Profile.initial)
       (mk_ui_error unique_violation "Failed to handle friend request")).
Proof.
  assert (friends_unique_ordered (with_friends db0 [bob_to_alice; alice_to_bob])) as Hu.
  { intros x y. simpl.
    destruct (key_is friends.sender_id friends.receiver_id x y bob_to_alice) eqn:H1,
             (key_is friends.sender_id friends.receiver_id x y alice_to_bob) eqn:H2;
      simpl; try lia.
    apply key_is_true in H1 as [<- _]. apply key_is_true in H2 as [H2 _]. discriminate. }
  apply (double_edge_blocks_profile_button alice bob "f9" 50%Z
           (with_friends db0 [bob_to_alice; alice_to_bob]) Profile.initial
           bob_to_alice alice_to_bob);
    try discriminate; try assumption; simpl; auto.
  - right. split; reflexivity.
  - left. split; reflexivity.
Defined.

(** ** Publishing a post *)






(** ** The comment box *)

Lemma trimStart_blank (s : js_string) :
  trimStart s = [] <-> (forall c, In c s -> is_js_whitespace c = true).
Proof.
  induction s as [|a s IH]; simpl.
  - split; [intros _ c [] | reflexivity].
  - destruct (is_js_whitespace a) eqn:Ha.
    + rewrite IH. split.
      * intros H c [<- | Hc]; auto.
      * intros H c Hc. auto.
    + split; [discriminate|]. intros H. specialize (H a (or_introl eq_refl)). congruence.
Qed.

Lemma trimEnd_blank (s : js_string) :
  trimEnd s = [] <-> (forall c, In c s -> is_js_whitespace c = true).
Proof.
  induction s as [|a s IH]; simpl.
  - split; [intros _ c [] | reflexivity].
  - destruct (trimEnd s) as [|b t] eqn:Ht.
    + destruct (is_js_whitespace a) eqn:Ha.
      * split; [|reflexivity]. intros _ c [<- | Hc]; [assumption|].
        now apply (proj1 IH eq_refl).
      * split; [discriminate|]. intros H. specialize (H a (or_introl eq_refl)). congruence.
    + split; [discriminate|]. intros H.
      assert (b :: t = []) by (apply IH; auto). discriminate.
Qed.

Lemma trimStart_head (s : js_string) (a : N) (t : js_string) :
  trimStart s = a :: t -> is_js_whitespace a = false.
Proof.
  induction s as [|b s IH]; simpl; [discriminate|].
  destruct (is_js_whitespace b) eqn:Hb; [exact IH|].
  intros H. injection H as <- _. exact Hb.
Qed.

Lemma trim_blank (s : js_string) :
  trim s = [] <-> (forall c, In c s -> is_js_whitespace c = true).
Proof.
  unfold trim. rewrite <- trimStart_blank. split.
  - intros H. destruct (trimStart s) as [|a t] eqn:Hs; [reflexivity|].
    apply trimStart_head in Hs.
    pose proof (proj1 (trimEnd_blank (a :: t)) H a (or_introl eq_refl)). congruence.
  - intros ->. reflexivity.
Qed.

(** Trimming drops white space only, and only at the two ends. *)
Lemma trimStart_In (s : js_string) (c : N) : In c (trimStart s) -> In c s.
Proof.
  induction s as [|a s IH]; simpl; [auto|].
  destruct (is_js_whitespace a); [auto | intros H; exact H].
Qed.

Lemma trimEnd_In (s : js_string) (c : N) : In c (trimEnd s) -> In c s.
Proof.
  induction s as [|a s IH]; simpl; [auto|].
  destruct (trimEnd s) as [|b t].
  - destruct (is_js_whitespace a); [intros [] | intros [H | []]; auto].
  - intros [H | H]; auto.
Qed.

Lemma trim_In (s : js_string) (c : N) : In c (trim s) -> In c s.
Proof. unfold trim. intros H. now apply trimStart_In, trimEnd_In. Qed.

Lemma trimStart_keeps (s : js_string) (c : N) :
  In c s -> is_js_whitespace c = false -> In c (trimStart s).
Proof.
  induction s as [|a s IH]; simpl; [auto|].
  intros [-> | Hc] Hws.
  - rewrite Hws. now left.
  - destruct (is_js_whitespace a); [auto | now right].
Qed.

Lemma trimEnd_keeps (s : js_string) (c : N) :
  In c s -> is_js_whitespace c = false -> In c (trimEnd s).
Proof.
  induction s as [|a s IH]; simpl; [auto|].
  intros Hc Hws. destruct (trimEnd s) as [|b t].
  - destruct Hc as [-> | Hc]; [rewrite Hws; now left|].
    exfalso. exact (IH Hc Hws).
  - destruct Hc as [-> | Hc]; [now left | right; auto].
Qed.

Lemma trim_keeps (s : js_string) (c : N) :
  In c s -> is_js_whitespace c = false -> In c (trim s).
Proof. unfold trim. intros Hc Hws. now apply trimEnd_keeps; [apply trimStart_keeps|]. Qed.

(** The trimmed text is the text between its first and its last code point
    that is not white space. *)
Lemma trimStart_decompose (s : js_string) :
  exists pre, s = (pre ++ trimStart s)%list /\
              (forall c, In c pre -> is_js_whitespace c = true).
Proof.
  induction s as [|a s (pre & Hs & Hpre)]; simpl.
  - exists []. split; [reflexivity | intros c []].
  - destruct (is_js_whitespace a) eqn:Ha.
    + exists (a :: pre). split; [simpl; now rewrite <- Hs|].
      intros c [<- | Hc]; auto.
    + exists []. split; [reflexivity | intros c []].
Qed.

Lemma trimEnd_decompose (s : js_string) :
  exists post, s = (trimEnd s ++ post)%list /\
               (forall c, In c post -> is_js_whitespace c = true).
Proof.
  induction s as [|a s (post & Hs & Hpost)]; simpl.
  - exists []. split; [reflexivity | intros c []].
  - destruct (trimEnd s) as [|b t].
    + simpl in Hs. subst post. destruct (is_js_whitespace a) eqn:Ha.
      * exists (a :: s). split; [reflexivity|]. intros c [<- | Hc]; auto.
      * exists s. split; [reflexivity | assumption].
    + exists post. split; [simpl; now rewrite Hs | assumption].
Qed.

Lemma trimEnd_last (s t : js_string) (c : N) :
  trimEnd s = (t ++ [c])%list -> is_js_whitespace c = false.
Proof.
  revert t. induction s as [|a s IH]; simpl; intros t Ht.
  - destruct t; discriminate.
  - destruct (trimEnd s) as [|b t'].
    + destruct (is_js_whitespace a) eqn:Ha; [destruct t; discriminate|].
      destruct t as [|x [|y t]]; try discriminate. now injection Ht as <-.
    + destruct t as [|x t]; [discriminate|]. injection Ht as _ Ht.
      now apply (IH t).
Qed.

Lemma trimEnd_head (a : N) (s : js_string) :
  is_js_whitespace a = false -> exists t, trimEnd (a :: s) = a :: t.
Proof.
  intros Ha. simpl. destruct (trimEnd s) as [|b t]; [rewrite Ha|]; eauto.
Qed.

Lemma trim_is_the_middle (s : js_string) :
  (exists pre post,
      s = (pre ++ trim s ++ post)%list /\
      (forall c, In c pre -> is_js_whitespace c = true) /\
      (forall c, In c post -> is_js_whitespace c = true)) /\
  (forall c t, trim s = c :: t -> is_js_whitespace c = false) /\
  (forall t c, trim s = (t ++ [c])%list -> is_js_whitespace c = false).
Proof.
  unfold trim. split; [|split].
  - destruct (trimStart_decompose s) as (pre & Hs & Hpre).
    destruct (trimEnd_decompose (trimStart s)) as (post & Hm & Hpost).
    exists pre, post. split; [|auto]. now rewrite <- Hm.
  - intros c t Ht. destruct (trimStart s) as [|a m] eqn:Hm; [discriminate|].
    pose proof (trimStart_head s a m Hm) as Ha.
    destruct (trimEnd_head a m Ha) as (t' & Ht'). rewrite Ht' in Ht.
    now injection Ht as <- _.
  - intros t c Ht. now apply (trimEnd_last (trimStart s) t c).
Qed.

(** What the store takes as text. *)
Lemma text_error_none (s : js_string) :
  text_error s = None <->
  (forall c, In c s -> c <> 0%N /\ is_scalar_value c = true).
Proof.
  induction s as [|a s IH]; simpl.
  - split; [intros _ c [] | reflexivity].
  - destruct (N.eqb_spec a 0) as [Ha | Ha].
    + split; [discriminate|]. intros H.
      destruct (H a (or_introl eq_refl)) as [Hne _]. contradiction.
    + destruct (is_scalar_value a) eqn:Hs; simpl.
      * rewrite IH. split.
        -- intros H c [<- | Hc]; auto.
        -- intros H c Hc. auto.
      * split; [discriminate|]. intros H.
        destruct (H a (or_introl eq_refl)) as [_ Hsc]. congruence.
Qed.

Lemma text_error_nul (s : js_string) :
  In 0%N s -> (forall c, In c s -> is_scalar_value c = true) ->
  text_error s = Some untranslatable_character.
Proof.
  induction s as [|a s IH]; simpl; [contradiction|].
  intros Hnul Hscalar. destruct (N.eqb_spec a 0) as [Ha | Ha]; [reflexivity|].
  rewrite (Hscalar a (or_introl eq_refl)). simpl.
  destruct Hnul as [Hnul | Hnul]; [contradiction|]. auto.
Qed.

(** U+00E9, U+20AC and U+1F600 in UTF-8; a NUL, and a surrogate, refused. *)
Example json_text_samples :
  option_map (fun s => map Ascii.N_of_ascii (list_ascii_of_string s))
             (match json_text [233; 8364; 128512]%N with Ok s => Some s | Err _ => None end)
  = Some [195; 169; 226; 130; 172; 240; 159; 152; 128]%N /\
  json_text [97; 0]%N = Err untranslatable_character /\
  json_text [97; 55357]%N = Err invalid_text_representation /\
  json_text (js "abc") = Ok "abc".
Proof. repeat split. Qed.

Lemma handleAddComment_sent (u id : uuid) (typed : js_string) (new_id : uuid)
      (now : timestamptz) (db : database) (st : PostDetail.State) :
  trim typed <> [] ->
  PostDetail.handleAddComment (Some u) id typed new_id now (online db) st =
  match Store.insert_comments_body (Some u) new_id now id u (trim typed) db with
  | Ok db' => (online db', PostDetail.fetchComments (Some u) id (online db') st, [])
  | Err e =>
      (online db,
       PostDetail.mkState (PostDetail.post st) (PostDetail.comments st)
                          (PostDetail.loading st)
                          (Some (mk_ui_error e "Failed to add comment")),
       typed)
  end.
Proof.
  intros Hne. unfold PostDetail.handleAddComment.
  destruct (trim typed) as [|a t]; [congruence|].
  unfold mutate, online. simpl srv_online. cbv iota. simpl srv_db.
  destruct (Store.insert_comments_body (Some u) new_id now id u (a :: t) db); reflexivity.
Qed.

Lemma insert_comments_ok (u new_id : uuid) (now : timestamptz) (post : uuid) (c : text)
      (db : database) :
  Store.post_exists db post = true -> Store.profile_exists db u = true ->
  ~ In new_id (map comments.id (tbl_comments db)) ->
  Store.insert_comments (Some u) new_id now post u c db
  = Ok (with_comments db (tbl_comments db ++ [comments.mk new_id post u c (Some now)])).
Proof.
  intros Hpost Hprofile Hfresh. unfold Store.insert_comments, Rls.comments_insert.
  simpl comments.user_id. rewrite holds_sql_eq_some, String.eqb_refl. simpl negb. cbv iota.
  rewrite existsb_all_false.
  - now rewrite Hpost, Hprofile.
  - intros x Hx. apply String.eqb_neq. intros Hid. apply Hfresh. rewrite <- Hid.
    now apply in_map.
Qed.

Lemma insert_comments_body_ok (u new_id : uuid) (now : timestamptz) (post : uuid)
      (content : js_string) (c : text) (db : database) :
  json_text content = Ok c ->
  Store.post_exists db post = true -> Store.profile_exists db u = true ->
  ~ In new_id (map comments.id (tbl_comments db)) ->
  Store.insert_comments_body (Some u) new_id now post u content db
  = Ok (with_comments db (tbl_comments db ++ [comments.mk new_id post u c (Some now)])).
Proof.
  intros Hjson Hpost Hprofile Hfresh. unfold Store.insert_comments_body.
  rewrite Hjson. cbn [bind]. now apply insert_comments_ok.
Qed.

Lemma insert_comments_body_refused (uid : option uuid) (new_id : uuid) (now : timestamptz)
      (post user : uuid) (content : js_string) (e : pg_error) (db : database) :
  json_text content = Err e ->
  Store.insert_comments_body uid new_id now post user content db = Err e.
Proof. intros Hjson. unfold Store.insert_comments_body. now rewrite Hjson. Qed.

Lemma delete_last_comment (u new_id post : uuid) (c : text) (now : timestamptz)
      (db : database) :
  ~ In new_id (map comments.id (tbl_comments db)) ->
  Store.delete_comments (Some u) new_id u
    (with_comments db (tbl_comments db ++ [comments.mk new_id post u c (Some now)]))
  = Ok db.
Proof.
  intros Hfresh. unfold Store.delete_comments. f_equal.
  replace (tbl_comments (with_comments db _))
    with (tbl_comments db ++ [comments.mk new_id post u c (Some now)])%list by reflexivity.
  pose proof (proj2 (comments_target_of_author (comments.mk new_id post u c (Some now))))
    as Hlast. simpl comments.id in Hlast. simpl comments.user_id in Hlast.
  rewrite filter_app. cbn [filter]. rewrite Hlast.
  simpl negb. cbv iota. rewrite app_nil_r, filter_all.
  - destruct db; reflexivity.
  - intros x Hx. apply negb_true_iff. apply not_true_false. intros Ht.
    unfold Store.comments_delete_target in Ht. rewrite !andb_true_iff in Ht.
    destruct Ht as [[[Hid _] _] _]. apply String.eqb_eq in Hid.
    apply Hfresh. rewrite <- Hid. now apply in_map.
Qed.

Lemma comments_online (u id : uuid) (db : database) (st : PostDetail.State)
      (c : PostDetail.Comment) :
  In c (PostDetail.comments (PostDetail.fetchComments (Some u) id (online db) st)) ->
  In (PostDetail.crow c) (tbl_comments db) /\ comments.post_id (PostDetail.crow c) = id.
Proof.
  simpl. intros Hc. apply in_map_iff in Hc as (r & <- & Hr). simpl.
  apply sort_by_In in Hr. apply filter_In in Hr as [Hr Hid].
  apply filter_In in Hr as [Hr _]. split; [assumption|]. now apply String.eqb_eq.
Qed.

(** X13. The comment box sends nothing when its text is only white space,
    any of the white space [trim] strips.  On an existing post and for a
    user with a profile: a text that is not blank and that the store takes
    as text (no U+0000, code points only) is stored without its leading and
    trailing white space as one comment of that user on that post, the box is
    emptied and the comment shown; deleting that comment afterwards restores
    the store as it was, and the refreshed list no longer has it.  A text the
    store does not take is refused with the store's error, with U+0000 that
    is 22P05: nothing is stored, the error is shown and the box keeps its
    text. *)
Theorem comment_box_round_trip :
  forall (u id : uuid) (typed : js_string) (new_id : uuid) (now : timestamptz)
         (db : database) (st : PostDetail.State),
    Store.post_exists db id = true -> Store.profile_exists db u = true ->
    ~ In new_id (map comments.id (tbl_comments db)) ->
    let out := PostDetail.handleAddComment (Some u) id typed new_id now (online db) st in
    let refused (e : pg_error) :=
      (online db,
       PostDetail.mkState (PostDetail.post st) (PostDetail.comments st)
                          (PostDetail.loading st)
                          (Some (mk_ui_error e "Failed to add comment")),
       typed) in
    ((forall c, In c typed -> is_js_whitespace c = true) -> out = (online db, st, typed)) /\
    (~ (forall c, In c typed -> is_js_whitespace c = true) ->
     (forall c, In c typed -> c <> 0%N /\ is_scalar_value c = true) ->
     let r := comments.mk new_id id u (utf8 (trim typed)) (Some now) in
     let back := PostDetail.handleDeleteComment (Some u) id new_id
                   (fst (fst out)) (snd (fst out)) in
     fst (fst out) = online (with_comments db (tbl_comments db ++ [r])) /\
     snd out = [] /\
     (exists c, In c (PostDetail.comments (snd (fst out))) /\ PostDetail.crow c = r) /\
     fst back = online db /\
     (forall c, In c (PostDetail.comments (snd back)) ->
                comments.id (PostDetail.crow c) <> new_id)) /\
    (~ (forall c, In c typed -> is_js_whitespace c = true) ->
     forall e, json_text (trim typed) = Err e -> out = refused e) /\
    (In 0%N typed -> (forall c, In c typed -> is_scalar_value c = true) ->
     out = refused untranslatable_character) /\
    ((exists pre post,
         typed = (pre ++ trim typed ++ post)%list /\
         (forall c, In c pre -> is_js_whitespace c = true) /\
         (forall c, In c post -> is_js_whitespace c = true)) /\
     (forall c t, trim typed = c :: t -> is_js_whitespace c = false) /\
     (forall t c, trim typed = (t ++ [c])%list -> is_js_whitespace c = false)).
Proof.
  intros u id typed new_id now db st Hpost Hprofile Hfresh out refused.
  assert (~ (forall c, In c typed -> is_js_whitespace c = true) -> trim typed <> [])
    as Hsome by (intros Hn Ht; apply Hn; now apply trim_blank).
  assert (forall e, trim typed <> [] -> json_text (trim typed) = Err e -> out = refused e)
    as Hrefused.
  { intros e Hne Hjson. subst out refused. rewrite handleAddComment_sent by assumption.
    now rewrite (insert_comments_body_refused _ _ _ _ _ _ e). }
  split; [|split; [|split; [|split; [|apply trim_is_the_middle]]]].
  - intros Hblank. apply trim_blank in Hblank. subst out.
    unfold PostDetail.handleAddComment. now rewrite Hblank.
  - intros Hnb Hok r back. apply Hsome in Hnb.
    assert (json_text (trim typed) = Ok (utf8 (trim typed))) as Hjson.
    { unfold json_text.
      rewrite (proj2 (text_error_none (trim typed))); [reflexivity|].
      intros c Hc. apply Hok. now apply trim_In. }
    set (db' := with_comments db (tbl_comments db ++ [r])).
    assert (out = (online db', PostDetail.fetchComments (Some u) id (online db') st, []))
      as Hout.
    { subst out. rewrite handleAddComment_sent by assumption.
      now rewrite (insert_comments_body_ok u new_id now id (trim typed)
                     (utf8 (trim typed)) db Hjson Hpost Hprofile Hfresh). }
    assert (back = (online db, PostDetail.fetchComments (Some u) id (online db)
                                 (PostDetail.fetchComments (Some u) id (online db') st)))
      as Hback.
    { subst back. rewrite Hout. simpl fst. simpl snd.
      unfold PostDetail.handleDeleteComment, mutate, online. simpl srv_online. cbv iota.
      simpl srv_db. subst db' r. now rewrite delete_last_comment by assumption. }
    rewrite Hback, Hout. simpl fst. simpl snd.
    split; [reflexivity|]. split; [reflexivity|]. split; [|split; [reflexivity|]].
    + exists (PostDetail.mkComment r (Store.embed_profile (Some u) db' u)).
      split; [|reflexivity].
      unfold PostDetail.fetchComments, query, online, PostDetail.select_comments.
      simpl srv_online. cbv iota. simpl PostDetail.comments.
      apply in_map_iff. exists r. split; [reflexivity|].
      apply sort_by_In. apply filter_In. split.
      * apply filter_In. split; [|reflexivity].
        simpl. apply in_or_app. right. now left.
      * simpl. apply String.eqb_refl.
    + intros c Hc Hid. apply comments_online in Hc as [Hc _].
      apply Hfresh. rewrite <- Hid. now apply in_map.
  - intros Hnb e Hjson. apply Hrefused; auto.
  - intros Hnul Hscalar.
    assert (In 0%N (trim typed)) as Hnul' by (now apply trim_keeps).
    apply Hrefused.
    + intros Ht. rewrite Ht in Hnul'. contradiction.
    + unfold json_text. rewrite text_error_nul; [reflexivity | assumption |].
      intros c Hc. apply Hscalar. now apply trim_In.
Qed.

Lemma comment_box_round_trip_witness :
  PostDetail.handleAddComment (Some alice) "p1" [32; 8195; 12288; 65279]%N "c9" 70%Z
                              (online db0) PostDetail.initial
  = (online db0, PostDetail.initial, [32; 8195; 12288; 65279]%N) /\
  fst (fst (PostDetail.handleAddComment (Some alice) "p1" (js " thanks ") "c9" 70%Z
              (online db0) PostDetail.initial))
  = online (with_comments db0 [bob_comment;
                               comments.mk "c9" "p1" alice "thanks" (Some 70%Z)]) /\
  PostDetail.handleAddComment (Some alice) "p1" [104; 0; 105]%N "c9" 70%Z
                              (online db0) PostDetail.initial
  = (online db0,
     PostDetail.mkState None [] true
       (Some (mk_ui_error untranslatable_character "Failed to add comment")),
     [104; 0; 105]%N).
Proof.
  assert (Store.post_exists db0 "p1" = true) as Hpost by reflexivity.
  assert (Store.profile_exists db0 alice = true) as Hprofile by reflexivity.
  assert (~ In "c9" (map comments.id (tbl_comments db0))) as Hfresh.
  { intros [H | []]. discriminate. }
  split; [|split].
  - apply (proj1 (comment_box_round_trip alice "p1" [32; 8195; 12288; 65279]%N "c9" 70%Z
                    db0 PostDetail.initial Hpost Hprofile Hfresh)).
    intros c [<- | [<- | [<- | [<- | []]]]]; reflexivity.
  - apply (proj1 (proj2 (comment_box_round_trip alice "p1" (js " thanks ") "c9" 70%Z db0
                           PostDetail.initial Hpost Hprofile Hfresh))).
    + intros Hall. pose proof (proj2 (trim_blank (js " thanks ")) Hall) as Ht.
      vm_compute in Ht. discriminate.
    + intros c Hc. apply (proj1 (text_error_none (js " thanks "))); [reflexivity | exact Hc].
  - apply (proj1 (proj2 (proj2 (proj2
             (comment_box_round_trip alice "p1" [104; 0; 105]%N "c9" 70%Z db0
                PostDetail.initial Hpost Hprofile Hfresh))))).
    + right. now left.
    + intros c [<- | [<- | [<- | []]]]; reflexivity.
Defined.

(** ** Comments and the visibility of their post *)





(** ** Saving the profile form *)







(** ** What an edit can change in a post *)

Lemma post_row_as_edit (p : posts.row) : p = Store.set_content (posts.content p) p.
Proof. destruct p; reflexivity. Qed.

Lemma statement_edits_content_only (uid : option uuid) (s : statement)
      (db db' : database) (p' : posts.row) :
  run_statement uid s db = Ok db' -> In p' (tbl_posts db') ->
  (exists p, In p (tbl_posts db) /\ p' = Store.set_content (posts.content p') p) \/
  (uid = Some (posts.author_id p') /\ posts.updated_at p' = posts.created_at p').
Proof.
  intros Hrun Hin.
  assert (In p' (tbl_posts db) ->
          (exists p, In p (tbl_posts db) /\ p' = Store.set_content (posts.content p') p) \/
          (uid = Some (posts.author_id p') /\ posts.updated_at p' = posts.created_at p'))
    as Hold by (intros H; left; exists p'; split; [exact H | apply post_row_as_edit]).
  destruct s; simpl in Hrun.
  - unfold Store.insert_friends in Hrun. passed_checks Hrun. now apply Hold.
  - unfold Store.update_friends_status in Hrun. passed_checks Hrun. now apply Hold.
  - injection Hrun as <-. now apply Hold.
  - unfold Store.insert_likes in Hrun. passed_checks Hrun. now apply Hold.
  - injection Hrun as <-. now apply Hold.
  - unfold Store.insert_shared_posts in Hrun. passed_checks Hrun. now apply Hold.
  - injection Hrun as <-. now apply Hold.
  - unfold Store.insert_posts in Hrun. passed_checks Hrun. simpl in Hin.
    apply in_app_or in Hin as [Hin | [<- | []]]; [now apply Hold|].
    right. split; [|reflexivity].
    match goal with
    | H : negb (holds _) = false |- _ =>
        unfold Rls.posts_insert in H; simpl in H; apply policy_passed in H; exact H
    end.
  - rewrite update_posts_ok in Hrun. injection Hrun as <-. simpl in Hin.
    apply in_map_if_old in Hin as [Hin | (r & Hr & _ & ->)]; [now apply Hold|].
    left. exists r. split; [assumption | reflexivity].
  - injection Hrun as <-. simpl in Hin. apply filter_In in Hin as [Hin _].
    now apply Hold.
  - unfold Store.insert_comments in Hrun. passed_checks Hrun. now apply Hold.
  - rewrite update_comments_ok in Hrun. injection Hrun as <-. now apply Hold.
  - injection Hrun as <-. now apply Hold.
  - unfold Store.update_profiles in Hrun. passed_checks Hrun. now apply Hold.
Qed.

(** X16. No statement the handlers send changes anything of an existing post
    but its text: author, image, visibility and both timestamps stay, and a
    new post is the caller's own with updated_at equal to created_at.  So
    updated_at never moves: if it equals created_at on every post, it still
    does after any statement, an edit through the feed included. *)
Theorem edit_changes_content_only :
  forall (uid : option uuid) (s : statement) (db db' : database),
    run_statement uid s db = Ok db' ->
    (forall p', In p' (tbl_posts db') ->
       (exists p, In p (tbl_posts db) /\ p' = Store.set_content (posts.content p') p) \/
       (uid = Some (posts.author_id p') /\ posts.updated_at p' = posts.created_at p')) /\
    ((forall p, In p (tbl_posts db) -> posts.updated_at p = posts.created_at p) ->
     forall p', In p' (tbl_posts db') -> posts.updated_at p' = posts.created_at p') /\
    (forall u postId st p',
        In p' (tbl_posts (srv_db (fst (Feed.updatePost (Some u) postId (online db) st)))) ->
        exists p, In p (tbl_posts db) /\ p' = Store.set_content (Feed.editContent st) p
                  \/ In p (tbl_posts db) /\ p' = p).
Proof.
  intros uid s db db' Hrun. split; [|split].
  - intros p' Hin. eapply statement_edits_content_only; eauto.
  - intros Hinv p' Hin.
    destruct (statement_edits_content_only uid s db db' p' Hrun Hin)
      as [(p & Hp & Heq) | [_ Hnew]]; [|exact Hnew].
    rewrite Heq. simpl. now apply Hinv.
  - intros u postId st p'. unfold Feed.updatePost, mutate, online.
    simpl srv_online. cbv iota. simpl srv_db. rewrite update_posts_ok. simpl.
    intros Hin. apply in_map_if_old in Hin as [Hin | (r & Hr & _ & ->)].
    + exists p'. right. auto.
    + exists r. left. auto.
Qed.

Lemma edit_changes_content_only_witness :
  run_statement (Some alice) (UpdatePostsContent "edited" "p1" alice) db0
  = Ok (with_posts db0 [Store.set_content "edited" public_post; friends_post]) /\
  forall p', In p' [Store.set_content "edited" public_post; friends_post] ->
             posts.updated_at p' = posts.created_at p'.
Proof.
  split; [reflexivity|].
  apply (proj1 (proj2 (edit_changes_content_only (Some alice)
                         (UpdatePostsContent "edited" "p1" alice) db0
                         (with_posts db0 [Store.set_content "edited" public_post;
                                          friends_post])
                         eq_refl))).
  intros p [<- | [<- | []]]; reflexivity.
Defined.

(** ** Deleting a post *)

Lemma posts_delete_target_id (uid : option uuid) (db : database)
      (where_id where_author : uuid) (q : posts.row) :
  Store.posts_delete_target uid db where_id where_author q = true ->
  posts.id q = where_id.
Proof.
  unfold Store.posts_delete_target. rewrite !andb_true_iff, String.eqb_eq. tauto.
Qed.

Lemma cascade_reaches (db : database) (p : posts.row) (x : uuid) :
  In p (tbl_posts db) ->
  existsb (String.eqb x)
          (map posts.id
               (filter (Store.posts_delete_target (Some (posts.author_id p)) db
                          (posts.id p) (posts.author_id p))
                       (tbl_posts db))) = true
  <-> x = posts.id p.
Proof.
  intros Hin. rewrite existsb_exists. split.
  - intros (i & Hi & Heq). apply String.eqb_eq in Heq. subst i.
    apply in_map_iff in Hi as (q & Hid & Hq). apply filter_In in Hq as [_ Ht].
    apply posts_delete_target_id in Ht. congruence.
  - intros ->. exists (posts.id p). split; [|apply String.eqb_refl].
    apply in_map. apply filter_In. split; [assumption|].
    apply (proj2 (posts_target_of_author db p)).
Qed.

Lemma cascade_survivor (db : database) (p : posts.row) (x : uuid) :
  In p (tbl_posts db) ->
  negb (existsb (String.eqb x)
          (map posts.id
               (filter (Store.posts_delete_target (Some (posts.author_id p)) db
                          (posts.id p) (posts.author_id p))
                       (tbl_posts db)))) = true
  <-> x <> posts.id p.
Proof.
  intros Hin. rewrite negb_true_iff, <- not_true_iff_false.
  now rewrite cascade_reaches.
Qed.

(** X17. When its author deletes a post from the feed, the post is gone and
    with it exactly the likes, comments and shares that point to it; every
    other row of every table stays, and no viewer's feed has an entry for
    the post any more, neither the original nor a shared copy. *)
Theorem deleted_post_leaves_no_trace :
  forall (db : database) (p : posts.row) (st : Feed.State),
    pk_posts db -> In p (tbl_posts db) ->
    let id := posts.id p in
    let out := Feed.deletePost (Some (posts.author_id p)) id (online db) st in
    let db' := srv_db (fst out) in
    (forall q, In q (tbl_posts db') <-> In q (tbl_posts db) /\ q <> p) /\
    (forall l, In l (tbl_likes db') <-> In l (tbl_likes db) /\ likes.post_id l <> id) /\
    (forall c, In c (tbl_comments db') <->
               In c (tbl_comments db) /\ comments.post_id c <> id) /\
    (forall s, In s (tbl_shared_posts db') <->
               In s (tbl_shared_posts db) /\ shared_posts.post_id s <> id) /\
    tbl_profiles db' = tbl_profiles db /\ tbl_friends db' = tbl_friends db /\
    (forall v st' e, In e (Feed.posts (Feed.fetchPosts v (fst out) st')) ->
                     posts.id (Feed.row e) <> id).
Proof.
  intros db p st Hpk Hin id out db'.
  destruct (Store.delete_posts (Some (posts.author_id p)) id (posts.author_id p) db)
    as [db1|e] eqn:Hdel; [|discriminate].
  assert (fst out = online db1) as Hout.
  { subst out. unfold Feed.deletePost, mutate, online. simpl srv_online. cbv iota.
    simpl srv_db. now rewrite Hdel. }
  subst db'. rewrite Hout. simpl srv_db.
  unfold Store.delete_posts in Hdel. injection Hdel as <-. subst id.
  assert (forall q, In q (filter (fun r => negb (Store.posts_delete_target
                                                   (Some (posts.author_id p)) db
                                                   (posts.id p) (posts.author_id p) r))
                                 (tbl_posts db))
                    <-> In q (tbl_posts db) /\ q <> p) as Hposts.
  { intros q. rewrite filter_In, negb_true_iff. split.
    - intros [Hq Ht]. split; [assumption|]. intros ->.
      rewrite (proj2 (posts_target_of_author db p)) in Ht. discriminate.
    - intros [Hq Hne]. split; [assumption|]. apply not_true_false. intros Ht.
      apply posts_delete_target_id in Ht. apply Hne. eapply NoDup_key_inj; eauto. }
  split; [exact Hposts|].
  split; [intros l; simpl; now rewrite filter_In, cascade_survivor|].
  split; [intros c; simpl; now rewrite filter_In, cascade_survivor|].
  split; [intros s; simpl; now rewrite filter_In, cascade_survivor|].
  split; [reflexivity|]. split; [reflexivity|].
  intros v st' e He Hid. apply feed_entry in He as [He _].
  apply filter_In in He as [He _]. simpl in He. apply Hposts in He as [He Hne].
  apply Hne. eapply NoDup_key_inj; eauto.
Qed.

Lemma deleted_post_leaves_no_trace_witness :
  pk_posts db_shared /\
  srv_db (fst (Feed.deletePost (Some alice) "p1" (online db_shared) Feed.initial))
  = mkdb sample_profiles [friends_post] [] [] [] [] /\
  forall l, In l (tbl_likes (srv_db (fst (Feed.deletePost (Some alice) "p1"
                                             (online db_shared) Feed.initial)))) ->
            likes.post_id l <> "p1".
Proof.
  assert (pk_posts db_shared) as Hpk.
  { unfold pk_posts. simpl. repeat constructor; simpl; intuition discriminate. }
  split; [exact Hpk|]. split; [reflexivity|].
  intros l Hl.
  apply (proj1 (proj2 (deleted_post_leaves_no_trace db_shared public_post Feed.initial
                         Hpk (or_introl eq_refl))) l) in Hl.
  exact (proj2 Hl).
Defined.

(** ** The share button *)

Lemma alreadyShared_current (U P : uuid) (db : database) (st0 : Feed.State) :
  (exists r, In r (Store.select_posts (Some U) db) /\ posts.id r = P) ->
  Feed.alreadyShared (Feed.fetchPosts (Some U) (online db) st0) P U = shared db P U.
Proof.
  intros (r & Hr & Hid). unfold Feed.alreadyShared.
  destruct (find _ _) as [p|] eqn:Hfind.
  - apply find_some in Hfind as [Hp Heq]. apply String.eqb_eq in Heq.
    apply feed_entry in Hp as (_ & _ & ->). rewrite Heq. apply existsb_shared_set.
  - exfalso.
    pose proof (find_none _ _ Hfind _ (feed_shows_readable (Some U) db st0 r Hr)) as Hn.
    simpl in Hn. rewrite Hid, String.eqb_refl in Hn. discriminate.
Qed.

Lemma delete_shared_posts_own (U P : uuid) (db : database) :
  Store.delete_shared_posts (Some U) P U db =
  Ok (with_shared_posts db
        (filter (fun s => negb (key_is shared_posts.post_id shared_posts.user_id P U s))
                (tbl_shared_posts db))).
Proof.
  unfold Store.delete_shared_posts. do 2 f_equal. apply filter_ext.
  intros s. now rewrite shared_posts_delete_target_key.
Qed.

Lemma insert_shared_posts_own (U P new_id : uuid) (now : timestamptz) (db : database) :
  shared db P U = false ->
  Store.post_exists db P = true -> Store.profile_exists db U = true ->
  ~ In new_id (map shared_posts.id (tbl_shared_posts db)) ->
  Store.insert_shared_posts (Some U) new_id now P U db =
  Ok (with_shared_posts db (tbl_shared_posts db ++ [shared_posts.mk new_id P U (Some now)])).
Proof.
  intros Hshared Hpost Hprofile Hfresh.
  unfold Store.insert_shared_posts, Rls.shared_posts_insert. simpl shared_posts.user_id.
  rewrite holds_sql_eq_some, String.eqb_refl. simpl negb. cbv iota.
  rewrite existsb_all_false.
  - unfold Store.shared_posts_unique_conflict. unfold shared, key_is in Hshared.
    rewrite Hshared, Hpost, Hprofile. reflexivity.
  - intros s Hs. apply String.eqb_neq. intros Heq. apply Hfresh.
    rewrite <- Heq. now apply in_map.
Qed.

(** X18. On a feed that shows post P to the signed-in user U, who has not
    shared it: pressing the share button stores one (P, U) row and the
    refreshed feed gains a shared copy of P; pressing it again deletes that
    row, and the store and the list of the feed are as they were before the
    first press. *)
Theorem share_then_unshare_restores :
  forall (db : database) (U P : uuid) (st0 : Feed.State)
         (id1 id2 : uuid) (t1 t2 : timestamptz),
    (exists r, In r (Store.select_posts (Some U) db) /\ posts.id r = P) ->
    Store.profile_exists db U = true ->
    ~ In id1 (map shared_posts.id (tbl_shared_posts db)) ->
    shared db P U = false ->
    let st := Feed.fetchPosts (Some U) (online db) st0 in
    let once := Feed.sharePost (Some U) P id1 t1 (online db) st in
    let twice := Feed.sharePost (Some U) P id2 t2 (fst once) (snd once) in
    srv_db (fst once)
    = with_shared_posts db (tbl_shared_posts db ++ [shared_posts.mk id1 P U (Some t1)]) /\
    shared (srv_db (fst once)) P U = true /\
    (forall e, In e (Feed.posts st) -> posts.id (Feed.row e) = P ->
               Feed.shared_by e <> None ->
               exists s, In s (tbl_shared_posts db) /\ shared_posts.post_id s = P /\
                         shared_posts.user_id s <> U) /\
    (exists e, In e (Feed.posts (snd once)) /\ posts.id (Feed.row e) = P /\
               Feed.shared_by e = Some (Store.embed_profile (Some U) db U)) /\
    fst twice = online db /\
    Feed.posts (snd twice) = Feed.posts st.
Proof.
  intros db U P st0 id1 id2 t1 t2 Hread Hprofile Hfresh Hshared st once twice.
  set (new := shared_posts.mk id1 P U (Some t1)).
  set (db1 := with_shared_posts db (tbl_shared_posts db ++ [new])).
  assert (once = (online db1, Feed.fetchPosts (Some U) (online db1) st)) as Honce.
  { subst once st. unfold Feed.sharePost. rewrite alreadyShared_current by assumption.
    rewrite Hshared. unfold mutate, online. simpl srv_online. cbv iota. simpl srv_db.
    rewrite insert_shared_posts_own;
      [reflexivity | assumption | eapply readable_post_exists; eauto | assumption
       | assumption]. }
  assert (shared db1 P U = true) as Hshared1.
  { unfold shared, db1. simpl. rewrite existsb_app. simpl.
    unfold key_is at 2. simpl. rewrite !String.eqb_refl. simpl. apply orb_true_r. }
  assert (filter (fun s => negb (key_is shared_posts.post_id shared_posts.user_id P U s))
                 (tbl_shared_posts db ++ [new]) = tbl_shared_posts db) as Hback.
  { rewrite filter_app. simpl. unfold key_is at 2. simpl. rewrite !String.eqb_refl.
    simpl. rewrite app_nil_r. apply filter_all. intros s Hs.
    apply negb_true_iff. eapply existsb_false_In; eauto. }
  assert (twice = (online db, Feed.fetchPosts (Some U) (online db) (snd once)))
    as Htwice.
  { subst twice. rewrite Honce. simpl fst. simpl snd. unfold Feed.sharePost.
    rewrite (alreadyShared_current U P db1 st Hread), Hshared1.
    unfold mutate, online. simpl srv_online. cbv iota. simpl srv_db.
    rewrite delete_shared_posts_own. simpl tbl_shared_posts. rewrite Hback.
    replace (with_shared_posts db1 (tbl_shared_posts db)) with db
      by (destruct db; reflexivity).
    reflexivity. }
  rewrite Htwice, Honce. simpl fst. simpl snd. simpl srv_db.
  split; [reflexivity|]. split; [exact Hshared1|]. split; [|split; [|split]].
  - intros e He Hid Hby. subst st. rewrite feed_posts_online in He.
    unfold sort_desc in He. rewrite sort_by_In, in_app_iff in He.
    destruct He as [He | He].
    + apply in_map_iff in He as (r & <- & _). simpl in Hby. congruence.
    + apply transformed_In in He as (s & r & Hs & Hfind & ->). simpl in Hid.
      apply sort_by_In in Hs. apply filter_In in Hs as [Hs _].
      apply find_some in Hfind as [_ Hfind]. apply String.eqb_eq in Hfind.
      exists s. split; [assumption|]. split; [congruence|].
      intros Hu. pose proof (existsb_false_In _ _ s Hshared Hs) as Hk.
      assert (key_is shared_posts.post_id shared_posts.user_id P U s = true)
        by (apply key_is_true; split; congruence).
      congruence.
  - destruct Hread as (r & Hr & Hid).
    destruct (find (fun q => String.eqb (posts.id q) P) (Store.select_posts (Some U) db))
      as [r0|] eqn:Hfind.
    + exists (Feed.mkPost r0 (Store.embed_profile (Some U) db1 (posts.author_id r0))
                (Store.embed_likes (Some U) db1 (posts.id r0))
                (Store.embed_comments (Some U) db1 (posts.id r0))
                (Store.embed_shared_posts (Some U) db1 (posts.id r0))
                (Some (Store.embed_profile (Some U) db1 U))).
      split; [|split; [|reflexivity]].
      * rewrite feed_posts_online. unfold sort_desc. rewrite sort_by_In, in_app_iff.
        right. apply transformed_In. exists new, r0.
        split; [|split; [exact Hfind | reflexivity]].
        apply sort_by_In. apply filter_In. split; [|reflexivity].
        simpl. apply in_or_app. right. now left.
      * simpl. apply find_some in Hfind as [_ Hfind]. now apply String.eqb_eq.
    + exfalso. pose proof (find_none _ _ Hfind r Hr) as Hn. simpl in Hn.
      rewrite Hid, String.eqb_refl in Hn. discriminate.
  - reflexivity.
  - subst st. now rewrite !feed_posts_online.
Qed.

Lemma share_then_unshare_restores_witness :
  shared db0 "p1" bob = false /\
  fst (Feed.sharePost (Some bob) "p1" "s8" 81%Z
         (fst (Feed.sharePost (Some bob) "p1" "s7" 80%Z (online db0)
                 (Feed.fetchPosts (Some bob) (online db0) Feed.initial)))
         (snd (Feed.sharePost (Some bob) "p1" "s7" 80%Z (online db0)
                 (Feed.fetchPosts (Some bob) (online db0) Feed.initial))))
  = online db0.
Proof.
  split; [reflexivity|].
  assert (exists r, In r (Store.select_posts (Some bob) db0) /\ posts.id r = "p1")
    as Hread by (exists public_post; split; [left|]; reflexivity).
  assert (~ In "s7" (map shared_posts.id (tbl_shared_posts db0))) as Hfresh
      by (intros []).
  exact (proj1 (proj2 (proj2 (proj2 (proj2
           (share_then_unshare_restores db0 bob "p1" Feed.initial "s7" "s8" 80%Z 81%Z
              Hread eq_refl Hfresh eq_refl)))))).
Defined.

(** ** The like button of the detail page *)

Lemma fetchPost_readable (v : option uuid) (db : database) (P : posts.row)
      (st : PostDetail.State) :
  pk_posts db -> In P (tbl_posts db) -> can_read db v P = true ->
  PostDetail.fetchPost v (posts.id P) (online db) st
  = PostDetail.mkState (Some (PostDetail.post_json v db P)) (PostDetail.comments st)
                       (PostDetail.loading st) (PostDetail.error st).
Proof.
  intros Hpk Hin Hcan.
  unfold PostDetail.fetchPost, query, online, PostDetail.select_post.
  simpl srv_online. cbv iota. simpl srv_db.
  rewrite readable_with_id by assumption. now rewrite Hcan.
Qed.

Lemma existsb_filter_implied {A} (f g : A -> bool) (l : list A) :
  (forall x, f x = true -> g x = true) ->
  existsb f (filter g l) = existsb f l.
Proof.
  intros Himp. induction l as [|a l IH]; simpl; [reflexivity|].
  destruct (g a) eqn:Hg; simpl; rewrite IH; [reflexivity|].
  destruct (f a) eqn:Hf; [|reflexivity].
  apply Himp in Hf. congruence.
Qed.

Lemma shown_likes (v : option uuid) (db : database) (P u : uuid) :
  In u (Store.embed_likes v db P) <-> liked db P u = true.
Proof.
  rewrite <- (existsb_like_set v db P u), existsb_exists. split.
  - intros Hin. exists u. split; [assumption | apply String.eqb_refl].
  - intros (x & Hx & Heq). apply String.eqb_eq in Heq. now subst x.
Qed.

(** X19. On the detail page of a post the signed-in user can read, one press
    of the like button flips whether that user likes the post and changes no
    other (post, user) pair; the page then shows the same post with exactly
    the users who like it now. *)
Theorem detail_like_flips :
  forall (db : database) (P : posts.row) (U : uuid) (st0 : PostDetail.State)
         (new_id : uuid) (now : timestamptz),
    pk_posts db -> In P (tbl_posts db) -> can_read db (Some U) P = true ->
    Store.profile_exists db U = true ->
    ~ In new_id (map likes.id (tbl_likes db)) ->
    let id := posts.id P in
    let st := PostDetail.fetchPost (Some U) id (online db) st0 in
    let out := PostDetail.toggleLike (Some U) id new_id now (online db) st in
    let db' := srv_db (fst out) in
    liked db' id U = negb (liked db id U) /\
    (forall p u, p <> id \/ u <> U -> liked db' p u = liked db p u) /\
    exists shown,
      PostDetail.post (snd out) = Some shown /\ PostDetail.row shown = P /\
      forall u, In u (PostDetail.likes shown) <-> liked db' id u = true.
Proof.
  intros db P U st0 new_id now Hpk Hin Hcan Hprofile Hfresh id st out db'.
  assert (Store.post_exists db id = true) as Hpost.
  { unfold Store.post_exists. apply existsb_exists. exists P.
    split; [assumption | apply String.eqb_refl]. }
  set (db1 := if liked db id U
              then with_likes db
                     (filter (fun l => negb (key_is likes.post_id likes.user_id id U l))
                             (tbl_likes db))
              else with_likes db (tbl_likes db ++ [likes.mk new_id id U (Some now)])).
  assert (tbl_posts db1 = tbl_posts db /\ tbl_friends db1 = tbl_friends db) as [Hp1 Hf1]
      by (subst db1; destruct (liked db id U); split; reflexivity).
  assert (can_read db1 (Some U) P = true) as Hcan1.
  { apply can_read_iff. apply can_read_iff in Hcan.
    destruct Hcan as [H | [H | [H (v & f & Hv & Hf & Hrest)]]]; auto.
    right. right. split; [assumption|]. exists v, f. rewrite Hf1. auto. }
  assert (out = (online db1, PostDetail.fetchPost (Some U) id (online db1) st)) as Hout.
  { subst out st id. rewrite fetchPost_readable by assumption.
    unfold PostDetail.toggleLike.
    cbn [PostDetail.post PostDetail.likes PostDetail.row PostDetail.post_json].
    rewrite existsb_like_set. subst db1.
    destruct (liked db (posts.id P) U) eqn:Hliked; unfold mutate, online;
      simpl srv_online; cbv iota; simpl srv_db.
    - now rewrite delete_likes_own.
    - now rewrite insert_likes_own by assumption. }
  subst db'. rewrite Hout. simpl fst. simpl snd. simpl srv_db.
  split; [|split].
  - subst db1. destruct (liked db id U) eqn:Hliked; simpl negb.
    + apply liked_after_delete.
    + unfold liked. simpl. rewrite existsb_app. simpl.
      unfold key_is at 2. simpl. rewrite !String.eqb_refl. simpl. apply orb_true_r.
  - intros p u Hother.
    assert (forall l, key_is likes.post_id likes.user_id p u l = true ->
                      key_is likes.post_id likes.user_id id U l = false) as Hkeys.
    { intros l Hl. apply not_true_false. intros Hl'.
      apply key_is_true in Hl as [Hlp Hlu]. apply key_is_true in Hl' as [Hlp' Hlu'].
      destruct Hother as [Hne | Hne]; apply Hne; congruence. }
    subst db1. destruct (liked db id U); unfold liked; simpl.
    + apply existsb_filter_implied. intros l Hl. now rewrite Hkeys.
    + rewrite existsb_app. simpl. rewrite orb_false_r.
      destruct (key_is likes.post_id likes.user_id p u
                       (likes.mk new_id id U (Some now))) eqn:Hnew;
        [|apply orb_false_r].
      apply Hkeys in Hnew. unfold key_is in Hnew. simpl in Hnew.
      rewrite !String.eqb_refl in Hnew. discriminate.
  - exists (PostDetail.post_json (Some U) db1 P).
    assert (pk_posts db1) as Hpk1 by (unfold pk_posts; now rewrite Hp1).
    assert (In P (tbl_posts db1)) as Hin1 by now rewrite Hp1.
    subst id. rewrite fetchPost_readable by assumption.
    split; [reflexivity|]. split; [reflexivity|].
    intros u. simpl. apply shown_likes.
Qed.

Lemma detail_like_flips_witness :
  pk_posts db_liked /\ can_read db_liked (Some bob) public_post = true /\
  liked db_liked "p1" bob = true /\
  liked (srv_db (fst (PostDetail.toggleLike (Some bob) "p1" "l9" 90%Z (online db_liked)
                        (PostDetail.fetchPost (Some bob) "p1" (online db_liked)
                                              PostDetail.initial))))
        "p1" bob = false.
Proof.
  assert (pk_posts db_liked) as Hpk.
  { unfold pk_posts. simpl. repeat constructor; simpl; intuition discriminate. }
  assert (~ In "l9" (map likes.id (tbl_likes db_liked))) as Hfresh.
  { intros [H | []]. discriminate. }
  split; [exact Hpk|]. split; [reflexivity|]. split; [reflexivity|].
  exact (proj1 (detail_like_flips db_liked public_post bob PostDetail.initial "l9" 90%Z
                  Hpk (or_introl eq_refl) eq_refl eq_refl Hfresh)).
Defined.

(** ** Opening the editor and saving *)




